(** * DayWise: ordering keys, completion propagation and display sort

    A shallow embedding of the route handlers and of [sort_tasks] of
    [app.py].  The database is a record of three tables (lists of rows in
    primary-key order); a handler is a function from the acting user, the
    request and the committed database to the new committed database and
    the response.  Python integers are unbounded, hence [Z]. *)

From Stdlib Require Import ZArith List String Ascii Bool Lia.
From Stdlib Require Import Permutation Sorted OrdersEx RelationClasses.
Import ListNotations.

Local Open Scope string_scope.
Local Open Scope list_scope.
Local Open Scope Z_scope.

(** ** Python and SQL values *)

(** Truth value of a form field: [None] (field absent) and the empty
    string are falsy, every other string is truthy. *)
Definition truthy (s : option string) : bool :=
  match s with
  | Some s => negb (String.eqb s "")
  | None => false
  end.

(** An INTEGER of the storage engine is a signed 64-bit integer: binding a
    Python [int] outside this range to a statement raises
    [OverflowError]. *)
Definition sqlite_int (n : Z) : bool :=
  (- 2 ^ 63 <=? n) && (n <? 2 ^ 63).

(** [x or 0] on the scalar of an aggregate query: [None] and [0] are falsy. *)
Definition or_zero (x : option Z) : Z :=
  match x with
  | Some v => if v =? 0 then 0 else v
  | None => 0
  end.

(** SQL [a < b] and [a > b] in a WHERE clause: a comparison with NULL is
    not true, so the row is filtered out. *)
Definition sql_lt (a b : option Z) : bool :=
  match a, b with
  | Some x, Some y => x <? y
  | _, _ => false
  end.

Definition sql_gt (a b : option Z) : bool := sql_lt b a.

(** ORDER BY on a nullable integer column: NULL sorts before every
    integer in ascending order (SQLite). *)
Definition asc_leb (a b : option Z) : bool :=
  match a, b with
  | None, _ => true
  | Some _, None => false
  | Some x, Some y => x <=? y
  end.

Definition desc_leb (a b : option Z) : bool := asc_leb b a.

(** [func.max] over a nullable column: NULLs are skipped, and the result
    is NULL when no row carries a value. *)
Definition sql_max (col : list (option Z)) : option Z :=
  fold_left
    (fun acc v =>
       match acc, v with
       | Some m, Some x => Some (Z.max m x)
       | None, Some x => Some x
       | _, None => acc
       end)
    col None.

Definition first {A : Type} (rows : list A) : option A := hd_error rows.

(** ** Stable sort

    [sorted(xs, key=k)] and [ORDER BY] (with SQLite's scan, which keeps
    the earlier row among equal keys) are stable sorts; they are modelled by
    insertion of each element in front of the first element whose key is not
    smaller. *)
Section StableSort.
Context {A K : Type}.
Variable leb : K -> K -> bool.
Variable key : A -> K.

Fixpoint insert_by (x : A) (l : list A) : list A :=
  match l with
  | [] => [x]
  | y :: l' => if leb (key x) (key y) then x :: l else y :: insert_by x l'
  end.

Definition sorted (l : list A) : list A := fold_right insert_by [] l.

(** The order the sort establishes between an element and those after
    it. *)
Definition key_le (x y : A) : Prop := leb (key x) (key y) = true.
End StableSort.

Definition order_by {A : Type} (leb : option Z -> option Z -> bool)
    (col : A -> option Z) (rows : list A) : list A :=
  sorted leb col rows.

(** ** What the handlers take from the interpreter and the storage engine *)

Class Runtime := {
  (** [int(s)]: [None] stands for [ValueError]. *)
  py_int : string -> option Z;
  (** [s.lower()] *)
  py_lower : string -> string;
  (** the storage engine comparing a text operand with an INTEGER column:
      the integer the text is coerced to, if any *)
  sql_integer : string -> option Z;
  (** [datetime.now(timezone.utc)], evaluated once when the module is
      loaded and used as the column default from then on *)
  created_at_default : Z
}.

(** ** Models

    One record per mapped class, one field per column.  [order_index] is
    nullable and the sorter provides for its absence, hence [option Z];
    the completion flags are written by every handler that creates a row,
    hence [bool]. *)

Module Category.
Record t := mk {
  id : Z;
  name : string;
  color : string;
  user_id : Z
}.
End Category.

Module Task.
Record t := mk {
  id : Z;
  description : string;
  estimated_time : Z;
  is_completed : bool;
  priority : option string;
  time_block : option string;
  order_index : option Z;
  user_id : Z;
  category_id : option Z;
  created_at : Z
}.

Definition with_is_completed (b : bool) (r : t) : t :=
  mk (id r) (description r) (estimated_time r) b (priority r)
     (time_block r) (order_index r) (user_id r) (category_id r)
     (created_at r).

Definition with_order_index (k : option Z) (r : t) : t :=
  mk (id r) (description r) (estimated_time r) (is_completed r)
     (priority r) (time_block r) k (user_id r) (category_id r)
     (created_at r).
End Task.

Module Subtask.
Record t := mk {
  id : Z;
  description : string;
  is_completed : bool;
  order_index : option Z;
  task_id : Z;
  created_at : Z
}.

Definition with_is_completed (b : bool) (r : t) : t :=
  mk (id r) (description r) b (order_index r) (task_id r) (created_at r).

Definition with_order_index (k : option Z) (r : t) : t :=
  mk (id r) (description r) (is_completed r) k (task_id r) (created_at r).
End Subtask.

Record Db := mkDb {
  tasks : list Task.t;
  subtasks : list Subtask.t;
  categories : list Category.t
}.

Definition with_tasks (ts : list Task.t) (db : Db) : Db :=
  mkDb ts (subtasks db) (categories db).

Definition with_subtasks (ss : list Subtask.t) (db : Db) : Db :=
  mkDb (tasks db) ss (categories db).

(** Writing through a mapped object: the row with that primary key is
    replaced. *)
Definition update_row {R : Type} (pk : R -> Z) (i : Z) (f : R -> R)
    (rows : list R) : list R :=
  map (fun r => if pk r =? i then f r else r) rows.

(** [db.session.delete(obj)] *)
Definition delete_row {R : Type} (pk : R -> Z) (i : Z) (rows : list R)
    : list R :=
  filter (fun r => negb (pk r =? i)) rows.

(** The integer primary key given to an inserted row: one more than the
    largest key of the table, [1] in an empty table. *)
Definition next_id {R : Type} (pk : R -> Z) (rows : list R) : Z :=
  match sql_max (map (fun r => Some (pk r)) rows) with
  | Some m => m + 1
  | None => 1
  end.

(** [a, b = b', a'] on the [order_index] of two mapped rows. *)
Definition swap_rows {R : Type} (pk : R -> Z) (col : R -> option Z)
    (set : option Z -> R -> R) (a b : R) (rows : list R) : list R :=
  update_row pk (pk b) (set (col a))
    (update_row pk (pk a) (set (col b)) rows).

(** [Task.subtasks], a dynamic relationship: queried when used. *)
Definition task_subtasks (task : Task.t) (db : Db) : list Subtask.t :=
  filter (fun s => Subtask.task_id s =? Task.id task) (subtasks db).

Definition subtask_count (task : Task.t) (db : Db) : Z :=
  Z.of_nat (List.length (task_subtasks task db)).

Definition completed_subtask_count (task : Task.t) (db : Db) : Z :=
  Z.of_nat (List.length (filter Subtask.is_completed (task_subtasks task db))).

Definition has_subtasks (task : Task.t) (db : Db) : bool :=
  subtask_count task db >? 0.

(** [Subtask.parent_task], the backref of the relationship. *)
Definition parent_task (s : Subtask.t) (db : Db) : option Task.t :=
  first (filter (fun t => Task.id t =? Subtask.task_id s) (tasks db)).

(** ** Requests and responses *)

Inductive exception :=
| ValueError
| AttributeError
| OverflowError
| ArgumentError.

(** What a handler answers: the redirect to the dashboard, after
    [flash(msg)] if a message is given; the 404 of [first_or_404]; or an
    exception that leaves the handler. *)
Inductive response :=
| Redirect (flashed : option string)
| NotFound
| Unhandled (e : exception).

(** The fields of [request.form] read by [add_task] and [edit_task];
    [None] is an absent field. *)
Module TaskForm.
Record t := mk {
  description : option string;
  estimated_time : option string;
  priority : option string;
  time_block : option string;
  category_id : option string;
  order_index : option string
}.
End TaskForm.

Definition str (s : option string) : string :=
  match s with
  | Some s => s
  | None => ""
  end.

(** A column default fills in for a value of [None] when the row is
    inserted. *)
Definition column_default (d : string) (v : option string) : option string :=
  match v with
  | Some _ => v
  | None => Some d
  end.

Definition task_flash : string :=
  "Please enter a valid task description and estimated time.".

Definition subtask_flash : string :=
  "Please enter a valid subtask description.".

(** [dict.get(k, default)] on a dictionary with string keys. *)
Fixpoint dict_get (d : list (string * Z)) (k : option string) (default : Z)
    : Z :=
  match d, k with
  | (k', v) :: d', Some s =>
    if String.eqb k' s then v else dict_get d' k default
  | _, _ => default
  end.

(** ** The display sorter *)

Definition sort_key : Type := Z * Z * Z * Z * string.

(** Comparison of Python tuples: the first differing component decides.
    A [string] holds the UTF-8 bytes of the Python [str], whose byte-wise
    order is the order of the code points. *)
Definition key_compare (a b : sort_key) : comparison :=
  let '(c1, o1, b1, p1, n1) := a in
  let '(c2, o2, b2, p2, n2) := b in
  match c1 ?= c2 with
  | Eq =>
    match o1 ?= o2 with
    | Eq =>
      match b1 ?= b2 with
      | Eq =>
        match p1 ?= p2 with
        | Eq => String_as_OT.compare n1 n2
        | c => c
        end
      | c => c
      end
    | c => c
    end
  | c => c
  end.

Definition key_leb (a b : sort_key) : bool :=
  match key_compare a b with
  | Gt => false
  | _ => true
  end.

Section Handlers.
Context `{Runtime}.

Definition priority_order : list (string * Z) :=
  [("high", 1); ("medium", 2); ("low", 3)].

Definition time_block_order : list (string * Z) :=
  [("morning", 1); ("afternoon", 2); ("evening", 3); ("any", 4)].

Definition task_sort_key (task : Task.t) : sort_key :=
  let completion_key := if Task.is_completed task then 1 else 0 in
  let order_key :=
    match Task.order_index task with
    | Some k => k
    | None => 999
    end in
  let block_key := dict_get time_block_order (Task.time_block task) 99 in
  let priority_key := dict_get priority_order (Task.priority task) 99 in
  let name_key := py_lower (Task.description task) in
  (completion_key, order_key, block_key, priority_key, name_key).

Definition sort_tasks (tasks : list Task.t) : list Task.t :=
  sorted key_leb task_sort_key tasks.

(** ** Queries shared by the handlers *)

(** [Task.query.filter_by(id=task_id, user_id=current_user.id)] *)
Definition task_query (current_user task_id : Z) (db : Db)
    : list Task.t :=
  filter
    (fun t => (Task.id t =? task_id) && (Task.user_id t =? current_user))
    (tasks db).

(** [Subtask.query.join(Task).filter(Subtask.id == subtask_id,
    Task.user_id == current_user.id)] *)
Definition subtask_query (current_user subtask_id : Z) (db : Db)
    : list Subtask.t :=
  filter
    (fun s =>
       (Subtask.id s =? subtask_id)
       && existsb
            (fun t =>
               (Task.id t =? Subtask.task_id s)
               && (Task.user_id t =? current_user))
            (tasks db))
    (subtasks db).

(** [not description or not estimated_time or int(estimated_time) <= 0];
    [None] when [int] raises. *)
Definition invalid_task_fields (description estimated_time : option string)
    : option bool :=
  if negb (truthy description) then Some true
  else if negb (truthy estimated_time) then Some true
  else
    match py_int (str estimated_time) with
    | Some n => Some (n <=? 0)
    | None => None
    end.

(** The category check of [add_task] and [edit_task]: the reference is
    kept when it names a category of the acting user, dropped otherwise. *)
Definition checked_category (current_user : Z) (category_id : option string)
    (db : Db) : option Z :=
  if truthy category_id && negb (String.eqb (str category_id) "none") then
    match sql_integer (str category_id) with
    | Some c =>
      match
        first
          (filter
             (fun k =>
                (Category.id k =? c) && (Category.user_id k =? current_user))
             (categories db))
      with
      | Some _ => Some c
      | None => None
      end
    | None => None
    end
  else None.

(** ** Creation *)

Definition add_task (current_user : Z) (form : TaskForm.t) (db : Db)
    : Db * response :=
  let description := TaskForm.description form in
  let estimated_time := TaskForm.estimated_time form in
  let priority := TaskForm.priority form in
  let time_block := TaskForm.time_block form in
  let category_id := TaskForm.category_id form in
  match invalid_task_fields description estimated_time with
  | None => (db, Unhandled ValueError)
  | Some true => (db, Redirect (Some task_flash))
  | Some false =>
    let category_id := checked_category current_user category_id db in
    let highest_order :=
      or_zero
        (sql_max
           (map Task.order_index
              (filter (fun t => Task.user_id t =? current_user) (tasks db))))
    in
    match py_int (str estimated_time) with
    | None => (db, Unhandled ValueError)
    | Some minutes =>
      let new_task :=
        Task.mk (next_id Task.id (tasks db)) (str description) minutes false
          (column_default "medium" priority)
          (column_default "any" time_block)
          (Some (highest_order + 1)) current_user category_id
          created_at_default in
      (* [db.session.commit()]: the INSERT binds [estimated_time] *)
      if sqlite_int minutes then
        (with_tasks (tasks db ++ [new_task]) db, Redirect None)
      else (db, Unhandled OverflowError)
    end
  end.

Definition add_subtask (current_user task_id : Z)
    (subtask_description : option string) (db : Db) : Db * response :=
  match first (task_query current_user task_id db) with
  | None => (db, NotFound)
  | Some task =>
    let description := subtask_description in
    if negb (truthy description) then (db, Redirect (Some subtask_flash))
    else
      let highest_order :=
        or_zero
          (sql_max
             (map Subtask.order_index
                (filter (fun s => Subtask.task_id s =? task_id)
                   (subtasks db)))) in
      let new_subtask :=
        Subtask.mk (next_id Subtask.id (subtasks db)) (str description)
          false (Some (highest_order + 1)) task_id created_at_default in
      let db := with_subtasks (subtasks db ++ [new_subtask]) db in
      let db :=
        if Task.is_completed task then
          with_tasks
            (update_row Task.id (Task.id task)
               (Task.with_is_completed false) (tasks db)) db
        else db in
      (db, Redirect None)
  end.
(** ** Completion *)

Definition toggle_task (current_user task_id : Z) (db : Db)
    : Db * response :=
  match first (task_query current_user task_id db) with
  | None => (db, NotFound)
  | Some task =>
    let flag := negb (Task.is_completed task) in
    let db :=
      with_tasks
        (update_row Task.id (Task.id task) (Task.with_is_completed flag)
           (tasks db)) db in
    let task := Task.with_is_completed flag task in
    let db :=
      if Task.is_completed task && has_subtasks task db then
        fold_left
          (fun db subtask =>
             with_subtasks
               (update_row Subtask.id (Subtask.id subtask)
                  (Subtask.with_is_completed true) (subtasks db)) db)
          (task_subtasks task db) db
      else db in
    (db, Redirect None)
  end.

Definition toggle_subtask (current_user subtask_id : Z) (db : Db)
    : Db * response :=
  match first (subtask_query current_user subtask_id db) with
  | None => (db, NotFound)
  | Some subtask =>
    let db1 :=
      with_subtasks
        (update_row Subtask.id (Subtask.id subtask)
           (Subtask.with_is_completed (negb (Subtask.is_completed subtask)))
           (subtasks db)) db in
    match parent_task subtask db1 with
    | None => (db, Unhandled AttributeError)
    | Some parent_task =>
      let flag :=
        if subtask_count parent_task db1
           =? completed_subtask_count parent_task db1
        then true else false in
      (with_tasks
         (update_row Task.id (Task.id parent_task)
            (Task.with_is_completed flag) (tasks db1)) db1,
       Redirect None)
    end
  end.

Definition delete_subtask (current_user subtask_id : Z) (db : Db)
    : Db * response :=
  match first (subtask_query current_user subtask_id db) with
  | None => (db, NotFound)
  | Some subtask =>
    let parent := parent_task subtask db in
    (* first commit: the row is gone *)
    let db :=
      with_subtasks
        (delete_row Subtask.id (Subtask.id subtask) (subtasks db)) db in
    match parent with
    | None => (db, Unhandled AttributeError)
    | Some parent_task =>
      if (subtask_count parent_task db >? 0)
         && (subtask_count parent_task db
             =? completed_subtask_count parent_task db)
      then
        (with_tasks
           (update_row Task.id (Task.id parent_task)
              (Task.with_is_completed true) (tasks db)) db,
         Redirect None)
      else (db, Redirect None)
    end
  end.

Definition reset_all_tasks (current_user : Z) (db : Db) : Db * response :=
  let tasks_ :=
    filter (fun t => Task.user_id t =? current_user) (tasks db) in
  (fold_left
     (fun db task =>
        let db :=
          with_tasks
            (update_row Task.id (Task.id task)
               (Task.with_is_completed false) (tasks db)) db in
        fold_left
          (fun db subtask =>
             with_subtasks
               (update_row Subtask.id (Subtask.id subtask)
                  (Subtask.with_is_completed false) (subtasks db)) db)
          (task_subtasks task db) db)
     tasks_ db,
   Redirect None).

(** ** Editing *)

Definition edit_task (current_user task_id : Z) (form : TaskForm.t)
    (db : Db) : Db * response :=
  match first (task_query current_user task_id db) with
  | None => (db, NotFound)
  | Some task =>
    let description := TaskForm.description form in
    let estimated_time := TaskForm.estimated_time form in
    let priority := TaskForm.priority form in
    let time_block := TaskForm.time_block form in
    let category_id := TaskForm.category_id form in
    match invalid_task_fields description estimated_time with
    | None => (db, Unhandled ValueError)
    | Some true => (db, Redirect (Some task_flash))
    | Some false =>
      let category_id := checked_category current_user category_id db in
      match py_int (str estimated_time) with
      | None => (db, Unhandled ValueError)
      | Some minutes =>
        (* [db.session.commit()]: the UPDATE binds [estimated_time] *)
        if sqlite_int minutes then
          (with_tasks
             (update_row Task.id (Task.id task)
                (fun r =>
                   Task.mk (Task.id r) (str description) minutes
                     (Task.is_completed r) priority time_block
                     (Task.order_index r) (Task.user_id r) category_id
                     (Task.created_at r))
                (tasks db)) db,
           Redirect None)
        else (db, Unhandled OverflowError)
      end
    end
  end.

(** ** Reordering *)

Definition move_task_up (current_user task_id : Z) (db : Db)
    : Db * response :=
  match first (task_query current_user task_id db) with
  | None => (db, NotFound)
  | Some task =>
    (* [Task.order_index < task.order_index]: the expression language
       refuses an ordering comparison with [None] *)
    match Task.order_index task with
    | None => (db, Unhandled ArgumentError)
    | Some _ =>
      let prev_task :=
        first
          (order_by desc_leb Task.order_index
             (filter
                (fun r =>
                   (Task.user_id r =? current_user)
                   && sql_lt (Task.order_index r) (Task.order_index task)
                   && Bool.eqb (Task.is_completed r) (Task.is_completed task))
                (tasks db))) in
      match prev_task with
      | Some prev_task =>
        (with_tasks
           (swap_rows Task.id Task.order_index Task.with_order_index
              task prev_task (tasks db)) db,
         Redirect None)
      | None => (db, Redirect None)
      end
    end
  end.

Definition move_task_down (current_user task_id : Z) (db : Db)
    : Db * response :=
  match first (task_query current_user task_id db) with
  | None => (db, NotFound)
  | Some task =>
    (* [Task.order_index > task.order_index]: the expression language
       refuses an ordering comparison with [None] *)
    match Task.order_index task with
    | None => (db, Unhandled ArgumentError)
    | Some _ =>
      let next_task :=
        first
          (order_by asc_leb Task.order_index
             (filter
                (fun r =>
                   (Task.user_id r =? current_user)
                   && sql_gt (Task.order_index r) (Task.order_index task)
                   && Bool.eqb (Task.is_completed r) (Task.is_completed task))
                (tasks db))) in
      match next_task with
      | Some next_task =>
        (with_tasks
           (swap_rows Task.id Task.order_index Task.with_order_index
              task next_task (tasks db)) db,
         Redirect None)
      | None => (db, Redirect None)
      end
    end
  end.

Definition move_subtask_up (current_user subtask_id : Z) (db : Db)
    : Db * response :=
  match first (subtask_query current_user subtask_id db) with
  | None => (db, NotFound)
  | Some subtask =>
    (* [Subtask.order_index < subtask.order_index]: the expression language
       refuses an ordering comparison with [None] *)
    match Subtask.order_index subtask with
    | None => (db, Unhandled ArgumentError)
    | Some _ =>
      let prev_subtask :=
        first
          (order_by desc_leb Subtask.order_index
             (filter
                (fun r =>
                   (Subtask.task_id r =? Subtask.task_id subtask)
                   && sql_lt (Subtask.order_index r)
                        (Subtask.order_index subtask)
                   && Bool.eqb (Subtask.is_completed r)
                        (Subtask.is_completed subtask))
                (subtasks db))) in
      match prev_subtask with
      | Some prev_subtask =>
        (with_subtasks
           (swap_rows Subtask.id Subtask.order_index Subtask.with_order_index
              subtask prev_subtask (subtasks db)) db,
         Redirect None)
      | None => (db, Redirect None)
      end
    end
  end.

Definition move_subtask_down (current_user subtask_id : Z) (db : Db)
    : Db * response :=
  match first (subtask_query current_user subtask_id db) with
  | None => (db, NotFound)
  | Some subtask =>
    (* [Subtask.order_index > subtask.order_index]: the expression language
       refuses an ordering comparison with [None] *)
    match Subtask.order_index subtask with
    | None => (db, Unhandled ArgumentError)
    | Some _ =>
      let next_subtask :=
        first
          (order_by asc_leb Subtask.order_index
             (filter
                (fun r =>
                   (Subtask.task_id r =? Subtask.task_id subtask)
                   && sql_gt (Subtask.order_index r)
                        (Subtask.order_index subtask)
                   && Bool.eqb (Subtask.is_completed r)
                        (Subtask.is_completed subtask))
                (subtasks db))) in
      match next_subtask with
      | Some next_subtask =>
        (with_subtasks
           (swap_rows Subtask.id Subtask.order_index Subtask.with_order_index
              subtask next_subtask (subtasks db)) db,
         Redirect None)
      | None => (db, Redirect None)
      end
    end
  end.
End Handlers.

(** ** A runtime for ASCII requests

    [int] and [lower] of CPython and the numeric coercion of SQLite,
    restricted to ASCII text; it serves to run the handlers on concrete
    requests.  The theorems below hold for every [Runtime]. *)
Module AsciiRuntime.
(** The blanks [int] strips from an ASCII string, which are also the
    blanks SQLite skips around a number: tab, line feed, vertical tab, form
    feed, carriage return and space. *)
Definition is_space (c : ascii) : bool :=
  let n := N_of_ascii c in
  ((9 <=? n) && (n <=? 13) || (n =? 32))%N.

Definition is_digit (c : ascii) : bool :=
  let n := N_of_ascii c in
  ((48 <=? n) && (n <=? 57))%N.

Definition digit (c : ascii) : Z := Z.of_N (N_of_ascii c) - 48.

(** Decimal digits, single underscores allowed between two digits when
    [underscores] is set. *)
Fixpoint digits (underscores : bool) (acc : Z) (after_digit : bool)
    (cs : list ascii) : option Z :=
  match cs with
  | [] => if after_digit then Some acc else None
  | c :: cs' =>
    if is_digit c then digits underscores (10 * acc + digit c) true cs'
    else if underscores && after_digit && Ascii.eqb c "_" then
      digits underscores acc false cs'
    else None
  end.

Definition signed (underscores : bool) (plus : bool) (cs : list ascii)
    : option Z :=
  match cs with
  | c :: cs' =>
    if Ascii.eqb c "-" then option_map Z.opp (digits underscores 0 false cs')
    else if plus && Ascii.eqb c "+" then digits underscores 0 false cs'
    else digits underscores 0 false cs
  | [] => None
  end.

Fixpoint lstrip (cs : list ascii) : list ascii :=
  match cs with
  | c :: cs' => if is_space c then lstrip cs' else cs
  | [] => []
  end.

Definition strip (cs : list ascii) : list ascii :=
  rev (lstrip (rev (lstrip cs))).

(** [int(s)] in base 10: blanks around, a sign, digits with single
    underscores between them; a string of more than 4300 digits is
    refused (the default limit on integer strings). *)
Definition int (s : string) : option Z :=
  let cs := strip (list_ascii_of_string s) in
  if 4300 <? Z.of_nat (List.length (filter is_digit cs)) then None
  else signed true true cs.

Definition lower_char (c : ascii) : ascii :=
  let n := N_of_ascii c in
  if ((65 <=? n) && (n <=? 90))%N then ascii_of_N (n + 32) else c.

Fixpoint lower (s : string) : string :=
  match s with
  | EmptyString => EmptyString
  | String c s' => String (lower_char c) (lower s')
  end.

(** *** Text compared with an INTEGER column

    SQLite applies numeric affinity to the text: blanks, a sign, digits
    with at most one point, an exponent, blanks.  A text without point and
    exponent is read as an integer when it fits 64 bits; any other number
    is held as a binary64 value (taken here as the nearest one, ties to
    even), which equals an integer of the column only if it is integral.
    A text that is no number equals no integer. *)

(** The digits at the head of [cs]: their value appended to [acc], their
    count added to [count], and the rest. *)
Fixpoint read_digits (acc count : Z) (cs : list ascii)
    : Z * Z * list ascii :=
  match cs with
  | c :: cs' =>
    if is_digit c then read_digits (10 * acc + digit c) (count + 1) cs'
    else (acc, count, cs)
  | [] => (acc, count, [])
  end.

Definition read_sign (cs : list ascii) : bool * list ascii :=
  match cs with
  | c :: cs' =>
    if Ascii.eqb c "-" then (true, cs')
    else if Ascii.eqb c "+" then (false, cs')
    else (false, cs)
  | [] => (false, [])
  end.

(** A numeric literal: [significand * 10 ^ exponent], negated if
    [negative]; [is_real] when it has a point or an exponent. *)
Record literal := mk_literal {
  negative : bool;
  is_real : bool;
  significand : Z;
  exponent : Z
}.

(** The exponent part at the head of [cs], if there is one: whether, its
    value, and the rest; [None] for an [e] that no digit follows. *)
Definition read_exponent (cs : list ascii)
    : option (bool * Z * list ascii) :=
  match cs with
  | c :: cs' =>
    if Ascii.eqb c "e" || Ascii.eqb c "E" then
      let '(minus, cs'') := read_sign cs' in
      let '(e, n, rest) := read_digits 0 0 cs'' in
      if n =? 0 then None else Some (true, if minus then - e else e, rest)
    else Some (false, 0, cs)
  | [] => Some (false, 0, [])
  end.

Definition read_literal (cs : list ascii) : option literal :=
  let '(minus, cs) := read_sign (lstrip cs) in
  let '(whole, n_whole, cs) := read_digits 0 0 cs in
  let '(point, (sig, n_frac, cs)) :=
    match cs with
    | c :: cs' =>
      if Ascii.eqb c "." then (true, read_digits whole 0 cs')
      else (false, (whole, 0, cs))
    | [] => (false, (whole, 0, []))
    end in
  if n_whole + n_frac =? 0 then None
  else
    match read_exponent cs with
    | Some (has_exponent, e, rest) =>
      match lstrip rest with
      | [] => Some (mk_literal minus (point || has_exponent) sig (e - n_frac))
      | _ :: _ => None
      end
    | None => None
    end.

(** [n / d] rounded to the nearest integer, ties to the even one. *)
Definition round_half_even (n d : Z) : Z :=
  let q := n / d in
  let r := n mod d in
  if 2 * r <? d then q
  else if d <? 2 * r then q + 1
  else if Z.even q then q else q + 1.

(** [2 ^ k], and [1] for a negative [k]. *)
Definition pow2 (k : Z) : Z := 2 ^ Z.max 0 k.

(** The integer that the binary64 value nearest to [n / d] is, if it is
    one, for [0 <= n] and [0 < d].  A binary64 value is [m * 2 ^ e] with
    [m < 2 ^ 53] and [- 1074 <= e]; [k] is the binary logarithm of [n / d],
    rounded down. *)
Definition binary64_integer (n d : Z) : option Z :=
  if n =? 0 then Some 0
  else
    let k0 := Z.log2 n - Z.log2 d in
    let k := if d * pow2 k0 <=? n * pow2 (- k0) then k0 else k0 - 1 in
    let e := Z.max (k - 52) (- 1074) in
    let m := round_half_even (n * pow2 (- e)) (d * pow2 e) in
    if 0 <=? e then Some (m * pow2 e)
    else if m mod pow2 (- e) =? 0 then Some (m / pow2 (- e))
    else None.

Definition literal_integer (l : literal) : option Z :=
  let sign := if negative l then - 1 else 1 in
  let value :=
    if negb (is_real l) && sqlite_int (sign * significand l) then
      Some (significand l)
    else if significand l =? 0 then Some 0
    else if 19 <? exponent l then None
    else if Z.log2 (significand l) + 1080 <? 3 * - exponent l then Some 0
    else if 0 <=? exponent l then
      binary64_integer (significand l * 10 ^ exponent l) 1
    else binary64_integer (significand l) (10 ^ (- exponent l)) in
  match value with
  | Some n => if sqlite_int (sign * n) then Some (sign * n) else None
  | None => None
  end.

Definition integer (s : string) : option Z :=
  match read_literal (list_ascii_of_string s) with
  | Some l => literal_integer l
  | None => None
  end.

Definition runtime : Runtime := {|
  py_int := int;
  py_lower := lower;
  sql_integer := integer;
  created_at_default := 0
|}.
End AsciiRuntime.

(** ** Vocabulary of the statements *)

(** The lexicographic ascending order of the display sort, written out:
    completion, then order key, then time block, then priority, then
    name. *)
Definition lex_lt (a b : sort_key) : Prop :=
  let '(c1, o1, b1, p1, n1) := a in
  let '(c2, o2, b2, p2, n2) := b in
  c1 < c2 \/ c1 = c2 /\
  (o1 < o2 \/ o1 = o2 /\
   (b1 < b2 \/ b1 = b2 /\
    (p1 < p2 \/ p1 = p2 /\ String_as_OT.lt n1 n2))).

Definition lex_le (a b : sort_key) : Prop := lex_lt a b \/ a = b.

Definition key_eqb (a b : sort_key) : bool :=
  match key_compare a b with
  | Eq => true
  | _ => false
  end.

(** [x] occurs somewhere before [y] in [l]. *)
Definition precedes {A : Type} (x y : A) (l : list A) : Prop :=
  exists l1 l2 l3, l = l1 ++ x :: l2 ++ y :: l3.

(** Primary keys are unique within a table. *)
Definition primary_keys (db : Db) : Prop :=
  NoDup (map Task.id (tasks db)) /\ NoDup (map Subtask.id (subtasks db)).

(** The order keys present in a scope. *)
Definition present_keys (col : list (option Z)) : list Z :=
  flat_map (fun k => match k with Some k => [k] | None => [] end) col.

Definition task_scope (user : Z) (db : Db) : list Task.t :=
  filter (fun t => Task.user_id t =? user) (tasks db).

Definition subtask_scope (task : Z) (db : Db) : list Subtask.t :=
  filter (fun s => Subtask.task_id s =? task) (subtasks db).

(** ** Sample rows *)

Definition task_of (id : Z) (description : string) (is_completed : bool)
    (priority time_block : string) (order_index : option Z) (user_id : Z)
    : Task.t :=
  Task.mk id description 30 is_completed (Some priority) (Some time_block)
    order_index user_id None 0.

Definition subtask_of (id : Z) (description : string) (is_completed : bool)
    (order_index : Z) (task_id : Z) : Subtask.t :=
  Subtask.mk id description is_completed (Some order_index) task_id 0.

(** A row without order key and a row far down the list. *)
Definition unkeyed_task : Task.t :=
  task_of 1 "Inbox" false "medium" "any" None 1.

Definition late_task : Task.t :=
  task_of 2 "Archive" false "medium" "any" (Some 1000) 1.

Definition early_task : Task.t :=
  task_of 3 "Breakfast" false "medium" "any" (Some 1) 1.

(** The display example of the specification. *)
Definition task_A : Task.t := task_of 1 "A" true "medium" "any" (Some 1) 1.
Definition task_B : Task.t :=
  task_of 2 "Zeta" false "high" "morning" (Some 2) 1.
Definition task_C : Task.t :=
  task_of 3 "Alpha" false "high" "morning" (Some 3) 1.

(** The display order on tasks. *)
Definition display_le `{Runtime} (a b : Task.t) : Prop :=
  lex_le (task_sort_key a) (task_sort_key b).


(** The rows [register] creates for the first user of an empty database,
    with the primary keys the session assigns: the categories Health,
    Work, Learning and Personal get the ids 1 to 4, in this order. *)
Definition sample_db : Db := {|
  tasks :=
    [Task.mk 1 "Morning workout" 45 false (Some "medium") (Some "morning")
       (Some 1) 1 (Some 1) 0;
     Task.mk 2 "Team meeting" 60 false (Some "high") (Some "morning")
       (Some 2) 1 (Some 2) 0;
     Task.mk 3 "Work on Project X" 120 true (Some "high") (Some "afternoon")
       (Some 3) 1 (Some 2) 0;
     Task.mk 4 "Read documentation" 30 false (Some "low") (Some "any")
       (Some 4) 1 (Some 3) 0];
  subtasks :=
    [subtask_of 1 "Prepare meeting agenda" false 1 2;
     subtask_of 2 "Send meeting invites" true 2 2;
     subtask_of 3 "Setup frontend components" true 1 3];
  categories :=
    [Category.mk 1 "Health" "red" 1;
     Category.mk 2 "Work" "blue" 1;
     Category.mk 3 "Learning" "purple" 1;
     Category.mk 4 "Personal" "green" 1]
|}.

(** A task marked complete over two unfinished subtasks: it violates
    [consistent]. *)
Definition stale_db : Db := {|
  tasks := [task_of 1 "Report" true "high" "any" (Some 1) 1];
  subtasks :=
    [subtask_of 1 "Draft" false 1 1; subtask_of 2 "Review" false 2 1];
  categories := []
|}.


(** [AppendNew]: the key handed to a new entity of a scope whose present
    order keys are [keys]. *)
Definition append_new (keys : list Z) (k : Z) : Prop :=
  keys = [] /\ k = 1
  \/ exists m, In m keys /\ (forall j, In j keys -> j <= m) /\ k = m + 1.

Definition task_keys (user : Z) (db : Db) : list Z :=
  present_keys (map Task.order_index (task_scope user db)).

Definition subtask_keys (task : Z) (db : Db) : list Z :=
  present_keys (map Subtask.order_index (subtask_scope task db)).

(** A request that [add_task] and [edit_task] carry out: a description,
    and an estimated time that reads as a positive integer and fits the
    INTEGER column. *)
Definition valid_task_form `{Runtime} (form : TaskForm.t) : Prop :=
  truthy (TaskForm.description form) = true
  /\ truthy (TaskForm.estimated_time form) = true
  /\ exists n,
       py_int (str (TaskForm.estimated_time form)) = Some n
       /\ 0 < n < 2 ^ 63.

Definition form_with_order_index (o : option string) (f : TaskForm.t)
    : TaskForm.t :=
  TaskForm.mk (TaskForm.description f) (TaskForm.estimated_time f)
    (TaskForm.priority f) (TaskForm.time_block f) (TaskForm.category_id f) o.

Definition sample_form : TaskForm.t :=
  TaskForm.mk (Some "Call the bank") (Some "15") (Some "high")
    (Some "morning") (Some "2") (Some "0").


(** A request whose estimated time is not a number. *)
Definition non_numeric_form : TaskForm.t :=
  TaskForm.mk (Some "Call the bank") (Some "abc") (Some "high")
    (Some "morning") None None.

Definition empty_description_form : TaskForm.t :=
  TaskForm.mk (Some "") (Some "15") (Some "high") (Some "morning") None None.


(** Two rows that differ at most in their completion flag. *)
Definition task_same_but_flag (a b : Task.t) : Prop :=
  b = Task.with_is_completed (Task.is_completed b) a.

Definition subtask_same_but_flag (a b : Subtask.t) : Prop :=
  b = Subtask.with_is_completed (Subtask.is_completed b) a.

(** The subtask belongs to a task of that user. *)
Definition subtask_of_user (user : Z) (db : Db) (s : Subtask.t) : bool :=
  existsb
    (fun t => (Task.id t =? Subtask.task_id s) && (Task.user_id t =? user))
    (tasks db).


(** ** Vocabulary of the reordering statements *)

Section ReorderVocabulary.
Context {R : Type}.
Variable col : R -> option Z.
Variable set : option Z -> R -> R.
Variable in_scope : R -> bool.
Variable done : R -> bool.

(** [rows'] is [rows] with the order keys of the two rows [x] and [p]
    exchanged, every other row and every other field as it was. *)
Definition keys_swapped (x p : R) (rows rows' : list R) : Prop :=
  exists l1 l2 l3,
    rows = l1 ++ x :: l2 ++ p :: l3
    /\ rows' = l1 ++ set (col p) x :: l2 ++ set (col x) p :: l3
    \/ rows = l1 ++ p :: l2 ++ x :: l3
       /\ rows' = l1 ++ set (col x) p :: l2 ++ set (col p) x :: l3.

(** The rows a move of [x] may exchange keys with: same scope, same
    completion cohort, order key on the side [cmp] of that of [x]. *)
Definition candidate (cmp : option Z -> option Z -> bool) (x r : R)
    : bool :=
  in_scope r && cmp (col r) (col x) && Bool.eqb (done r) (done x).

(** One move: a no-op when there is no candidate, otherwise an exchange
    of keys with one candidate. *)
Definition reorder_step (cmp : option Z -> option Z -> bool) (x : R)
    (rows rows' : list R) : Prop :=
  (forall r, In r rows -> candidate cmp x r = false) /\ rows' = rows
  \/ exists p,
       In p rows /\ candidate cmp x p = true /\ keys_swapped x p rows rows'.

(** The query of the four move handlers. *)
Definition neighbour (cmp leb : option Z -> option Z -> bool) (x : R)
    (rows : list R) : option R :=
  first (order_by leb col (filter (candidate cmp x) rows)).

(** No other row of the scope and cohort of [x] carries its order key. *)
Definition key_unique (pk : R -> Z) (x : R) (rows : list R) : Prop :=
  forall r, In r rows -> in_scope r = true -> done r = done x ->
    col r = col x -> pk r = pk x.
End ReorderVocabulary.


(** The effect of [swap_rows] on one row. *)
Definition exchange {R : Type} (pk : R -> Z) (col : R -> option Z)
    (set : option Z -> R -> R) (x p r : R) : R :=
  if pk r =? pk x then set (col p) r
  else if pk r =? pk p then set (col x) r
  else r.

Definition same_user (user : Z) (t : Task.t) : bool :=
  Task.user_id t =? user.

Definition same_parent (s r : Subtask.t) : bool :=
  Subtask.task_id r =? Subtask.task_id s.

(** What a move of the task [task_id] of [user] may do to the database. *)
Definition task_move_outcome (cmp : option Z -> option Z -> bool)
    (user task_id : Z) (db db' : Db) : Prop :=
  match first (task_query user task_id db) with
  | None => db' = db
  | Some task =>
    subtasks db' = subtasks db
    /\ categories db' = categories db
    /\ reorder_step Task.order_index Task.with_order_index (same_user user)
         Task.is_completed cmp task (tasks db) (tasks db')
    /\ Permutation (map Task.order_index (task_scope user db'))
         (map Task.order_index (task_scope user db))
  end.

Definition subtask_move_outcome (cmp : option Z -> option Z -> bool)
    (user subtask_id : Z) (db db' : Db) : Prop :=
  match first (subtask_query user subtask_id db) with
  | None => db' = db
  | Some subtask =>
    tasks db' = tasks db
    /\ categories db' = categories db
    /\ reorder_step Subtask.order_index Subtask.with_order_index
         (same_parent subtask) Subtask.is_completed cmp subtask
         (subtasks db) (subtasks db')
    /\ Permutation
         (map Subtask.order_index
            (subtask_scope (Subtask.task_id subtask) db'))
         (map Subtask.order_index
            (subtask_scope (Subtask.task_id subtask) db))
  end.

(** Two incomplete tasks of one user sharing the order key 2. *)
Definition tie_db : Db := {|
  tasks :=
    [task_of 1 "Errands" false "medium" "any" (Some 2) 1;
     task_of 2 "Post office" false "medium" "any" (Some 1) 1;
     task_of 3 "Taxes" false "medium" "any" (Some 2) 1];
  subtasks := [];
  categories := []
|}.


(** Two open tasks of user 1, the second with three subtasks. *)
Definition trip_db : Db := {|
  tasks :=
    [task_of 1 "Book flights" false "high" "morning" (Some 1) 1;
     task_of 2 "Pack" false "medium" "evening" (Some 2) 1];
  subtasks :=
    [subtask_of 1 "Passport" false 1 2;
     subtask_of 2 "Tickets" false 2 2;
     subtask_of 3 "Charger" true 3 2];
  categories := []
|}.


(** ** The remaining handlers *)

Definition subtask_with_description (d : string) (r : Subtask.t)
    : Subtask.t :=
  Subtask.mk (Subtask.id r) d (Subtask.is_completed r)
    (Subtask.order_index r) (Subtask.task_id r) (Subtask.created_at r).

Definition task_with_category_id (c : option Z) (r : Task.t) : Task.t :=
  Task.mk (Task.id r) (Task.description r) (Task.estimated_time r)
    (Task.is_completed r) (Task.priority r) (Task.time_block r)
    (Task.order_index r) (Task.user_id r) c (Task.created_at r).

Definition with_categories (cs : list Category.t) (db : Db) : Db :=
  mkDb (tasks db) (subtasks db) cs.

Definition category_flash : string := "Please enter a valid category name.".

Definition duplicate_category_flash : string :=
  "A category with this name already exists.".

Definition edit_subtask (current_user subtask_id : Z)
    (description : option string) (db : Db) : Db * response :=
  match first (subtask_query current_user subtask_id db) with
  | None => (db, NotFound)
  | Some subtask =>
    if negb (truthy description) then (db, Redirect (Some subtask_flash))
    else
      (with_subtasks
         (update_row Subtask.id (Subtask.id subtask)
            (subtask_with_description (str description)) (subtasks db)) db,
       Redirect None)
  end.

(** [db.session.delete(task)]: the relationship [Task.subtasks] cascades
    the deletion to every subtask of the task. *)
Definition delete_task (current_user task_id : Z) (db : Db)
    : Db * response :=
  match first (task_query current_user task_id db) with
  | None => (db, NotFound)
  | Some task =>
    let db :=
      fold_left
        (fun db subtask =>
           with_subtasks
             (delete_row Subtask.id (Subtask.id subtask) (subtasks db)) db)
        (task_subtasks task db) db in
    (with_tasks (delete_row Task.id (Task.id task) (tasks db)) db,
     Redirect None)
  end.

(** [Category.query.filter_by(name=name, user_id=current_user.id)] *)
Definition category_named (current_user : Z) (name : string) (db : Db)
    : list Category.t :=
  filter
    (fun k =>
       String.eqb (Category.name k) name
       && (Category.user_id k =? current_user))
    (categories db).

(** [Category.query.filter_by(id=category_id, user_id=current_user.id)] *)
Definition category_query (current_user category_id : Z) (db : Db)
    : list Category.t :=
  filter
    (fun k =>
       (Category.id k =? category_id) && (Category.user_id k =? current_user))
    (categories db).

Definition add_category (current_user : Z) (name color : option string)
    (db : Db) : Db * response :=
  let color :=
    match color with
    | Some c => c
    | None => "blue"
    end in
  if negb (truthy name) then (db, Redirect (Some category_flash))
  else
    match first (category_named current_user (str name) db) with
    | Some _ => (db, Redirect (Some duplicate_category_flash))
    | None =>
      let new_category :=
        Category.mk (next_id Category.id (categories db)) (str name) color
          current_user in
      (with_categories (categories db ++ [new_category]) db, Redirect None)
    end.

(** [Task.query.filter_by(category_id=category_id)]: a NULL reference
    matches no id. *)
Definition in_category (category_id : Z) (t : Task.t) : bool :=
  match Task.category_id t with
  | Some c => c =? category_id
  | None => false
  end.

Definition delete_category (current_user category_id : Z) (db : Db)
    : Db * response :=
  match first (category_query current_user category_id db) with
  | None => (db, NotFound)
  | Some category =>
    let tasks_ := filter (in_category category_id) (tasks db) in
    let db :=
      fold_left
        (fun db task =>
           with_tasks
             (update_row Task.id (Task.id task) (task_with_category_id None)
                (tasks db)) db)
        tasks_ db in
    (with_categories
       (delete_row Category.id (Category.id category) (categories db)) db,
     Redirect None)
  end.

(** ** The dashboard

    What [dashboard] hands to the template, the progress percentage (a
    rounded floating-point quotient), the dates and the display preference
    apart. *)

Record view := mkView {
  view_tasks : list Task.t;
  total_tasks : Z;
  completed_tasks : Z;
  in_progress_tasks : Z;
  view_subtasks : list (Z * list Subtask.t);
  view_categories : list Category.t
}.

(** [task._sorted_subtasks] *)
Definition sorted_subtasks (task : Task.t) (db : Db) : list Subtask.t :=
  let subtasks_incomplete :=
    order_by asc_leb Subtask.order_index
      (filter
         (fun s =>
            (Subtask.task_id s =? Task.id task)
            && Bool.eqb (Subtask.is_completed s) false)
         (subtasks db)) in
  let subtasks_complete :=
    order_by asc_leb Subtask.order_index
      (filter
         (fun s =>
            (Subtask.task_id s =? Task.id task)
            && Bool.eqb (Subtask.is_completed s) true)
         (subtasks db)) in
  subtasks_incomplete ++ subtasks_complete.

Definition dashboard `{Runtime} (current_user : Z) (category : option string)
    (db : Db) : view :=
  let category_id :=
    match category with
    | Some c => c
    | None => "all"
    end in
  let tasks_ :=
    if String.eqb category_id "all" then
      filter (fun t => Task.user_id t =? current_user) (tasks db)
    else
      match sql_integer category_id with
      | Some c =>
        filter
          (fun t => (Task.user_id t =? current_user) && in_category c t)
          (tasks db)
      | None => []
      end in
  let categories_ :=
    filter (fun k => Category.user_id k =? current_user) (categories db) in
  let total_tasks := Z.of_nat (List.length tasks_) in
  let completed_tasks :=
    Z.of_nat (List.length (filter Task.is_completed tasks_)) in
  let in_progress_tasks := total_tasks - completed_tasks in
  let sorted_tasks := sort_tasks tasks_ in
  mkView sorted_tasks total_tasks completed_tasks in_progress_tasks
    (map (fun task => (Task.id task, sorted_subtasks task db)) sorted_tasks)
    categories_.

(** ** The routes

    The POST routes modelled above, each with the parameters it takes from
    the URL and the form. *)
Inductive request :=
| AddTask (form : TaskForm.t)
| ToggleTask (task_id : Z)
| AddSubtask (task_id : Z) (subtask_description : option string)
| ToggleSubtask (subtask_id : Z)
| EditSubtask (subtask_id : Z) (description : option string)
| MoveSubtaskUp (subtask_id : Z)
| MoveSubtaskDown (subtask_id : Z)
| DeleteSubtask (subtask_id : Z)
| EditTask (task_id : Z) (form : TaskForm.t)
| DeleteTask (task_id : Z)
| ResetAllTasks
| AddCategory (name color : option string)
| DeleteCategory (category_id : Z)
| MoveTaskUp (task_id : Z)
| MoveTaskDown (task_id : Z).

Definition handle `{Runtime} (current_user : Z) (r : request) (db : Db)
    : Db * response :=
  match r with
  | AddTask form => add_task current_user form db
  | ToggleTask task_id => toggle_task current_user task_id db
  | AddSubtask task_id d => add_subtask current_user task_id d db
  | ToggleSubtask subtask_id => toggle_subtask current_user subtask_id db
  | EditSubtask subtask_id d => edit_subtask current_user subtask_id d db
  | MoveSubtaskUp subtask_id => move_subtask_up current_user subtask_id db
  | MoveSubtaskDown subtask_id => move_subtask_down current_user subtask_id db
  | DeleteSubtask subtask_id => delete_subtask current_user subtask_id db
  | EditTask task_id form => edit_task current_user task_id form db
  | DeleteTask task_id => delete_task current_user task_id db
  | ResetAllTasks => reset_all_tasks current_user db
  | AddCategory name color => add_category current_user name color db
  | DeleteCategory category_id => delete_category current_user category_id db
  | MoveTaskUp task_id => move_task_up current_user task_id db
  | MoveTaskDown task_id => move_task_down current_user task_id db
  end.

(** The database after a series of requests, each by a logged-in user. *)
Definition run `{Runtime} (rs : list (Z * request)) (db : Db) : Db :=
  fold_left (fun db ur => fst (handle (fst ur) (snd ur) db)) rs db.

(** ** Vocabulary of the further statements *)

Definition incomplete (t : Task.t) : bool := negb (Task.is_completed t).

Definition open_subtask (s : Subtask.t) : bool :=
  negb (Subtask.is_completed s).

(** Ascending order keys, as [ORDER BY order_index] leaves them. *)
Definition ascending (a b : Subtask.t) : Prop :=
  asc_leb (Subtask.order_index a) (Subtask.order_index b) = true.


(** ** Invariants of the database *)

(** Primary keys are unique in all three tables. *)
Definition keys_ok (db : Db) : Prop :=
  primary_keys db /\ NoDup (map Category.id (categories db)).

(** A task is marked complete only if all its subtasks are. *)
Definition consistent (db : Db) : Prop :=
  forall t, In t (tasks db) -> Task.is_completed t = true ->
    forallb Subtask.is_completed (task_subtasks t db) = true.

(** Within the tasks of one user, and within the subtasks of one task, no
    two rows carry the same order key. *)
Definition distinct_order_keys (db : Db) : Prop :=
  (forall u, NoDup (map Task.order_index (task_scope u db)))
  /\ (forall t, NoDup (map Subtask.order_index (subtask_scope t db))).

(** A category reference names a category of the owner of the task. *)
Definition category_refs_owned (db : Db) : Prop :=
  forall t c, In t (tasks db) -> Task.category_id t = Some c ->
    exists k,
      In k (categories db) /\ Category.id k = c
      /\ Category.user_id k = Task.user_id t.

(** No user has two categories of the same name. *)
Definition category_names_unique (db : Db) : Prop :=
  forall a b, In a (categories db) -> In b (categories db) ->
    Category.user_id a = Category.user_id b ->
    Category.name a = Category.name b -> a = b.

(** The rows of the other users: their tasks, the subtasks of their
    tasks, their categories. *)
Definition foreign_task (user : Z) (t : Task.t) : bool :=
  negb (Task.user_id t =? user).

Definition foreign_subtask (user : Z) (db : Db) (s : Subtask.t) : bool :=
  existsb
    (fun t => (Task.id t =? Subtask.task_id s) && foreign_task user t)
    (tasks db).

Definition foreign_category (user : Z) (k : Category.t) : bool :=
  negb (Category.user_id k =? user).

Definition others (user : Z) (db : Db)
    : list Task.t * list Subtask.t * list Category.t :=
  (filter (foreign_task user) (tasks db),
   filter (foreign_subtask user db) (subtasks db),
   filter (foreign_category user) (categories db)).

(** What the invariants look at. *)
Definition task_flags (db : Db) : list (Z * bool) :=
  map (fun t => (Task.id t, Task.is_completed t)) (tasks db).

Definition subtask_flags (db : Db) : list (Z * bool) :=
  map (fun s => (Subtask.task_id s, Subtask.is_completed s)) (subtasks db).

Definition task_orders (db : Db) : list (Z * option Z) :=
  map (fun t => (Task.user_id t, Task.order_index t)) (tasks db).

Definition subtask_orders (db : Db) : list (Z * option Z) :=
  map (fun s => (Subtask.task_id s, Subtask.order_index s)) (subtasks db).

Definition task_owners (db : Db) : list (Z * Z) :=
  map (fun t => (Task.id t, Task.user_id t)) (tasks db).

Definition task_categories (db : Db) : list (Z * option Z) :=
  map (fun t => (Task.user_id t, Task.category_id t)) (tasks db).

Definition category_owners (db : Db) : list (Z * Z) :=
  map (fun k => (Category.id k, Category.user_id k)) (categories db).

(** Every subtask belongs to a task of the table. *)
Definition no_orphans (db : Db) : Prop :=
  forall s, In s (subtasks db) ->
    exists t, In t (tasks db) /\ Task.id t = Subtask.task_id s.

(** Two users, each with a task, a subtask and a category. *)
Definition shared_db : Db := {|
  tasks :=
    [Task.mk 1 "Groceries" 20 false (Some "medium") (Some "any") (Some 1) 1
       (Some 1) 0;
     Task.mk 2 "Invoices" 90 true (Some "high") (Some "morning") (Some 1) 2
       (Some 2) 0];
  subtasks :=
    [subtask_of 1 "Milk" false 1 1; subtask_of 2 "March" true 1 2];
  categories :=
    [Category.mk 1 "Home" "blue" 1; Category.mk 2 "Office" "red" 2]
|}.

(** A session of user 1 and user 2 on [sample_db]. *)
Definition sample_session : list (Z * request) :=
  [(1, AddSubtask 3 (Some "Write tests"));
   (1, ToggleTask 2);
   (2, DeleteTask 1);
   (1, MoveTaskUp 4);
   (1, AddCategory (Some "Errands") None);
   (1, DeleteCategory 1);
   (1, ToggleSubtask 4)].

(** The answer of a move handler that found the row to move. *)
Definition move_response (key : option Z) : response :=
  match key with
  | None => Unhandled ArgumentError
  | Some _ => Redirect None
  end.

(** * Properties *)

(** ** The stable sort *)

Section StableSortFacts.
Context {A K : Type}.
Variable leb : K -> K -> bool.
Variable key : A -> K.
Hypothesis leb_total : forall a b, leb a b = false -> leb b a = true.
Hypothesis leb_trans :
  forall a b c, leb a b = true -> leb b c = true -> leb a c = true.

Lemma insert_by_perm x l : Permutation (insert_by leb key x l) (x :: l).
Proof.
  induction l as [|y l IH]; simpl; [reflexivity|].
  destruct (leb (key x) (key y)); [reflexivity|].
  rewrite IH. apply perm_swap.
Qed.

Lemma sorted_perm l : Permutation (sorted leb key l) l.
Proof.
  induction l as [|x l IH]; simpl; [constructor|].
  rewrite insert_by_perm. now constructor.
Qed.

Lemma insert_by_sorted x l :
  StronglySorted (key_le leb key) l ->
  StronglySorted (key_le leb key) (insert_by leb key x l).
Proof.
  induction 1 as [|y l Hl IH Hy]; simpl.
  - repeat constructor.
  - destruct (leb (key x) (key y)) eqn:E.
    + constructor; [now constructor|].
      constructor; [exact E|].
      rewrite Forall_forall in Hy |- *. intros z Hz.
      exact (leb_trans _ _ _ E (Hy z Hz)).
    + constructor; [exact IH|].
      rewrite Forall_forall in Hy |- *. intros z Hz.
      apply (Permutation_in _ (insert_by_perm x l)) in Hz.
      destruct Hz as [<-|Hz]; [now apply leb_total|now apply Hy].
Qed.

Lemma sorted_sorted l : StronglySorted (key_le leb key) (sorted leb key l).
Proof.
  induction l as [|x l IH]; simpl; [constructor|].
  now apply insert_by_sorted.
Qed.

(** Stability: a class of elements whose keys are pairwise related keeps
    its input order. *)
Lemma insert_by_filter (p : A -> bool) x l :
  (forall a b, p a = true -> p b = true -> key_le leb key a b) ->
  filter p (insert_by leb key x l) = filter p (x :: l).
Proof.
  intros Hp. induction l as [|y l IH]; simpl; [reflexivity|].
  destruct (leb (key x) (key y)) eqn:E; [reflexivity|].
  simpl in *. rewrite IH.
  destruct (p x) eqn:Px, (p y) eqn:Py; try reflexivity.
  unfold key_le in Hp. rewrite (Hp x y Px Py) in E. discriminate.
Qed.

Lemma sorted_stable (p : A -> bool) l :
  (forall a b, p a = true -> p b = true -> key_le leb key a b) ->
  filter p (sorted leb key l) = filter p l.
Proof.
  intros Hp. induction l as [|x l IH]; simpl; [reflexivity|].
  rewrite (insert_by_filter p x _ Hp). simpl. now rewrite IH.
Qed.

Lemma first_sorted_some l h :
  first (sorted leb key l) = Some h ->
  In h l /\ forall y, In y l -> key_le leb key h y.
Proof.
  intros Hh. pose proof (sorted_sorted l) as Hs.
  pose proof (sorted_perm l) as Hp.
  destruct (sorted leb key l) as [|h' r] eqn:E; [discriminate|].
  injection Hh as ->. split.
  - apply (Permutation_in _ Hp). now left.
  - intros y Hy. apply (Permutation_in _ (Permutation_sym Hp)) in Hy.
    inversion Hs as [|? ? _ Hall]; subst.
    destruct Hy as [<-|Hy].
    + unfold key_le. destruct (leb (key h) (key h)) eqn:E'; [reflexivity|].
      pose proof (leb_total _ _ E') as E''. congruence.
    + rewrite Forall_forall in Hall. now apply Hall.
Qed.

Lemma first_sorted_none l : first (sorted leb key l) = None -> l = [].
Proof.
  intros Hh. pose proof (sorted_perm l) as Hp.
  destruct (sorted leb key l); [|discriminate].
  now apply Permutation_nil.
Qed.
End StableSortFacts.

(** ** The order on sort keys *)

Lemma key_compare_spec a b :
  CompareSpec (a = b) (lex_lt a b) (lex_lt b a) (key_compare a b).
Proof.
  destruct a as [[[[c1 o1] b1] p1] n1], b as [[[[c2 o2] b2] p2] n2].
  unfold key_compare, lex_lt.
  destruct (Z.compare_spec c1 c2); [subst|constructor; lia..].
  destruct (Z.compare_spec o1 o2); [subst|constructor; lia..].
  destruct (Z.compare_spec b1 b2); [subst|constructor; lia..].
  destruct (Z.compare_spec p1 p2); [subst|constructor; lia..].
  destruct (String_as_OT.compare_spec n1 n2) as [E|E|E];
    [red in E; subst; now constructor|constructor; intuition..].
Qed.

Lemma lex_lt_irrefl a : ~ lex_lt a a.
Proof.
  destruct a as [[[[c o] b] p] n]. unfold lex_lt. intros E.
  assert (String_as_OT.lt n n) as E' by (intuition lia).
  exact (StrictOrder_Irreflexive n E').
Qed.

Lemma lex_lt_trans a b c : lex_lt a b -> lex_lt b c -> lex_lt a c.
Proof.
  destruct a as [[[[c1 o1] b1] p1] n1], b as [[[[c2 o2] b2] p2] n2],
    c as [[[[c3 o3] b3] p3] n3].
  unfold lex_lt. intros E1 E2.
  assert (String_as_OT.lt n1 n2 -> String_as_OT.lt n2 n3 ->
          String_as_OT.lt n1 n3) as T
    by (intros; etransitivity; eassumption).
  intuition (subst; try lia; auto 10).
Qed.

Lemma key_leb_le a b : key_leb a b = true <-> lex_le a b.
Proof.
  unfold key_leb, lex_le.
  destruct (key_compare_spec a b) as [E|E|E]; split; intros G; auto.
  - discriminate.
  - exfalso. destruct G as [G| ->].
    + exact (lex_lt_irrefl _ (lex_lt_trans _ _ _ E G)).
    + exact (lex_lt_irrefl _ E).
Qed.

Lemma key_leb_total a b : key_leb a b = false -> key_leb b a = true.
Proof.
  intros E. apply key_leb_le. unfold key_leb in E.
  destruct (key_compare_spec a b); try discriminate. now left.
Qed.

Lemma key_leb_trans a b c :
  key_leb a b = true -> key_leb b c = true -> key_leb a c = true.
Proof.
  rewrite !key_leb_le. unfold lex_le.
  intros [E1| ->] [E2| ->]; auto.
  left. exact (lex_lt_trans _ _ _ E1 E2).
Qed.

Lemma key_eqb_eq a b : key_eqb a b = true <-> a = b.
Proof.
  unfold key_eqb. destruct (key_compare_spec a b) as [E|E|E]; split; auto;
    try discriminate; intros ->; exfalso; exact (lex_lt_irrefl _ E).
Qed.

(** ** Positions in a sorted list *)

Lemma sorted_app_tail {A : Type} (R : A -> A -> Prop) l1 a l2 :
  StronglySorted R (l1 ++ a :: l2) -> Forall (R a) l2.
Proof.
  induction l1 as [|x l1 IH]; simpl; intros Hs;
    inversion Hs; subst; auto.
Qed.

Lemma sorted_precedes {A : Type} (R : A -> A -> Prop) l a b :
  StronglySorted R l -> In a l -> In b l -> a <> b -> ~ R a b ->
  precedes b a l.
Proof.
  intros Hs Ha Hb Hab Hn.
  destruct (in_split _ _ Ha) as (l1 & l2 & ->).
  apply sorted_app_tail in Hs. rewrite Forall_forall in Hs.
  apply in_app_or in Hb. destruct Hb as [Hb|[Hb|Hb]].
  - destruct (in_split _ _ Hb) as (m1 & m2 & ->).
    exists m1, m2, l2. now rewrite <- app_assoc.
  - congruence.
  - elim Hn. now apply Hs.
Qed.

Lemma StronglySorted_mono {A : Type} (R S : A -> A -> Prop) l :
  (forall a b, R a b -> S a b) -> StronglySorted R l -> StronglySorted S l.
Proof.
  intros HRS. induction 1 as [|x l _ IH Hx]; constructor; auto.
  eapply Forall_impl; [|exact Hx]. auto.
Qed.

(** ** The display sorter *)

Section DisplaySorter.
Context `{Runtime}.

Lemma sort_tasks_sorted l : StronglySorted display_le (sort_tasks l).
Proof.
  pose proof
    (sorted_sorted key_leb task_sort_key key_leb_total key_leb_trans l)
    as Hs.
  eapply StronglySorted_mono; [|exact Hs].
  intros a b. apply key_leb_le.
Qed.

Lemma null_key_after a b k :
  Task.is_completed a = Task.is_completed b ->
  Task.order_index a = None -> Task.order_index b = Some k -> k < 999 ->
  ~ display_le a b.
Proof.
  unfold display_le, lex_le, lex_lt, task_sort_key.
  intros -> -> -> Hk [E|E]; [|inversion E; lia].
  destruct E as [E|[_ [E|[E _]]]];
    destruct (Task.is_completed b); lia.
Qed.

Lemma null_key_before a b k :
  Task.is_completed a = Task.is_completed b ->
  Task.order_index a = None -> Task.order_index b = Some k -> 999 < k ->
  ~ display_le b a.
Proof.
  unfold display_le, lex_le, lex_lt, task_sort_key.
  intros -> -> -> Hk [E|E]; [|inversion E; lia].
  destruct E as [E|[_ [E|[E _]]]];
    destruct (Task.is_completed b); lia.
Qed.

(** C4 (amended): [sort_tasks] returns its input reordered in ascending
    lexicographic order of (completion, order key, time block rank,
    priority rank, lowered description), ties keeping their input order;
    the ranks are morning=1, afternoon=2, evening=3, any=4 and high=1,
    medium=2, low=3; a null order key counts as 999, so a null-keyed task
    comes after every task of its completion cohort whose order key is
    below 999 and before every one whose order key is above 999. *)
Theorem sort_tasks_display_order (l : list Task.t) :
  Permutation (sort_tasks l) l
  /\ StronglySorted display_le (sort_tasks l)
  /\ (forall k,
        filter (fun t => key_eqb (task_sort_key t) k) (sort_tasks l)
        = filter (fun t => key_eqb (task_sort_key t) k) l)
  /\ (forall t,
        task_sort_key t
        = (if Task.is_completed t then 1 else 0,
           match Task.order_index t with Some k => k | None => 999 end,
           dict_get time_block_order (Task.time_block t) 99,
           dict_get priority_order (Task.priority t) 99,
           py_lower (Task.description t)))
  /\ map (fun s => dict_get time_block_order (Some s) 99)
       ["morning"; "afternoon"; "evening"; "any"] = [1; 2; 3; 4]
  /\ map (fun s => dict_get priority_order (Some s) 99)
       ["high"; "medium"; "low"] = [1; 2; 3]
  /\ (forall a b k,
        In a l -> In b l ->
        Task.is_completed a = Task.is_completed b ->
        Task.order_index a = None -> Task.order_index b = Some k ->
        (k < 999 -> precedes b a (sort_tasks l))
        /\ (999 < k -> precedes a b (sort_tasks l))).
Proof.
  pose proof (sorted_perm key_leb task_sort_key l) as Hp.
  repeat split; try reflexivity.
  - exact Hp.
  - apply sort_tasks_sorted.
  - intros k. apply sorted_stable. intros a b Ha Hb.
    apply key_eqb_eq in Ha, Hb. unfold key_le. apply key_leb_le.
    right. congruence.
  - intros Hk.
    apply (sorted_precedes display_le); auto using sort_tasks_sorted.
    + now apply (Permutation_in _ (Permutation_sym Hp)).
    + now apply (Permutation_in _ (Permutation_sym Hp)).
    + congruence.
    + now apply (null_key_after a b k).
  - intros Hk.
    apply (sorted_precedes display_le); auto using sort_tasks_sorted.
    + now apply (Permutation_in _ (Permutation_sym Hp)).
    + now apply (Permutation_in _ (Permutation_sym Hp)).
    + congruence.
    + now apply (null_key_before a b k).
Qed.
End DisplaySorter.

Example sort_tasks_spec_example :
  @sort_tasks AsciiRuntime.runtime [task_A; task_B; task_C]
  = [task_B; task_C; task_A].
Proof. reflexivity. Qed.

Lemma not_precedes_pair {A : Type} (x y : A) :
  x <> y -> ~ precedes y x [x; y].
Proof.
  intros Hxy (l1 & l2 & l3 & E).
  destruct l1 as [|a [|b l1]]; simpl in E.
  - injection E as E _. congruence.
  - injection E as _ E. destruct l2; discriminate.
  - injection E as _ _ E. destruct l1; discriminate.
Qed.

(** C4, counterexample: a task with order key 1000 and a task without
    order key, both incomplete; the claim places the null-keyed task after
    the other, [sort_tasks] places it before. *)
Lemma sort_tasks_null_key_not_last :
  ~ (forall (l : list Task.t) (a b : Task.t) (k : Z),
       In a l -> In b l ->
       Task.is_completed a = Task.is_completed b ->
       Task.order_index a = None -> Task.order_index b = Some k ->
       precedes b a (@sort_tasks AsciiRuntime.runtime l)).
Proof.
  intros C.
  specialize (C [late_task; unkeyed_task] unkeyed_task late_task 1000).
  assert (@sort_tasks AsciiRuntime.runtime [late_task; unkeyed_task]
          = [unkeyed_task; late_task]) as E by reflexivity.
  rewrite E in C. revert C.
  intros C. apply (not_precedes_pair unkeyed_task late_task).
  - discriminate.
  - apply C; simpl; auto.
Qed.

(** ** Tables *)

Lemma first_filter_some {A : Type} (p : A -> bool) l x :
  first (filter p l) = Some x -> In x l /\ p x = true.
Proof.
  intros E. apply filter_In. unfold first in E.
  destruct (filter p l); [discriminate|].
  injection E as ->. now left.
Qed.

Lemma filter_map_commute {A : Type} (p : A -> bool) (g : A -> A) l :
  (forall r, p (g r) = p r) -> filter p (map g l) = map g (filter p l).
Proof.
  intros Hg. induction l as [|x l IH]; simpl; [reflexivity|].
  rewrite Hg. destruct (p x); simpl; now rewrite IH.
Qed.

Lemma first_map {A B : Type} (g : A -> B) l :
  first (map g l) = option_map g (first l).
Proof. now destruct l. Qed.

Lemma length_filter_forallb {A : Type} (p : A -> bool) l :
  List.length (filter p l) = List.length l <-> forallb p l = true.
Proof.
  induction l as [|x l IH]; simpl; [tauto|].
  pose proof (filter_length_le p l) as Hle.
  destruct (p x); simpl.
  - rewrite <- IH. split; [now injection 1|now intros ->].
  - split; [lia|discriminate].
Qed.

Lemma length_filter_all {A : Type} (p : A -> bool) l :
  (Z.of_nat (List.length l) =? Z.of_nat (List.length (filter p l)))
  = forallb p l.
Proof.
  pose proof (length_filter_forallb p l) as E.
  destruct (forallb p l).
  - apply Z.eqb_eq. f_equal. symmetry. now apply E.
  - apply Z.eqb_neq. intros G. apply Nat2Z.inj in G.
    symmetry in G. apply E in G. discriminate.
Qed.

Section Rows.
Context {R : Type}.
Variable pk : R -> Z.

Lemma pk_unique rows a b :
  NoDup (map pk rows) -> In a rows -> In b rows -> pk a = pk b -> a = b.
Proof.
  induction rows as [|x rows IH]; simpl; [contradiction|].
  intros Hnd Ha Hb E. inversion Hnd as [|? ? Hx Hnd']; subst.
  destruct Ha as [->|Ha], Hb as [->|Hb]; auto.
  - elim Hx. rewrite E. now apply in_map.
  - elim Hx. rewrite <- E. now apply in_map.
Qed.

(** A loop writing the same value through every object of a result set. *)
Lemma update_loop f (xs rows : list R) :
  (forall r, pk (f r) = pk r) -> (forall r, f (f r) = f r) ->
  fold_left (fun rows x => update_row pk (pk x) f rows) xs rows
  = map (fun r => if existsb (fun x => pk x =? pk r) xs then f r else r)
      rows.
Proof.
  intros Hpk Hf. revert rows.
  induction xs as [|x xs IH]; intros rows; simpl.
  - symmetry. apply map_id.
  - rewrite IH. unfold update_row. rewrite map_map. apply map_ext.
    intros r. rewrite (Z.eqb_sym (pk x) (pk r)).
    destruct (pk r =? pk x) eqn:E; simpl; [|reflexivity].
    rewrite Hpk.
    destruct (existsb (fun x0 => pk x0 =? pk r) xs); auto.
Qed.

Lemma existsb_pk_filter (p : R -> bool) rows r :
  NoDup (map pk rows) -> In r rows ->
  existsb (fun x => pk x =? pk r) (filter p rows) = p r.
Proof.
  intros Hnd Hr. destruct (p r) eqn:Pr.
  - apply existsb_exists. exists r. split; [now apply filter_In|].
    apply Z.eqb_refl.
  - destruct (existsb _ _) eqn:E; [|reflexivity].
    apply existsb_exists in E. destruct E as (x & Hx & E).
    apply filter_In in Hx. destruct Hx as [Hx Px].
    apply Z.eqb_eq in E.
    rewrite (pk_unique rows x r Hnd Hx Hr E) in Px. congruence.
Qed.
End Rows.

Lemma first_filter_exists {A : Type} (p : A -> bool) l x :
  In x l -> p x = true -> exists y, first (filter p l) = Some y.
Proof.
  intros Hx Px. assert (In x (filter p l)) as Hin by (apply filter_In; auto).
  destruct (filter p l) as [|y r]; [contradiction|]. now exists y.
Qed.

(** ** Completion propagation *)

(** The join of [subtask_query] guarantees the parent row. *)
Lemma subtask_query_parent u sid db s :
  first (subtask_query u sid db) = Some s ->
  In s (subtasks db) /\ Subtask.id s = sid /\
  exists parent,
    parent_task s db = Some parent /\ In parent (tasks db) /\
    Task.id parent = Subtask.task_id s.
Proof.
  intros E. apply first_filter_some in E. destruct E as [Hs E].
  apply andb_true_iff in E. destruct E as [Hid E].
  apply Z.eqb_eq in Hid. repeat split; auto.
  apply existsb_exists in E. destruct E as (t & Ht & E).
  apply andb_true_iff in E. destruct E as [E _].
  destruct (first_filter_exists
              (fun t => Task.id t =? Subtask.task_id s) (tasks db) t Ht E)
    as (parent & Hp).
  exists parent. split; [exact Hp|].
  apply first_filter_some in Hp. destruct Hp as [Hin Hp].
  apply Z.eqb_eq in Hp. auto.
Qed.

Lemma parent_task_update s db i f ss :
  (forall r, Task.id (f r) = Task.id r) ->
  parent_task s (mkDb (update_row Task.id i f (tasks db)) ss (categories db))
  = option_map (fun r => if Task.id r =? i then f r else r)
      (parent_task s db).
Proof.
  intros Hf. unfold parent_task, update_row. simpl.
  rewrite filter_map_commute, first_map; [reflexivity|].
  intros r. destruct (Task.id r =? i); now rewrite ?Hf.
Qed.

Lemma update_row_in {R : Type} (pk : R -> Z) i f rows r :
  In r rows -> pk r = i -> In (f r) (update_row pk i f rows).
Proof.
  intros Hr E. unfold update_row. apply in_map_iff. exists r.
  split; [|exact Hr]. now rewrite <- E, Z.eqb_refl.
Qed.

Lemma update_row_flag {R : Type} (pk : R -> Z) i f rows r' :
  In r' (update_row pk i f rows) -> (forall r, pk (f r) = pk r) ->
  pk r' = i -> exists r, In r rows /\ r' = f r.
Proof.
  intros Hr Hf E. unfold update_row in Hr. apply in_map_iff in Hr.
  destruct Hr as (r & <- & Hr). exists r. split; [exact Hr|].
  destruct (Z.eqb_spec (pk r) i); [reflexivity|]. contradiction.
Qed.

(** C1: [toggle_subtask] on a subtask of the acting user succeeds, flips
    that subtask's flag, and leaves the parent task's flag equal to "every
    subtask of the parent, the toggled one included, is complete". *)
Theorem toggle_subtask_recomputes_parent (u sid : Z) (db : Db)
    (s : Subtask.t) :
  first (subtask_query u sid db) = Some s ->
  exists parent db',
    parent_task s db = Some parent
    /\ toggle_subtask u sid db = (db', Redirect None)
    /\ subtasks db'
       = update_row Subtask.id (Subtask.id s)
           (Subtask.with_is_completed (negb (Subtask.is_completed s)))
           (subtasks db)
    /\ In (Subtask.with_is_completed (negb (Subtask.is_completed s)) s)
         (task_subtasks parent db')
    /\ parent_task s db'
       = Some (Task.with_is_completed
                 (forallb Subtask.is_completed (task_subtasks parent db'))
                 parent)
    /\ (forall t, In t (tasks db') -> Task.id t = Task.id parent ->
          Task.is_completed t
          = forallb Subtask.is_completed (task_subtasks parent db')).
Proof.
  intros E. destruct (subtask_query_parent _ _ _ _ E)
    as (Hs & Hsid & parent & Hp & Hin & Hpid).
  exists parent. unfold toggle_subtask. rewrite E.
  set (flip := Subtask.with_is_completed (negb (Subtask.is_completed s))).
  set (db1 := with_subtasks _ db).
  assert (parent_task s db1 = Some parent) as Hp1 by exact Hp.
  rewrite Hp1.
  unfold subtask_count, completed_subtask_count.
  rewrite length_filter_all.
  set (flag := forallb Subtask.is_completed (task_subtasks parent db1)).
  assert ((if flag then true else false) = flag) as -> by now destruct flag.
  eexists. repeat split.
  - exact Hp.
  - apply filter_In. split.
    + apply (update_row_in Subtask.id); auto.
    + simpl. apply Z.eqb_eq. congruence.
  - unfold with_tasks. rewrite (parent_task_update s db1); [|reflexivity].
    rewrite Hp1. simpl. now rewrite Z.eqb_refl.
  - intros t Ht Hid. simpl in Ht.
    apply (update_row_flag Task.id) in Ht; auto.
    destruct Ht as (r & _ & ->). reflexivity.
Qed.

Lemma subtask_loop f xs db :
  fold_left
    (fun db x =>
       with_subtasks (update_row Subtask.id (Subtask.id x) f (subtasks db)) db)
    xs db
  = with_subtasks
      (fold_left (fun rows x => update_row Subtask.id (Subtask.id x) f rows)
         xs (subtasks db)) db.
Proof.
  revert db. induction xs as [|x xs IH]; intros db; simpl.
  - now destruct db.
  - now rewrite IH.
Qed.

Lemma has_subtasks_false task db :
  has_subtasks task db = false -> task_subtasks task db = [].
Proof.
  unfold has_subtasks, subtask_count. intros E.
  destruct (task_subtasks task db); [reflexivity|].
  simpl List.length in E. rewrite Nat2Z.inj_succ in E.
  rewrite Z.gtb_ltb in E. apply Z.ltb_ge in E. lia.
Qed.

(** C2: [toggle_task] on a task of the acting user succeeds and flips the
    task's flag; when the new value is complete every subtask of the task
    ends complete (and no other subtask row changes); when the new value is
    incomplete, or the task has no subtask, the subtask table is left as it
    was. *)
Theorem toggle_task_cascade (u tid : Z) (db : Db) (task : Task.t) :
  first (task_query u tid db) = Some task ->
  exists db',
    toggle_task u tid db = (db', Redirect None)
    /\ tasks db'
       = update_row Task.id (Task.id task)
           (Task.with_is_completed (negb (Task.is_completed task)))
           (tasks db)
    /\ first (task_query u tid db')
       = Some (Task.with_is_completed (negb (Task.is_completed task)) task)
    /\ categories db' = categories db
    /\ (Task.is_completed task = false ->
        (forall s, In s (subtasks db') ->
           Subtask.task_id s = Task.id task ->
           Subtask.is_completed s = true)
        /\ (NoDup (map Subtask.id (subtasks db)) ->
            subtasks db'
            = map (fun s =>
                     if Subtask.task_id s =? Task.id task
                     then Subtask.with_is_completed true s else s)
                (subtasks db)))
    /\ (Task.is_completed task = true -> subtasks db' = subtasks db)
    /\ (task_subtasks task db = [] -> subtasks db' = subtasks db).
Proof.
  intros E. unfold toggle_task. rewrite E.
  set (flag := negb (Task.is_completed task)).
  set (db1 := with_tasks _ db).
  set (task1 := Task.with_is_completed flag task).
  set (loop := fold_left _ (task_subtasks task1 db1) db1).
  assert ((if Task.is_completed task1 && has_subtasks task1 db1
           then loop else db1)
          = if flag then loop else db1) as ->.
  { simpl. destruct flag; simpl; [|reflexivity].
    destruct (has_subtasks task1 db1) eqn:Hs; [reflexivity|].
    unfold loop. now rewrite (has_subtasks_false _ _ Hs). }
  assert (task_subtasks task1 db1 = task_subtasks task db) as Hq
    by reflexivity.
  assert (subtasks loop
          = map (fun r =>
                   if existsb (fun x => Subtask.id x =? Subtask.id r)
                        (task_subtasks task db)
                   then Subtask.with_is_completed true r else r)
              (subtasks db)) as Hloop.
  { unfold loop. rewrite subtask_loop, Hq. simpl.
    now apply update_loop. }
  assert (tasks loop = tasks db1 /\ categories loop = categories db)
    as [Ht Hc].
  { unfold loop. now rewrite subtask_loop. }
  exists (if flag then loop else db1). repeat split.
  - destruct flag; [exact Ht|reflexivity].
  - assert (tasks (if flag then loop else db1) = tasks db1) as G
      by (destruct flag; [exact Ht|reflexivity]).
    unfold task_query. rewrite G. simpl. unfold update_row.
    rewrite filter_map_commute, first_map.
    + fold (task_query u tid db). rewrite E. simpl.
      now rewrite Z.eqb_refl.
    + intros r. now destruct (Task.id r =? Task.id task).
  - destruct flag; [exact Hc|reflexivity].
  - intros s Hs Hid. subst flag. rewrite H in Hs. simpl in Hs.
    rewrite Hloop in Hs. apply in_map_iff in Hs.
    destruct Hs as (r & Hr & Hin).
    destruct (existsb _ _) eqn:Ex; [now subst s|]. subst s.
    assert (existsb (fun x => Subtask.id x =? Subtask.id r)
              (task_subtasks task db) = true) as G; [|congruence].
    apply existsb_exists. exists r. split; [|apply Z.eqb_refl].
    apply filter_In. split; [exact Hin|]. now apply Z.eqb_eq.
  - intros Hnd. subst flag. rewrite H. simpl. rewrite Hloop.
    apply map_ext_in. intros r Hr. unfold task_subtasks.
    now rewrite (existsb_pk_filter Subtask.id _ _ r Hnd Hr).
  - intros Hc'. subst flag. now rewrite Hc'.
  - intros Hnil. destruct flag; [|reflexivity].
    rewrite Hloop, Hnil. simpl. apply map_id.
Qed.

Lemma task_with_same_flag t :
  Task.with_is_completed (Task.is_completed t) t = t.
Proof. now destruct t. Qed.

Lemma remaining_complete parent s db :
  forallb Subtask.is_completed (task_subtasks parent db) = true ->
  forallb Subtask.is_completed
    (task_subtasks parent
       (with_subtasks
          (delete_row Subtask.id (Subtask.id s) (subtasks db)) db)) = true.
Proof.
  unfold task_subtasks, delete_row. simpl. rewrite !forallb_forall.
  intros Hall x Hx. apply Hall.
  apply filter_In in Hx. destruct Hx as [Hx Qx].
  apply filter_In in Hx. destruct Hx as [Hx _].
  now apply filter_In.
Qed.

Lemma count_positive {A : Type} (l : list A) :
  (Z.of_nat (List.length l) >? 0) = negb (forallb (fun _ => false) l).
Proof.
  destruct l; [reflexivity|]. simpl List.length.
  rewrite Nat2Z.inj_succ. simpl. rewrite Z.gtb_ltb. apply Z.ltb_lt. lia.
Qed.

(** What [delete_subtask] writes: it removes the row; if the parent still
    has a subtask and all remaining subtasks are complete, the parent's
    flag is set to true; in every other case (a remaining subtask is
    incomplete, or none remains) the task table is left untouched. *)
Lemma delete_subtask_parent_flag (u sid : Z) (db : Db) (s : Subtask.t) :
  first (subtask_query u sid db) = Some s ->
  exists parent db',
    parent_task s db = Some parent
    /\ delete_subtask u sid db = (db', Redirect None)
    /\ subtasks db' = delete_row Subtask.id (Subtask.id s) (subtasks db)
    /\ (task_subtasks parent db' <> [] ->
        forallb Subtask.is_completed (task_subtasks parent db') = true ->
        tasks db'
        = update_row Task.id (Task.id parent) (Task.with_is_completed true)
            (tasks db)
        /\ parent_task s db' = Some (Task.with_is_completed true parent))
    /\ (task_subtasks parent db' = []
        \/ forallb Subtask.is_completed (task_subtasks parent db') = false ->
        tasks db' = tasks db)
    /\ (task_subtasks parent db' <> [] ->
        (Task.is_completed parent = true ->
         forallb Subtask.is_completed (task_subtasks parent db) = true) ->
        parent_task s db'
        = Some (Task.with_is_completed
                  (forallb Subtask.is_completed (task_subtasks parent db'))
                  parent)).
Proof.
  intros E. destruct (subtask_query_parent _ _ _ _ E)
    as (Hs & Hsid & parent & Hp & Hin & Hpid).
  exists parent. unfold delete_subtask. rewrite E, Hp.
  set (db1 := with_subtasks _ db).
  unfold subtask_count, completed_subtask_count.
  rewrite length_filter_all, count_positive.
  assert (forall b,
            parent_task s
              (with_tasks
                 (update_row Task.id (Task.id parent)
                    (Task.with_is_completed b) (tasks db1)) db1)
            = Some (Task.with_is_completed b parent)) as Hset.
  { intros b. unfold with_tasks.
    rewrite (parent_task_update s db1); [|reflexivity].
    change (parent_task s db1) with (parent_task s db).
    rewrite Hp. simpl. now rewrite Z.eqb_refl. }
  pose proof (remaining_complete parent s db) as Hrem. fold db1 in Hrem.
  destruct (forallb Subtask.is_completed (task_subtasks parent db1))
    eqn:Hall;
    destruct (task_subtasks parent db1) as [|x rest] eqn:Hrest; simpl.
  - exists db1. repeat split; try tauto. all: now rewrite Hrest.
  - eexists. split; [reflexivity|]. split; [reflexivity|].
    split; [reflexivity|].
    assert (forall ts, task_subtasks parent (with_tasks ts db1)
                       = task_subtasks parent db1) as -> by reflexivity.
    rewrite Hrest, Hall. split; [|split].
    + intros _ _. split; [reflexivity|apply Hset].
    + intros [G|G]; discriminate.
    + intros _ _. apply Hset.
  - discriminate.
  - exists db1. split; [reflexivity|]. split; [reflexivity|].
    split; [reflexivity|]. rewrite Hrest, Hall. split; [|split].
    + discriminate.
    + reflexivity.
    + intros _ Hc. change (parent_task s db1) with (parent_task s db).
      rewrite Hp. f_equal.
      destruct (Task.is_completed parent) eqn:Hflag.
      * specialize (Hrem (Hc eq_refl)). discriminate.
      * rewrite <- Hflag. symmetry. apply task_with_same_flag.
Qed.

Example delete_last_incomplete_subtask :
  option_map Task.is_completed
    (first (task_query 1 2 (fst (delete_subtask 1 1 sample_db)))) = Some true.
Proof. reflexivity. Qed.

(** C3: on a database where a task is marked complete only if all its
    subtasks are (the rows [register] creates are such, and every modelled
    request keeps it so), [delete_subtask] on a subtask of the acting user
    succeeds and removes the row; if the parent still has a subtask, its
    flag afterwards is true if all remaining subtasks are complete and
    false otherwise, every other field and (primary keys being unique)
    every other task as before; if no subtask remains, the task table is
    left untouched, so the flag keeps its value. *)
Theorem delete_subtask_recomputes_parent (u sid : Z) (db : Db)
    (s : Subtask.t) :
  consistent db ->
  first (subtask_query u sid db) = Some s ->
  exists parent db',
    parent_task s db = Some parent
    /\ delete_subtask u sid db = (db', Redirect None)
    /\ subtasks db' = delete_row Subtask.id (Subtask.id s) (subtasks db)
    /\ categories db' = categories db
    /\ (task_subtasks parent db' <> [] ->
        parent_task s db'
        = Some (Task.with_is_completed
                  (forallb Subtask.is_completed (task_subtasks parent db'))
                  parent)
        /\ (NoDup (map Task.id (tasks db)) ->
            tasks db'
            = update_row Task.id (Task.id parent)
                (Task.with_is_completed
                   (forallb Subtask.is_completed (task_subtasks parent db')))
                (tasks db)))
    /\ (task_subtasks parent db' = [] -> tasks db' = tasks db).
Proof.
  intros Hc E.
  destruct (subtask_query_parent _ _ _ _ E) as (_ & _ & p0 & Hp0 & Hin & _).
  destruct (delete_subtask_parent_flag u sid db s E)
    as (parent & db' & Hp & Hr & Hs & Hall & Hnot & Hflag).
  assert (p0 = parent) as -> by congruence.
  assert (Task.is_completed parent = true ->
          forallb Subtask.is_completed (task_subtasks parent db) = true)
    as Hpc by (intros Hf; now apply Hc).
  exists parent, db'. split; [exact Hp|]. split; [exact Hr|].
  split; [exact Hs|]. split; [|split].
  - unfold delete_subtask in Hr. rewrite E, Hp in Hr.
    destruct (_ && _); injection Hr as <-; reflexivity.
  - intros Hne. split; [now apply Hflag|]. intros Hnd.
    destruct (forallb Subtask.is_completed (task_subtasks parent db'))
      eqn:Hrem.
    + now destruct (Hall Hne eq_refl).
    + rewrite (Hnot (or_intror eq_refl)). symmetry.
      unfold update_row. rewrite <- (map_id (tasks db)) at 2.
      apply map_ext_in. intros r Hr'.
      destruct (Z.eqb_spec (Task.id r) (Task.id parent)) as [Eid|];
        [|reflexivity].
      rewrite (pk_unique Task.id (tasks db) r parent Hnd Hr' Hin Eid).
      destruct (Task.is_completed parent) eqn:Hf.
      * pose proof (remaining_complete parent s db (Hpc eq_refl)) as G.
        unfold task_subtasks in G, Hrem. cbn [with_subtasks subtasks] in G.
        rewrite Hs in Hrem. congruence.
      * rewrite <- Hf. apply task_with_same_flag.
  - intros Hnil. apply Hnot. now left.
Qed.

Lemma delete_subtask_recomputes_parent_witness :
  consistent sample_db
  /\ first (subtask_query 1 1 sample_db)
     = Some (subtask_of 1 "Prepare meeting agenda" false 1 2)
  /\ option_map Task.is_completed
       (parent_task (subtask_of 1 "Prepare meeting agenda" false 1 2)
          (fst (delete_subtask 1 1 sample_db)))
     = Some true.
Proof.
  assert (consistent sample_db) as Hc.
  { intros t Ht Hf. simpl in Ht.
    destruct Ht as [<-|[<-|[<-|[<-|[]]]]]; try discriminate. reflexivity. }
  split; [exact Hc|]. split; [reflexivity|].
  destruct (delete_subtask_recomputes_parent 1 1 sample_db _ Hc eq_refl)
    as (parent & db' & Hp & Hr & Hs & _ & Hflag & _).
  rewrite Hr. cbn [fst].
  assert (task_subtasks parent db'
          = [subtask_of 2 "Send meeting invites" true 2 2]) as Esub.
  { unfold task_subtasks. rewrite Hs.
    assert (Task.id parent = 2) as ->; [|reflexivity].
    cbv in Hp. now injection Hp as <-. }
  destruct Hflag as [Hf _]; [rewrite Esub; discriminate|].
  rewrite Hf, Esub. reflexivity.
Defined.

(** The invariant is needed: on a task marked complete over two unfinished
    subtasks a subtask remains after the deletion, it is not complete, and
    the parent's flag is still true. *)
Lemma delete_subtask_flag_not_reset :
  ~ (forall (u sid : Z) (db : Db) (s : Subtask.t) (parent : Task.t)
            (db' : Db) (t : Task.t),
       first (subtask_query u sid db) = Some s ->
       parent_task s db = Some parent ->
       delete_subtask u sid db = (db', Redirect None) ->
       task_subtasks parent db' <> [] ->
       parent_task s db' = Some t ->
       Task.is_completed t
       = forallb Subtask.is_completed (task_subtasks parent db')).
Proof.
  intros C.
  refine (_ (C 1 1 stale_db _ _ _ _ eq_refl eq_refl eq_refl _ eq_refl));
    cbv; discriminate.
Qed.

Lemma toggle_subtask_recomputes_parent_witness :
  first (subtask_query 1 1 sample_db)
  = Some (subtask_of 1 "Prepare meeting agenda" false 1 2)
  /\ exists parent db',
       parent_task (subtask_of 1 "Prepare meeting agenda" false 1 2) sample_db
       = Some parent
       /\ toggle_subtask 1 1 sample_db = (db', Redirect None).
Proof.
  split; [reflexivity|].
  destruct (toggle_subtask_recomputes_parent 1 1 sample_db _ eq_refl)
    as (parent & db' & Hp & Ht & _).
  exists parent, db'. split; assumption.
Defined.

(** ** Order keys of new entities *)

Lemma in_present_keys col k : In k (present_keys col) <-> In (Some k) col.
Proof.
  unfold present_keys. rewrite in_flat_map. split.
  - intros ([j|] & Hin & Hk); simpl in Hk; [|contradiction].
    destruct Hk as [->|[]]. exact Hin.
  - intros Hin. exists (Some k). split; [exact Hin|now left].
Qed.

Lemma present_keys_app c1 c2 :
  present_keys (c1 ++ c2) = present_keys c1 ++ present_keys c2.
Proof. unfold present_keys. apply flat_map_app. Qed.

Lemma sql_max_fold col acc :
  match
    fold_left
      (fun acc v =>
         match acc, v with
         | Some m, Some x => Some (Z.max m x)
         | None, Some x => Some x
         | _, None => acc
         end) col acc
  with
  | Some m =>
    (acc = Some m \/ In (Some m) col)
    /\ (forall k, acc = Some k \/ In (Some k) col -> k <= m)
  | None => acc = None /\ forall k, ~ In (Some k) col
  end.
Proof.
  revert acc. induction col as [|v col IH]; intros acc; simpl.
  - destruct acc as [m|]; [|tauto]. split; [tauto|].
    intros k [E|[]]. injection E as ->. lia.
  - destruct acc as [a|], v as [x|];
      match goal with
      | |- context [fold_left _ col ?acc'] => specialize (IH acc')
      end;
      destruct (fold_left _ col _) as [m|];
      try (destruct IH as [E _]; discriminate).
    + destruct IH as [Hin Hmax]. split.
      * destruct Hin as [E|Hin]; [|tauto]. injection E as <-.
        destruct (Z.max_spec a x) as [[_ ->]|[_ ->]]; tauto.
      * assert (a <= m /\ x <= m) as [Ha Hx].
        { specialize (Hmax (Z.max a x) (or_introl eq_refl)). lia. }
        intros k [E|[E|Hk]]; [injection E as <-; lia|injection E as <-; lia|].
        apply Hmax. now right.
    + destruct IH as [Hin Hmax]. split; [tauto|].
      intros k [E|[E|Hk]]; [|discriminate|]; apply Hmax; tauto.
    + destruct IH as [Hin Hmax]. split; [tauto|].
      intros k [E|[E|Hk]]; [discriminate| |]; apply Hmax; tauto.
    + destruct IH as [Hin Hmax]. split.
      * destruct Hin as [E|Hin]; [discriminate|tauto].
      * intros k [E|[E|Hk]]; [discriminate|discriminate|].
        apply Hmax. now right.
    + destruct IH as [_ Hn]. split; [reflexivity|].
      intros k [E|Hk]; [discriminate|]. now apply (Hn k).
Qed.

Lemma next_key_append_new col :
  append_new (present_keys col) (or_zero (sql_max col) + 1).
Proof.
  pose proof (sql_max_fold col None) as Hm. fold (sql_max col) in Hm.
  destruct (sql_max col) as [m|]; simpl.
  - right. exists m. destruct Hm as [[E|Hin] Hmax]; [discriminate|].
    split; [now apply in_present_keys|]. split.
    + intros j Hj. apply Hmax. right. now apply in_present_keys.
    + destruct (Z.eqb_spec m 0); lia.
  - left. destruct Hm as [_ Hn]. split; [|reflexivity].
    destruct (present_keys col) as [|k r] eqn:E; [reflexivity|].
    elim (Hn k). apply in_present_keys. rewrite E. now left.
Qed.

Lemma append_new_above keys k j : append_new keys k -> In j keys -> j < k.
Proof.
  intros [[-> _]|(m & _ & Hmax & ->)] Hj; [contradiction|].
  specialize (Hmax j Hj). lia.
Qed.

Section Creation.
Context `{Runtime}.

Lemma valid_fields_minutes d e :
  invalid_task_fields d e = Some false ->
  exists n, py_int (str e) = Some n /\ 0 < n /\ truthy d = true
            /\ truthy e = true.
Proof.
  unfold invalid_task_fields.
  destruct (truthy d); simpl; [|discriminate].
  destruct (truthy e); simpl; [|discriminate].
  destruct (py_int (str e)) as [n|]; [|discriminate].
  intros E. injection E as E. apply Z.leb_gt in E. eauto.
Qed.

Lemma valid_form_fields form :
  valid_task_form form ->
  invalid_task_fields (TaskForm.description form)
    (TaskForm.estimated_time form) = Some false.
Proof.
  intros (Hd & He & n & Hn & Hpos). unfold invalid_task_fields.
  rewrite Hd, He, Hn. simpl. f_equal. apply Z.leb_gt. lia.
Qed.

Lemma sqlite_int_spec n : sqlite_int n = true <-> - 2 ^ 63 <= n < 2 ^ 63.
Proof.
  unfold sqlite_int. now rewrite andb_true_iff, Z.leb_le, Z.ltb_lt.
Qed.

Lemma valid_form_minutes form :
  valid_task_form form ->
  exists n,
    py_int (str (TaskForm.estimated_time form)) = Some n
    /\ sqlite_int n = true.
Proof.
  intros (_ & _ & n & Hn & Hpos). exists n. split; [exact Hn|].
  apply sqlite_int_spec. lia.
Qed.

Lemma add_task_result u form db :
  valid_task_form form ->
  exists new k,
    add_task u form db = (with_tasks (tasks db ++ [new]) db, Redirect None)
    /\ Task.user_id new = u
    /\ Task.is_completed new = false
    /\ Task.order_index new = Some k
    /\ append_new (task_keys u db) k.
Proof.
  intros Hv. destruct (valid_form_minutes form Hv) as (n & Hn & Hfit).
  apply valid_form_fields in Hv.
  unfold add_task. rewrite Hv, Hn, Hfit.
  eexists. eexists. split; [reflexivity|]. simpl.
  repeat split. apply next_key_append_new.
Qed.

Lemma add_subtask_result u tid desc db task :
  first (task_query u tid db) = Some task -> truthy desc = true ->
  exists new k,
    add_subtask u tid desc db
    = (mkDb
         (if Task.is_completed task
          then update_row Task.id (Task.id task)
                 (Task.with_is_completed false) (tasks db)
          else tasks db)
         (subtasks db ++ [new]) (categories db),
       Redirect None)
    /\ Subtask.task_id new = tid
    /\ Subtask.is_completed new = false
    /\ Subtask.order_index new = Some k
    /\ append_new (subtask_keys tid db) k.
Proof.
  intros E Hd. unfold add_subtask. rewrite E, Hd. simpl.
  eexists. eexists. split.
  - destruct (Task.is_completed task); reflexivity.
  - simpl. repeat split. apply next_key_append_new.
Qed.

Lemma task_query_after_reopen u tid db task ss :
  first (task_query u tid db) = Some task ->
  first
    (task_query u tid
       (mkDb
          (if Task.is_completed task
           then update_row Task.id (Task.id task)
                  (Task.with_is_completed false) (tasks db)
           else tasks db) ss (categories db)))
  = Some (Task.with_is_completed false task).
Proof.
  intros E. unfold task_query. simpl.
  destruct (Task.is_completed task) eqn:Hflag.
  - unfold update_row. rewrite filter_map_commute, first_map.
    + fold (task_query u tid db). rewrite E. simpl.
      now rewrite Z.eqb_refl.
    + intros r. now destruct (Task.id r =? Task.id task).
  - fold (task_query u tid db). rewrite E, <- Hflag.
    now rewrite task_with_same_flag.
Qed.
End Creation.

(** C8: [add_subtask] with a description, on a task of the acting user,
    appends the new (incomplete) subtask and leaves the task incomplete: a
    complete task is set back to incomplete in the same request, an
    incomplete one is not written. *)
Theorem add_subtask_reopens_task `{Runtime} (u tid : Z)
    (desc : option string) (db : Db) (task : Task.t) :
  first (task_query u tid db) = Some task ->
  truthy desc = true ->
  exists db' new,
    add_subtask u tid desc db = (db', Redirect None)
    /\ subtasks db' = subtasks db ++ [new]
    /\ Subtask.task_id new = tid
    /\ Subtask.is_completed new = false
    /\ first (task_query u tid db')
       = Some (Task.with_is_completed false task)
    /\ (Task.is_completed task = true ->
        tasks db'
        = update_row Task.id (Task.id task) (Task.with_is_completed false)
            (tasks db))
    /\ (Task.is_completed task = false -> tasks db' = tasks db).
Proof.
  intros E Hd.
  destruct (add_subtask_result u tid desc db task E Hd)
    as (new & k & Hr & Htid & Hc & _).
  eexists. exists new. split; [exact Hr|]. simpl.
  repeat split; auto.
  - now apply task_query_after_reopen.
  - now intros ->.
  - now intros ->.
Qed.

Lemma add_subtask_reopens_task_witness :
  first (task_query 1 3 sample_db)
  = Some (Task.mk 3 "Work on Project X" 120 true (Some "high")
            (Some "afternoon") (Some 3) 1 (Some 2) 0)
  /\ truthy (Some "Write tests") = true
  /\ exists db',
       @add_subtask AsciiRuntime.runtime 1 3 (Some "Write tests") sample_db
       = (db', Redirect None)
       /\ option_map Task.is_completed (first (task_query 1 3 db'))
          = Some false.
Proof.
  split; [reflexivity|]. split; [reflexivity|].
  destruct (@add_subtask_reopens_task AsciiRuntime.runtime 1 3
              (Some "Write tests") sample_db _ eq_refl eq_refl)
    as (db' & new & Hr & _ & _ & _ & Hq & _).
  exists db'. split; [exact Hr|]. now rewrite Hq.
Defined.

Section AppendNew.
Context `{Runtime}.

Lemma task_keys_appended u db new k :
  Task.user_id new = u -> Task.order_index new = Some k ->
  task_keys u (with_tasks (tasks db ++ [new]) db) = task_keys u db ++ [k].
Proof.
  intros Hu Hk. unfold task_keys, task_scope. simpl.
  rewrite filter_app, map_app, present_keys_app. simpl.
  rewrite Hu, Z.eqb_refl. simpl. now rewrite Hk.
Qed.

Lemma subtask_keys_appended tid db ts new k :
  Subtask.task_id new = tid -> Subtask.order_index new = Some k ->
  subtask_keys tid (mkDb ts (subtasks db ++ [new]) (categories db))
  = subtask_keys tid db ++ [k].
Proof.
  intros Hu Hk. unfold subtask_keys, subtask_scope. simpl.
  rewrite filter_app, map_app, present_keys_app. simpl.
  rewrite Hu, Z.eqb_refl. simpl. now rewrite Hk.
Qed.

(** C5: [add_task] with a description and an estimated time that reads as
    a positive integer of the INTEGER column appends a task of the acting
    user whose order key is the largest order key among that user's tasks
    plus one, or 1 when there is none; [add_subtask] does the same among
    the subtasks of the parent task; the [order_index] field of the request
    plays no part; and of two creations in a row in one scope the second
    gets the strictly larger key.  With an estimated time beyond the
    INTEGER column no task is created: the commit raises
    [OverflowError]. *)
Theorem creation_appends_order_key :
  (forall u form db,
     valid_task_form form ->
     exists new k,
       add_task u form db
       = (with_tasks (tasks db ++ [new]) db, Redirect None)
       /\ Task.user_id new = u
       /\ Task.order_index new = Some k
       /\ append_new (task_keys u db) k
       /\ forall o,
            add_task u (form_with_order_index o form) db
            = add_task u form db)
  /\ (forall u tid desc db task,
        first (task_query u tid db) = Some task -> truthy desc = true ->
        exists db' new k,
          add_subtask u tid desc db = (db', Redirect None)
          /\ subtasks db' = subtasks db ++ [new]
          /\ Subtask.task_id new = tid
          /\ Subtask.order_index new = Some k
          /\ append_new (subtask_keys tid db) k)
  /\ (forall u form1 form2 db,
        valid_task_form form1 -> valid_task_form form2 ->
        exists db1 db2 new1 new2 k1 k2,
          add_task u form1 db = (db1, Redirect None)
          /\ add_task u form2 db1 = (db2, Redirect None)
          /\ tasks db2 = tasks db ++ [new1; new2]
          /\ Task.order_index new1 = Some k1
          /\ Task.order_index new2 = Some k2
          /\ k1 < k2)
  /\ (forall u tid desc1 desc2 db task,
        first (task_query u tid db) = Some task ->
        truthy desc1 = true -> truthy desc2 = true ->
        exists db1 db2 new1 new2 k1 k2,
          add_subtask u tid desc1 db = (db1, Redirect None)
          /\ add_subtask u tid desc2 db1 = (db2, Redirect None)
          /\ subtasks db2 = subtasks db ++ [new1; new2]
          /\ Subtask.order_index new1 = Some k1
          /\ Subtask.order_index new2 = Some k2
          /\ k1 < k2)
  /\ (forall u form db n,
        truthy (TaskForm.description form) = true ->
        truthy (TaskForm.estimated_time form) = true ->
        py_int (str (TaskForm.estimated_time form)) = Some n ->
        2 ^ 63 <= n ->
        add_task u form db = (db, Unhandled OverflowError)).
Proof.
  split; [|split; [|split; [|split]]].
  - intros u form db Hv.
    destruct (add_task_result u form db Hv)
      as (new & k & Hr & Hu & _ & Hk & Ha).
    exists new, k. repeat split; auto.
  - intros u tid desc db task E Hd.
    destruct (add_subtask_result u tid desc db task E Hd)
      as (new & k & Hr & Ht & _ & Hk & Ha).
    eexists. exists new, k. split; [exact Hr|]. repeat split; auto.
  - intros u form1 form2 db Hv1 Hv2.
    destruct (add_task_result u form1 db Hv1)
      as (new1 & k1 & Hr1 & Hu1 & _ & Hk1 & Ha1).
    destruct (add_task_result u form2
                (with_tasks (tasks db ++ [new1]) db) Hv2)
      as (new2 & k2 & Hr2 & Hu2 & _ & Hk2 & Ha2).
    eexists. eexists. exists new1, new2, k1, k2.
    split; [exact Hr1|]. split; [exact Hr2|]. simpl.
    rewrite <- app_assoc. repeat split; auto.
    rewrite (task_keys_appended u db new1 k1 Hu1 Hk1) in Ha2.
    apply (append_new_above _ _ _ Ha2). apply in_or_app. right. now left.
  - intros u tid desc1 desc2 db task E Hd1 Hd2.
    destruct (add_subtask_result u tid desc1 db task E Hd1)
      as (new1 & k1 & Hr1 & Hu1 & _ & Hk1 & Ha1).
    pose proof (task_query_after_reopen u tid db task
                  (subtasks db ++ [new1]) E) as E1.
    destruct (add_subtask_result u tid desc2 _ _ E1 Hd2)
      as (new2 & k2 & Hr2 & Hu2 & _ & Hk2 & Ha2).
    eexists. eexists. exists new1, new2, k1, k2.
    split; [exact Hr1|]. split; [exact Hr2|]. simpl.
    rewrite <- app_assoc. repeat split; auto.
    rewrite (subtask_keys_appended tid db _ new1 k1 Hu1 Hk1) in Ha2.
    apply (append_new_above _ _ _ Ha2). apply in_or_app. right. now left.
  - intros u form db n Hd He Hn Hbig.
    unfold add_task, invalid_task_fields. rewrite Hd, He, Hn. cbn [negb].
    assert ((n <=? 0) = false) as -> by (apply Z.leb_gt; lia).
    assert (sqlite_int n = false) as ->; [|reflexivity].
    unfold sqlite_int. apply andb_false_iff. right. apply Z.ltb_ge. lia.
Qed.
End AppendNew.

Example add_task_sample :
  option_map Task.order_index
    (nth_error
       (tasks (fst (@add_task AsciiRuntime.runtime 1 sample_form sample_db)))
       4)
  = Some (Some 5).
Proof. reflexivity. Qed.

(** ** Validation *)

Section Validation.
Context `{Runtime}.

Lemma invalid_fields_flash d e :
  truthy d = false \/ truthy e = false
  \/ (exists n, py_int (str e) = Some n /\ n <= 0) ->
  invalid_task_fields d e = Some true.
Proof.
  unfold invalid_task_fields.
  intros [->|[E|(n & E & Hn)]]; [reflexivity| |].
  - rewrite E. now destruct (truthy d).
  - rewrite E. destruct (truthy d), (truthy e); simpl; try reflexivity.
    f_equal. now apply Z.leb_le.
Qed.

Lemma add_task_failure_keeps_db u form db :
  snd (add_task u form db) <> Redirect None ->
  fst (add_task u form db) = db.
Proof.
  unfold add_task.
  destruct (invalid_task_fields _ _) as [[|]|]; try reflexivity.
  destruct (py_int _) as [n|]; [|reflexivity].
  destruct (sqlite_int n); [|reflexivity]. simpl. congruence.
Qed.

Lemma edit_task_failure_keeps_db u tid form db :
  snd (edit_task u tid form db) <> Redirect None ->
  fst (edit_task u tid form db) = db.
Proof.
  unfold edit_task.
  destruct (first (task_query u tid db)); [|reflexivity].
  destruct (invalid_task_fields _ _) as [[|]|]; try reflexivity.
  destruct (py_int _) as [n|]; [|reflexivity].
  destruct (sqlite_int n); [|reflexivity]. simpl. congruence.
Qed.

(** The commands the check of [add_task] and [edit_task] catches: a create
    command, or an edit command addressed to a task of the acting user,
    whose description is empty or whose estimated time is missing or reads
    as a non-positive integer is answered with the validation message, and
    the database is unchanged.  The database is unchanged as well when the
    estimated time is not a number or the edited task is not found. *)
Theorem invalid_task_command_rejected (u tid : Z) (form : TaskForm.t)
    (db : Db) :
  truthy (TaskForm.description form) = false
  \/ truthy (TaskForm.estimated_time form) = false
  \/ (exists n,
        py_int (str (TaskForm.estimated_time form)) = Some n /\ n <= 0)
  \/ py_int (str (TaskForm.estimated_time form)) = None ->
  fst (add_task u form db) = db
  /\ fst (edit_task u tid form db) = db
  /\ (py_int (str (TaskForm.estimated_time form)) <> None
      \/ truthy (TaskForm.description form) = false
      \/ truthy (TaskForm.estimated_time form) = false ->
      add_task u form db = (db, Redirect (Some task_flash))
      /\ (first (task_query u tid db) <> None ->
          edit_task u tid form db = (db, Redirect (Some task_flash)))).
Proof.
  intros Hbad.
  assert (invalid_task_fields (TaskForm.description form)
            (TaskForm.estimated_time form) <> Some false) as Hnv.
  { intros Hv. apply valid_fields_minutes in Hv.
    destruct Hv as (n & Hn & Hpos & Hd & He).
    destruct Hbad as [E|[E|[(m & E & Hm)|E]]]; try congruence.
    rewrite Hn in E. injection E as <-. lia. }
  split; [|split].
  - apply add_task_failure_keeps_db. unfold add_task.
    destruct (invalid_task_fields _ _) as [[|]|]; simpl; congruence.
  - apply edit_task_failure_keeps_db. unfold edit_task.
    destruct (first (task_query u tid db)); [|discriminate].
    destruct (invalid_task_fields _ _) as [[|]|]; simpl; congruence.
  - intros Hparse.
    assert (invalid_task_fields (TaskForm.description form)
              (TaskForm.estimated_time form) = Some true) as Hflash.
    { apply invalid_fields_flash.
      destruct Hbad as [E|[E|[E|E]]]; auto.
      destruct Hparse as [E'|[E'|E']]; auto. contradiction. }
    unfold add_task, edit_task. rewrite Hflash. split; [reflexivity|].
    destruct (first (task_query u tid db)); [reflexivity|congruence].
Qed.
End Validation.

Lemma invalid_task_command_rejected_witness :
  (truthy (TaskForm.description empty_description_form) = false
   \/ truthy (TaskForm.estimated_time empty_description_form) = false
   \/ (exists n,
         AsciiRuntime.int
           (str (TaskForm.estimated_time empty_description_form)) = Some n
         /\ n <= 0)
   \/ AsciiRuntime.int
        (str (TaskForm.estimated_time empty_description_form)) = None)
  /\ @add_task AsciiRuntime.runtime 1 empty_description_form sample_db
     = (sample_db, Redirect (Some task_flash))
  /\ @edit_task AsciiRuntime.runtime 1 2 empty_description_form sample_db
     = (sample_db, Redirect (Some task_flash)).
Proof.
  assert (truthy (TaskForm.description empty_description_form) = false)
    as Hd by reflexivity.
  split; [now left|].
  destruct (@invalid_task_command_rejected AsciiRuntime.runtime 1 2
              empty_description_form sample_db (or_introl Hd))
    as (_ & _ & Hflash).
  destruct (Hflash (or_intror (or_introl Hd))) as [Ha He].
  split; [exact Ha|]. apply He. discriminate.
Defined.

(** C9: a create command, or an edit command addressed to a task of the
    acting user, that carries a description and an estimated time which is
    not a number is not answered with the validation message: [int] raises
    [ValueError], the exception leaves the handler, and the database is
    unchanged. *)
Theorem non_numeric_time_raises `{Runtime} (u tid : Z) (form : TaskForm.t)
    (db : Db) :
  truthy (TaskForm.description form) = true ->
  truthy (TaskForm.estimated_time form) = true ->
  py_int (str (TaskForm.estimated_time form)) = None ->
  add_task u form db = (db, Unhandled ValueError)
  /\ (first (task_query u tid db) <> None ->
      edit_task u tid form db = (db, Unhandled ValueError)).
Proof.
  intros Hd He Hn.
  assert (invalid_task_fields (TaskForm.description form)
            (TaskForm.estimated_time form) = None) as Hraise.
  { unfold invalid_task_fields. now rewrite Hd, He, Hn. }
  unfold add_task, edit_task. rewrite Hraise. split; [reflexivity|].
  destruct (first (task_query u tid db)); [reflexivity|congruence].
Qed.

Lemma non_numeric_time_raises_witness :
  truthy (TaskForm.description non_numeric_form) = true
  /\ truthy (TaskForm.estimated_time non_numeric_form) = true
  /\ AsciiRuntime.int (str (TaskForm.estimated_time non_numeric_form)) = None
  /\ @add_task AsciiRuntime.runtime 1 non_numeric_form sample_db
     = (sample_db, Unhandled ValueError)
  /\ @edit_task AsciiRuntime.runtime 1 2 non_numeric_form sample_db
     = (sample_db, Unhandled ValueError).
Proof.
  split; [reflexivity|]. split; [reflexivity|]. split; [reflexivity|].
  destruct (@non_numeric_time_raises AsciiRuntime.runtime 1 2
              non_numeric_form sample_db eq_refl eq_refl eq_refl)
    as [Ha He].
  split; [exact Ha|]. apply He. discriminate.
Defined.

(** ** Reset *)

Lemma NoDup_map_pk {R : Type} (pk : R -> Z) (g : R -> R) rows :
  (forall r, pk (g r) = pk r) ->
  NoDup (map pk rows) -> NoDup (map pk (map g rows)).
Proof.
  intros Hg Hnd. rewrite map_map.
  rewrite (map_ext (fun r => pk (g r)) pk Hg). exact Hnd.
Qed.

Lemma reset_step task db :
  NoDup (map Subtask.id (subtasks db)) ->
  (let db1 :=
     with_tasks
       (update_row Task.id (Task.id task) (Task.with_is_completed false)
          (tasks db)) db in
   fold_left
     (fun db subtask =>
        with_subtasks
          (update_row Subtask.id (Subtask.id subtask)
             (Subtask.with_is_completed false) (subtasks db)) db)
     (task_subtasks task db1) db1)
  = mkDb
      (update_row Task.id (Task.id task) (Task.with_is_completed false)
         (tasks db))
      (map (fun s =>
              if Subtask.task_id s =? Task.id task
              then Subtask.with_is_completed false s else s)
         (subtasks db))
      (categories db).
Proof.
  intros Hnd. cbv zeta. rewrite subtask_loop.
  rewrite update_loop by reflexivity. unfold with_subtasks, with_tasks.
  simpl. f_equal. apply map_ext_in. intros s Hs. unfold task_subtasks.
  simpl. now rewrite (existsb_pk_filter Subtask.id _ _ s Hnd Hs).
Qed.

Lemma reset_loop xs db :
  NoDup (map Subtask.id (subtasks db)) ->
  fold_left
    (fun db task =>
       let db :=
         with_tasks
           (update_row Task.id (Task.id task) (Task.with_is_completed false)
              (tasks db)) db in
       fold_left
         (fun db subtask =>
            with_subtasks
              (update_row Subtask.id (Subtask.id subtask)
                 (Subtask.with_is_completed false) (subtasks db)) db)
         (task_subtasks task db) db)
    xs db
  = mkDb
      (map (fun r =>
              if existsb (fun x => Task.id x =? Task.id r) xs
              then Task.with_is_completed false r else r)
         (tasks db))
      (map (fun s =>
              if existsb (fun x => Task.id x =? Subtask.task_id s) xs
              then Subtask.with_is_completed false s else s)
         (subtasks db))
      (categories db).
Proof.
  match goal with |- _ -> fold_left ?F _ _ = _ => set (step := F) end.
  revert db. induction xs as [|x xs IH]; intros db Hnd.
  - simpl. rewrite !map_id. now destruct db.
  - cbn [fold_left].
    assert (step db x = _) as -> by exact (reset_step x db Hnd).
    rewrite IH.
    + cbn [tasks subtasks categories]. unfold update_row.
      rewrite !map_map. f_equal; apply map_ext; intros r; simpl.
      * rewrite (Z.eqb_sym (Task.id x) (Task.id r)).
        destruct (Task.id r =? Task.id x); simpl; [|reflexivity].
        now destruct (existsb _ xs).
      * rewrite (Z.eqb_sym (Task.id x) (Subtask.task_id r)).
        destruct (Subtask.task_id r =? Task.id x); simpl; [|reflexivity].
        now destruct (existsb _ xs).
    + cbn [subtasks]. apply NoDup_map_pk; [|exact Hnd].
      intros r. now destruct (Subtask.task_id r =? Task.id x).
Qed.

Lemma existsb_filter {A : Type} (p q : A -> bool) l :
  existsb p (filter q l) = existsb (fun x => p x && q x) l.
Proof.
  induction l as [|x l IH]; simpl; [reflexivity|].
  destruct (q x); simpl; rewrite IH; [now rewrite andb_true_r|].
  now rewrite andb_false_r.
Qed.

Lemma Forall2_map_self {A : Type} (R : A -> A -> Prop) (f : A -> A) l :
  (forall x, R x (f x)) -> Forall2 R l (map f l).
Proof. intros Hf. induction l; simpl; constructor; auto. Qed.

(** C10: [reset_all_tasks] clears the completion flag of every task of
    the acting user and of every subtask of such a task; every row keeps
    all its other fields, the rows of other users and the categories are
    unchanged, and no row is added or removed. *)
Theorem reset_all_tasks_clears_flags (u : Z) (db : Db) :
  primary_keys db ->
  exists db',
    reset_all_tasks u db = (db', Redirect None)
    /\ tasks db'
       = map (fun t =>
                if Task.user_id t =? u
                then Task.with_is_completed false t else t) (tasks db)
    /\ subtasks db'
       = map (fun s =>
                if subtask_of_user u db s
                then Subtask.with_is_completed false s else s) (subtasks db)
    /\ categories db' = categories db
    /\ Forall2
         (fun t t' =>
            task_same_but_flag t t'
            /\ Task.is_completed t'
               = if Task.user_id t =? u then false else Task.is_completed t)
         (tasks db) (tasks db')
    /\ Forall2
         (fun s s' =>
            subtask_same_but_flag s s'
            /\ Subtask.is_completed s'
               = if subtask_of_user u db s then false
                 else Subtask.is_completed s)
         (subtasks db) (subtasks db').
Proof.
  intros [Ht Hs]. unfold reset_all_tasks. rewrite (reset_loop _ db Hs).
  eexists. split; [reflexivity|]. cbn [tasks subtasks categories].
  assert (map (fun r =>
                 if existsb (fun x => Task.id x =? Task.id r)
                      (filter (fun t => Task.user_id t =? u) (tasks db))
                 then Task.with_is_completed false r else r) (tasks db)
          = map (fun t =>
                   if Task.user_id t =? u
                   then Task.with_is_completed false t else t) (tasks db))
    as ->.
  { apply map_ext_in. intros r Hr.
    now rewrite (existsb_pk_filter Task.id _ _ r Ht Hr). }
  assert (map (fun s =>
                 if existsb (fun x => Task.id x =? Subtask.task_id s)
                      (filter (fun t => Task.user_id t =? u) (tasks db))
                 then Subtask.with_is_completed false s else s)
            (subtasks db)
          = map (fun s =>
                   if subtask_of_user u db s
                   then Subtask.with_is_completed false s else s)
              (subtasks db)) as ->.
  { apply map_ext. intros s. unfold subtask_of_user.
    now rewrite existsb_filter. }
  repeat split.
  - apply Forall2_map_self. intros t. unfold task_same_but_flag.
    destruct (Task.user_id t =? u); simpl; split; try reflexivity.
    symmetry. apply task_with_same_flag.
  - apply Forall2_map_self. intros s. unfold subtask_same_but_flag.
    destruct (subtask_of_user u db s); simpl; split; try reflexivity.
    now destruct s.
Qed.

Lemma sample_db_primary_keys : primary_keys sample_db.
Proof.
  split; simpl; repeat constructor; simpl; intuition discriminate.
Qed.

Lemma reset_all_tasks_clears_flags_witness :
  primary_keys sample_db
  /\ exists db',
       reset_all_tasks 1 sample_db = (db', Redirect None)
       /\ forallb (fun t => negb (Task.is_completed t)) (tasks db') = true
       /\ forallb (fun s => negb (Subtask.is_completed s)) (subtasks db')
          = true.
Proof.
  split; [exact sample_db_primary_keys|].
  destruct (reset_all_tasks_clears_flags 1 sample_db sample_db_primary_keys)
    as (db' & Hr & Ht & Hs & _).
  exists db'. split; [exact Hr|]. rewrite Ht, Hs. split; reflexivity.
Defined.

(** ** Reordering *)

Lemma asc_leb_total a b : asc_leb a b = false -> asc_leb b a = true.
Proof.
  destruct a as [x|], b as [y|]; simpl; try congruence.
  intros E. apply Z.leb_gt in E. apply Z.leb_le. lia.
Qed.

Lemma asc_leb_trans a b c :
  asc_leb a b = true -> asc_leb b c = true -> asc_leb a c = true.
Proof.
  destruct a as [x|], b as [y|], c as [z|]; simpl; try congruence.
  rewrite !Z.leb_le. lia.
Qed.

Lemma desc_leb_total a b : desc_leb a b = false -> desc_leb b a = true.
Proof. apply asc_leb_total. Qed.

Lemma desc_leb_trans a b c :
  desc_leb a b = true -> desc_leb b c = true -> desc_leb a c = true.
Proof. unfold desc_leb. intros E1 E2. exact (asc_leb_trans _ _ _ E2 E1). Qed.

Lemma sql_lt_some a b :
  sql_lt a b = true -> exists x y, a = Some x /\ b = Some y /\ x < y.
Proof.
  destruct a as [x|], b as [y|]; simpl; try discriminate.
  intros E. apply Z.ltb_lt in E. eauto.
Qed.

Lemma sql_lt_apart a b : sql_lt a b = true -> a <> b.
Proof.
  intros E. destruct (sql_lt_some _ _ E) as (x & y & -> & -> & Hxy).
  intros G. injection G as G. lia.
Qed.

Lemma sql_gt_apart a b : sql_gt a b = true -> a <> b.
Proof. intros E G. symmetry in G. revert G. now apply sql_lt_apart. Qed.

Lemma perm_exchange {A : Type} (u v : A) a b c :
  Permutation (a ++ u :: b ++ v :: c) (a ++ v :: b ++ u :: c).
Proof.
  apply Permutation_app_head.
  transitivity (u :: v :: b ++ c).
  { constructor. symmetry. apply Permutation_middle. }
  transitivity (v :: u :: b ++ c); [apply perm_swap|].
  constructor. apply Permutation_middle.
Qed.

Lemma in_two_split {A : Type} (x p : A) l :
  In x l -> In p l -> x <> p ->
  exists l1 l2 l3,
    l = l1 ++ x :: l2 ++ p :: l3 \/ l = l1 ++ p :: l2 ++ x :: l3.
Proof.
  intros Hx Hp Hne. destruct (in_split _ _ Hx) as (a & b & ->).
  apply in_app_or in Hp. destruct Hp as [Hp|[Hp|Hp]].
  - destruct (in_split _ _ Hp) as (c & d & ->).
    exists c, d, b. right. now rewrite <- app_assoc.
  - congruence.
  - destruct (in_split _ _ Hp) as (c & d & ->). exists a, c, d. now left.
Qed.

Lemma filter_nil_all {A : Type} (p : A -> bool) l :
  filter p l = [] -> forall x, In x l -> p x = false.
Proof.
  intros E x Hx. destruct (p x) eqn:Px; [|reflexivity].
  assert (In x (filter p l)) as G by (apply filter_In; auto).
  rewrite E in G. contradiction.
Qed.

Section Reorder.
Context {R : Type}.
Variable pk : R -> Z.
Variable col : R -> option Z.
Variable set : option Z -> R -> R.
Variables in_scope done : R -> bool.
Hypothesis pk_set : forall k r, pk (set k r) = pk r.
Hypothesis col_set : forall k r, col (set k r) = k.
Hypothesis scope_set : forall k r, in_scope (set k r) = in_scope r.
Hypothesis done_set : forall k r, done (set k r) = done r.
Hypothesis set_col : forall r, set (col r) r = r.
Hypothesis set_set : forall k k' r, set k (set k' r) = set k r.

Lemma swap_rows_map x p rows :
  pk x <> pk p ->
  swap_rows pk col set x p rows = map (exchange pk col set x p) rows.
Proof.
  intros Hne. unfold swap_rows, update_row, exchange.
  rewrite map_map. apply map_ext. intros r.
  destruct (Z.eqb_spec (pk r) (pk x)) as [E|E].
  - rewrite pk_set, E.
    destruct (Z.eqb_spec (pk x) (pk p)); [contradiction|reflexivity].
  - reflexivity.
Qed.

Lemma pk_apart l1 a l2 r :
  NoDup (map pk (l1 ++ a :: l2)) -> In r l1 \/ In r l2 -> pk r <> pk a.
Proof.
  rewrite map_app. simpl. intros Hnd Hr E.
  apply NoDup_remove_2 in Hnd. apply Hnd. rewrite <- E.
  apply in_or_app. destruct Hr as [Hr|Hr]; [left|right]; now apply in_map.
Qed.

Lemma exchange_fixes x p l :
  (forall r, In r l -> pk r <> pk x /\ pk r <> pk p) ->
  map (exchange pk col set x p) l = l.
Proof.
  intros Hl. rewrite <- (map_id l) at 2. apply map_ext_in.
  intros r Hr. destruct (Hl r Hr) as [Hx Hp]. unfold exchange.
  destruct (Z.eqb_spec (pk r) (pk x)); [contradiction|].
  destruct (Z.eqb_spec (pk r) (pk p)); [contradiction|reflexivity].
Qed.

Lemma swap_rows_swapped x p rows :
  NoDup (map pk rows) -> In x rows -> In p rows -> pk x <> pk p ->
  keys_swapped col set x p rows (swap_rows pk col set x p rows).
Proof.
  intros Hnd Hx Hp Hne. rewrite (swap_rows_map x p rows Hne).
  assert (x <> p) as Hxp by congruence.
  assert (exchange pk col set x p x = set (col p) x) as Ex.
  { unfold exchange. now rewrite Z.eqb_refl. }
  assert (exchange pk col set x p p = set (col x) p) as Ep.
  { unfold exchange. rewrite Z.eqb_refl.
    destruct (Z.eqb_spec (pk p) (pk x)); congruence. }
  destruct (in_two_split x p rows Hx Hp Hxp) as (l1 & l2 & l3 & [E|E]);
    exists l1, l2, l3; [left|right]; (split; [exact E|]); subst rows.
  - pose proof (pk_apart l1 x (l2 ++ p :: l3) ) as Ax.
    rewrite app_comm_cons, app_assoc in Hnd.
    pose proof (pk_apart (l1 ++ x :: l2) p l3) as Ap.
    rewrite <- app_assoc, <- app_comm_cons in Hnd.
    rewrite <- app_assoc, <- app_comm_cons in Ap.
    rewrite map_app. simpl. rewrite map_app. simpl. rewrite Ex, Ep.
    rewrite !exchange_fixes; [reflexivity|..]; intros r Hr; split.
    all: try (apply Ax; [exact Hnd|]); try (apply Ap; [exact Hnd|]).
    all: rewrite ?in_app_iff; simpl; tauto.
  - pose proof (pk_apart l1 p (l2 ++ x :: l3) ) as Ap.
    rewrite app_comm_cons, app_assoc in Hnd.
    pose proof (pk_apart (l1 ++ p :: l2) x l3) as Ax.
    rewrite <- app_assoc, <- app_comm_cons in Hnd.
    rewrite <- app_assoc, <- app_comm_cons in Ax.
    rewrite map_app. simpl. rewrite map_app. simpl. rewrite Ex, Ep.
    rewrite !exchange_fixes; [reflexivity|..]; intros r Hr; split.
    all: try (apply Ax; [exact Hnd|]); try (apply Ap; [exact Hnd|]).
    all: rewrite ?in_app_iff; simpl; tauto.
Qed.

Lemma keys_swapped_perm x p rows rows' :
  in_scope x = in_scope p ->
  keys_swapped col set x p rows rows' ->
  Permutation (map col (filter in_scope rows'))
    (map col (filter in_scope rows)).
Proof.
  intros Hs (l1 & l2 & l3 & [[-> ->]|[-> ->]]);
    repeat (rewrite filter_app; cbn [filter]);
    rewrite !scope_set, <- Hs; destruct (in_scope x);
    repeat (rewrite map_app; cbn [map]); rewrite ?col_set;
    solve [apply perm_exchange|reflexivity].
Qed.

Lemma move_step cmp leb x rows :
  (forall a b, leb a b = false -> leb b a = true) ->
  (forall a b c, leb a b = true -> leb b c = true -> leb a c = true) ->
  (forall a b, cmp a b = true -> a <> b) ->
  NoDup (map pk rows) -> In x rows ->
  reorder_step col set in_scope done cmp x rows
    match neighbour col in_scope done cmp leb x rows with
    | Some p => swap_rows pk col set x p rows
    | None => rows
    end.
Proof.
  intros Htot Htrans Hcmp Hnd Hx. unfold neighbour, order_by.
  destruct (first _) as [p|] eqn:E.
  - apply (first_sorted_some leb col Htot Htrans) in E.
    destruct E as [Hp _]. apply filter_In in Hp. destruct Hp as [Hp Hc].
    right. exists p. repeat split; auto.
    apply swap_rows_swapped; auto.
    intros Epk. pose proof (pk_unique pk rows x p Hnd Hx Hp Epk) as ->.
    unfold candidate in Hc. apply andb_true_iff in Hc.
    destruct Hc as [Hc _]. apply andb_true_iff in Hc.
    destruct Hc as [_ Hc]. now apply Hcmp in Hc.
  - apply first_sorted_none in E. left. split; [|reflexivity].
    now apply filter_nil_all.
Qed.

Lemma candidate_true cmp x r :
  candidate col in_scope done cmp x r = true <->
  in_scope r = true /\ cmp (col r) (col x) = true /\ done r = done x.
Proof.
  unfold candidate. rewrite !andb_true_iff, eqb_true_iff. tauto.
Qed.

(** Moving up and then down again: the second move picks the row the
    first one exchanged keys with, provided the moved row shares its key
    with no other row of its scope and cohort. *)
Lemma move_round_trip x p rows :
  NoDup (map pk rows) -> In x rows ->
  neighbour col in_scope done sql_lt desc_leb x rows = Some p ->
  key_unique col in_scope done pk x rows ->
  neighbour col in_scope done sql_gt asc_leb (set (col p) x)
    (swap_rows pk col set x p rows) = Some (set (col x) p)
  /\ swap_rows pk col set (set (col p) x) (set (col x) p)
       (swap_rows pk col set x p rows) = rows.
Proof.
  intros Hnd Hx E Huniq. unfold neighbour, order_by in E.
  apply (first_sorted_some desc_leb col desc_leb_total desc_leb_trans)
    in E.
  destruct E as [Hp Hmax]. apply filter_In in Hp. destruct Hp as [Hp Hc].
  apply candidate_true in Hc. destruct Hc as (Hsp & Hlt & Hdp).
  destruct (sql_lt_some _ _ Hlt) as (a & b & Ka & Kb & Hab).
  assert (pk x <> pk p) as Hne.
  { intros Epk. pose proof (pk_unique pk rows x p Hnd Hx Hp Epk) as ->.
    rewrite Ka in Kb. injection Kb as ->. lia. }
  rewrite (swap_rows_map x p rows Hne).
  set (x1 := set (col p) x). set (p1 := set (col x) p).
  assert (exchange pk col set x p p = p1) as Ep.
  { unfold exchange. rewrite Z.eqb_refl.
    destruct (Z.eqb_spec (pk p) (pk x)) as [G|G]; [|reflexivity].
    now elim Hne. }
  assert (In p1 (filter (candidate col in_scope done sql_gt x1)
                   (map (exchange pk col set x p) rows))) as Hp1.
  { apply filter_In. split.
    - rewrite <- Ep. now apply in_map.
    - apply candidate_true. unfold x1, p1.
      rewrite !scope_set, !done_set, !col_set. unfold sql_gt.
      repeat split; auto; try congruence.
      all: rewrite ?Ka, ?Kb; simpl; now apply Z.ltb_lt. }
  split.
  - unfold neighbour, order_by. destruct (first _) as [q|] eqn:E2.
    + apply (first_sorted_some asc_leb col asc_leb_total asc_leb_trans)
        in E2.
      destruct E2 as [Hq Hmin]. specialize (Hmin p1 Hp1).
      unfold key_le in Hmin. apply filter_In in Hq.
      destruct Hq as [Hq Hc]. apply in_map_iff in Hq.
      destruct Hq as (r & <- & Hr). f_equal.
      apply candidate_true in Hc. destruct Hc as (Hsr & Hgt & Hdr).
      unfold p1 in Hmin. rewrite col_set in Hmin.
      unfold x1 in Hgt, Hdr. rewrite col_set in Hgt.
      rewrite done_set in Hdr. unfold exchange in *.
      destruct (Z.eqb_spec (pk r) (pk x)) as [Erx|Erx].
      * rewrite col_set in Hgt. unfold sql_gt in Hgt.
        apply sql_lt_some in Hgt. destruct Hgt as (c & d & K1 & K2 & G).
        rewrite K1 in K2. injection K2 as ->. lia.
      * destruct (Z.eqb_spec (pk r) (pk p)) as [Erp|Erp].
        -- now rewrite (pk_unique pk rows r p Hnd Hr Hp Erp).
        -- exfalso. unfold sql_gt in Hgt. apply sql_lt_some in Hgt.
           destruct Hgt as (a' & c & K1 & Kc & Hac).
           rewrite Ka in K1. injection K1 as <-.
           rewrite Kc, Kb in Hmin. simpl in Hmin. apply Z.leb_le in Hmin.
           destruct (Z.eq_dec c b) as [->|Hcb].
           ++ apply Erx. apply Huniq; auto. congruence.
           ++ assert (In r (filter (candidate col in_scope done sql_lt x)
                              rows)) as Hcand.
              { apply filter_In. split; [exact Hr|].
                apply candidate_true. repeat split; auto.
                rewrite Kc, Kb. simpl. apply Z.ltb_lt. lia. }
              specialize (Hmax r Hcand). unfold key_le, desc_leb in Hmax.
              rewrite Kc, Ka in Hmax. simpl in Hmax.
              apply Z.leb_le in Hmax. lia.
    + apply first_sorted_none in E2. rewrite E2 in Hp1. contradiction.
  - rewrite swap_rows_map by (unfold x1, p1; now rewrite !pk_set).
    rewrite map_map. rewrite <- (map_id rows) at 2.
    apply map_ext_in. intros r Hr. unfold exchange, x1, p1.
    rewrite !pk_set, !col_set.
    destruct (Z.eqb_spec (pk r) (pk x)) as [Erx|Erx].
    + rewrite pk_set. destruct (Z.eqb_spec (pk r) (pk x)); [|contradiction].
      rewrite set_set, (pk_unique pk rows r x Hnd Hr Hx Erx).
      apply set_col.
    + destruct (Z.eqb_spec (pk r) (pk p)) as [Erp|Erp].
      * rewrite pk_set.
        destruct (Z.eqb_spec (pk r) (pk x)); [contradiction|].
        destruct (Z.eqb_spec (pk r) (pk p)); [|contradiction].
        rewrite set_set, (pk_unique pk rows r p Hnd Hr Hp Erp).
        apply set_col.
      * destruct (Z.eqb_spec (pk r) (pk x)); [contradiction|].
        destruct (Z.eqb_spec (pk r) (pk p)); [contradiction|reflexivity].
Qed.

Lemma move_step_perm cmp x rows rows' :
  in_scope x = true ->
  reorder_step col set in_scope done cmp x rows rows' ->
  Permutation (map col (filter in_scope rows'))
    (map col (filter in_scope rows)).
Proof.
  intros Hx [[_ ->]|(p & _ & Hc & Hsw)]; [reflexivity|].
  apply candidate_true in Hc. destruct Hc as (Hp & _).
  apply (keys_swapped_perm x p); congruence.
Qed.

Lemma neighbour_exists cmp leb x r rows :
  In r rows -> candidate col in_scope done cmp x r = true ->
  exists p, neighbour col in_scope done cmp leb x rows = Some p.
Proof.
  intros Hr Hc. unfold neighbour, order_by.
  destruct (first _) as [p|] eqn:E; [now exists p|].
  apply first_sorted_none in E.
  pose proof (filter_nil_all _ _ E r Hr). congruence.
Qed.
Lemma move_round_trip_rows x prev rows :
  NoDup (map pk rows) -> In x rows -> In prev rows ->
  candidate col in_scope done sql_lt x prev = true ->
  key_unique col in_scope done pk x rows ->
  exists p,
    neighbour col in_scope done sql_lt desc_leb x rows = Some p
    /\ swap_rows pk col set x p rows = map (exchange pk col set x p) rows
    /\ exchange pk col set x p x = set (col p) x
    /\ neighbour col in_scope done sql_gt asc_leb (set (col p) x)
         (swap_rows pk col set x p rows) = Some (set (col x) p)
    /\ swap_rows pk col set (set (col p) x) (set (col x) p)
         (swap_rows pk col set x p rows) = rows
    /\ swap_rows pk col set x p rows <> rows.
Proof.
  intros Hnd Hx Hprev Hc Huniq.
  destruct (neighbour_exists sql_lt desc_leb x prev rows Hprev Hc)
    as (p & Hp).
  destruct (move_round_trip x p rows Hnd Hx Hp Huniq) as [Hdown Hback].
  exists p. unfold neighbour, order_by in Hp. pose proof Hp as Hp'.
  apply (first_sorted_some desc_leb col desc_leb_total desc_leb_trans)
    in Hp'.
  destruct Hp' as [Hp' _]. apply filter_In in Hp'.
  destruct Hp' as [Hpin Hpc]. apply candidate_true in Hpc.
  destruct Hpc as (_ & Hlt & _). apply sql_lt_apart in Hlt.
  assert (pk x <> pk p) as Hne.
  { intros Epk. apply Hlt.
    now rewrite (pk_unique pk rows x p Hnd Hx Hpin Epk). }
  assert (exchange pk col set x p x = set (col p) x) as Ex.
  { unfold exchange. now rewrite Z.eqb_refl. }
  repeat split; auto using swap_rows_map.
  intros Eq.
  assert (In (set (col p) x) rows) as G.
  { rewrite <- Eq, (swap_rows_map x p rows Hne), <- Ex. now apply in_map. }
  pose proof (pk_unique pk rows _ _ Hnd G Hx (pk_set _ _)) as Eq'.
  apply (f_equal col) in Eq'. rewrite col_set in Eq'. congruence.
Qed.
End Reorder.

Lemma task_set_col r : Task.with_order_index (Task.order_index r) r = r.
Proof. now destruct r. Qed.

Lemma subtask_set_col r :
  Subtask.with_order_index (Subtask.order_index r) r = r.
Proof. now destruct r. Qed.

Lemma with_tasks_same db : with_tasks (tasks db) db = db.
Proof. now destruct db. Qed.

Lemma with_subtasks_same db : with_subtasks (subtasks db) db = db.
Proof. now destruct db. Qed.

(** A row without order key has no neighbour to move past. *)
Lemma neighbour_null {R : Type} (col : R -> option Z)
    (in_scope done : R -> bool) leb (x : R) rows :
  col x = None ->
  neighbour col in_scope done sql_lt leb x rows = None
  /\ neighbour col in_scope done sql_gt leb x rows = None.
Proof.
  intros E.
  assert (forall cmp,
            (forall a, cmp a None = false) ->
            neighbour col in_scope done cmp leb x rows = None) as Hnone.
  { intros cmp Hcmp. unfold neighbour.
    replace (filter (candidate col in_scope done cmp x) rows) with (@nil R);
      [reflexivity|].
    symmetry. induction rows as [|r rows IH]; simpl; [reflexivity|].
    unfold candidate at 1. now rewrite E, Hcmp, andb_false_r. }
  split; apply Hnone.
  - now intros [a|].
  - reflexivity.
Qed.

Lemma neighbour_keyed {R : Type} (col : R -> option Z)
    (in_scope done : R -> bool) leb (x : R) rows p :
  neighbour col in_scope done sql_lt leb x rows = Some p
  \/ neighbour col in_scope done sql_gt leb x rows = Some p ->
  exists k, col x = Some k.
Proof.
  intros Hp. destruct (col x) as [k|] eqn:E; [now exists k|].
  destruct (neighbour_null col in_scope done leb x rows E) as [E1 E2].
  rewrite E1, E2 in Hp. destruct Hp; discriminate.
Qed.

(** The four handlers, written with [neighbour]. *)
Lemma move_task_up_eq u tid db :
  move_task_up u tid db
  = match first (task_query u tid db) with
    | None => (db, NotFound)
    | Some task =>
      (with_tasks
         match
           neighbour Task.order_index (same_user u) Task.is_completed
             sql_lt desc_leb task (tasks db)
         with
         | Some p =>
           swap_rows Task.id Task.order_index Task.with_order_index task p
             (tasks db)
         | None => tasks db
         end db,
       move_response (Task.order_index task))
    end.
Proof.
  unfold move_task_up.
  destruct (first (task_query u tid db)) as [task|]; [|reflexivity].
  destruct (Task.order_index task) as [k|] eqn:Ek.
  - unfold neighbour, candidate, same_user. rewrite Ek.
    destruct (first (order_by _ _ _)); [reflexivity|].
    now rewrite with_tasks_same.
  - destruct (neighbour_null Task.order_index (same_user u)
                Task.is_completed desc_leb task (tasks db) Ek) as [-> _].
    now rewrite with_tasks_same.
Qed.

Lemma move_task_down_eq u tid db :
  move_task_down u tid db
  = match first (task_query u tid db) with
    | None => (db, NotFound)
    | Some task =>
      (with_tasks
         match
           neighbour Task.order_index (same_user u) Task.is_completed
             sql_gt asc_leb task (tasks db)
         with
         | Some p =>
           swap_rows Task.id Task.order_index Task.with_order_index task p
             (tasks db)
         | None => tasks db
         end db,
       move_response (Task.order_index task))
    end.
Proof.
  unfold move_task_down.
  destruct (first (task_query u tid db)) as [task|]; [|reflexivity].
  destruct (Task.order_index task) as [k|] eqn:Ek.
  - unfold neighbour, candidate, same_user. rewrite Ek.
    destruct (first (order_by _ _ _)); [reflexivity|].
    now rewrite with_tasks_same.
  - destruct (neighbour_null Task.order_index (same_user u)
                Task.is_completed asc_leb task (tasks db) Ek) as [_ ->].
    now rewrite with_tasks_same.
Qed.

Lemma move_subtask_up_eq u sid db :
  move_subtask_up u sid db
  = match first (subtask_query u sid db) with
    | None => (db, NotFound)
    | Some subtask =>
      (with_subtasks
         match
           neighbour Subtask.order_index (same_parent subtask)
             Subtask.is_completed sql_lt desc_leb subtask (subtasks db)
         with
         | Some p =>
           swap_rows Subtask.id Subtask.order_index Subtask.with_order_index
             subtask p (subtasks db)
         | None => subtasks db
         end db,
       move_response (Subtask.order_index subtask))
    end.
Proof.
  unfold move_subtask_up.
  destruct (first (subtask_query u sid db)) as [s|]; [|reflexivity].
  destruct (Subtask.order_index s) as [k|] eqn:Ek.
  - unfold neighbour, candidate, same_parent. rewrite Ek.
    destruct (first (order_by _ _ _)); [reflexivity|].
    now rewrite with_subtasks_same.
  - destruct (neighbour_null Subtask.order_index (same_parent s)
                Subtask.is_completed desc_leb s (subtasks db) Ek) as [-> _].
    now rewrite with_subtasks_same.
Qed.

Lemma move_subtask_down_eq u sid db :
  move_subtask_down u sid db
  = match first (subtask_query u sid db) with
    | None => (db, NotFound)
    | Some subtask =>
      (with_subtasks
         match
           neighbour Subtask.order_index (same_parent subtask)
             Subtask.is_completed sql_gt asc_leb subtask (subtasks db)
         with
         | Some p =>
           swap_rows Subtask.id Subtask.order_index Subtask.with_order_index
             subtask p (subtasks db)
         | None => subtasks db
         end db,
       move_response (Subtask.order_index subtask))
    end.
Proof.
  unfold move_subtask_down.
  destruct (first (subtask_query u sid db)) as [s|]; [|reflexivity].
  destruct (Subtask.order_index s) as [k|] eqn:Ek.
  - unfold neighbour, candidate, same_parent. rewrite Ek.
    destruct (first (order_by _ _ _)); [reflexivity|].
    now rewrite with_subtasks_same.
  - destruct (neighbour_null Subtask.order_index (same_parent s)
                Subtask.is_completed asc_leb s (subtasks db) Ek) as [_ ->].
    now rewrite with_subtasks_same.
Qed.

Lemma task_move_outcome_of cmp leb u tid db :
  (forall a b, leb a b = false -> leb b a = true) ->
  (forall a b c, leb a b = true -> leb b c = true -> leb a c = true) ->
  (forall a b, cmp a b = true -> a <> b) ->
  primary_keys db ->
  task_move_outcome cmp u tid db
    (fst
       match first (task_query u tid db) with
       | None => (db, NotFound)
       | Some task =>
         (with_tasks
            match
              neighbour Task.order_index (same_user u) Task.is_completed
                cmp leb task (tasks db)
            with
            | Some p =>
              swap_rows Task.id Task.order_index Task.with_order_index task
                p (tasks db)
            | None => tasks db
            end db,
          move_response (Task.order_index task))
       end).
Proof.
  intros Htot Htrans Hcmp [Hnd _]. unfold task_move_outcome.
  destruct (first (task_query u tid db)) as [task|] eqn:E; [|reflexivity].
  apply first_filter_some in E. destruct E as [Hin E].
  apply andb_true_iff in E. destruct E as [_ Hu].
  cbn [fst with_tasks tasks subtasks categories].
  pose proof
    (move_step Task.id Task.order_index Task.with_order_index (same_user u)
       Task.is_completed (fun _ _ => eq_refl) cmp leb task (tasks db)
       Htot Htrans Hcmp Hnd Hin) as Hstep.
  repeat split; [exact Hstep|].
  apply (move_step_perm Task.order_index Task.with_order_index (same_user u)
           Task.is_completed (fun _ _ => eq_refl) (fun _ _ => eq_refl)
           cmp task); [exact Hu|exact Hstep].
Qed.

Lemma subtask_move_outcome_of cmp leb u sid db :
  (forall a b, leb a b = false -> leb b a = true) ->
  (forall a b c, leb a b = true -> leb b c = true -> leb a c = true) ->
  (forall a b, cmp a b = true -> a <> b) ->
  primary_keys db ->
  subtask_move_outcome cmp u sid db
    (fst
       match first (subtask_query u sid db) with
       | None => (db, NotFound)
       | Some subtask =>
         (with_subtasks
            match
              neighbour Subtask.order_index (same_parent subtask)
                Subtask.is_completed cmp leb subtask (subtasks db)
            with
            | Some p =>
              swap_rows Subtask.id Subtask.order_index
                Subtask.with_order_index subtask p (subtasks db)
            | None => subtasks db
            end db,
          move_response (Subtask.order_index subtask))
       end).
Proof.
  intros Htot Htrans Hcmp [_ Hnd]. unfold subtask_move_outcome.
  destruct (first (subtask_query u sid db)) as [s|] eqn:E; [|reflexivity].
  apply first_filter_some in E. destruct E as [Hin _].
  cbn [fst with_subtasks tasks subtasks categories].
  pose proof
    (move_step Subtask.id Subtask.order_index Subtask.with_order_index
       (same_parent s) Subtask.is_completed (fun _ _ => eq_refl) cmp leb s
       (subtasks db) Htot Htrans Hcmp Hnd Hin) as Hstep.
  repeat split; [exact Hstep|].
  apply (move_step_perm Subtask.order_index Subtask.with_order_index
           (same_parent s) Subtask.is_completed (fun _ _ => eq_refl)
           (fun _ _ => eq_refl) cmp s); [apply Z.eqb_refl|exact Hstep].
Qed.

(** C7: every move handler leaves the order keys present in the affected
    scope the same up to their assignment to rows: it either exchanges the
    order keys of exactly two rows, the moved one and a row of the same
    scope and completion cohort with a lower (for the up moves) or higher
    (for the down moves) key, or, when no such row exists or the moved
    entity is not found, changes nothing.  The other tables are never
    written. *)
Theorem moves_preserve_order_keys (u id : Z) (db : Db) :
  primary_keys db ->
  task_move_outcome sql_lt u id db (fst (move_task_up u id db))
  /\ task_move_outcome sql_gt u id db (fst (move_task_down u id db))
  /\ subtask_move_outcome sql_lt u id db (fst (move_subtask_up u id db))
  /\ subtask_move_outcome sql_gt u id db (fst (move_subtask_down u id db)).
Proof.
  intros Hpk.
  rewrite move_task_up_eq, move_task_down_eq, move_subtask_up_eq,
    move_subtask_down_eq.
  repeat split.
  - apply task_move_outcome_of;
      [apply desc_leb_total|apply desc_leb_trans|apply sql_lt_apart|
       exact Hpk].
  - apply task_move_outcome_of;
      [apply asc_leb_total|apply asc_leb_trans|apply sql_gt_apart|
       exact Hpk].
  - apply subtask_move_outcome_of;
      [apply desc_leb_total|apply desc_leb_trans|apply sql_lt_apart|
       exact Hpk].
  - apply subtask_move_outcome_of;
      [apply asc_leb_total|apply asc_leb_trans|apply sql_gt_apart|
       exact Hpk].
Qed.

Lemma task_query_exchange u tid db x p :
  first
    (task_query u tid
       (with_tasks
          (map (exchange Task.id Task.order_index Task.with_order_index x p)
             (tasks db)) db))
  = option_map (exchange Task.id Task.order_index Task.with_order_index x p)
      (first (task_query u tid db)).
Proof.
  unfold task_query. cbn [with_tasks tasks].
  rewrite filter_map_commute, first_map; [reflexivity|].
  intros r. unfold exchange.
  destruct (Task.id r =? Task.id x); [reflexivity|].
  now destruct (Task.id r =? Task.id p).
Qed.

Lemma subtask_query_exchange u sid db x p :
  first
    (subtask_query u sid
       (with_subtasks
          (map
             (exchange Subtask.id Subtask.order_index
                Subtask.with_order_index x p) (subtasks db)) db))
  = option_map
      (exchange Subtask.id Subtask.order_index Subtask.with_order_index x p)
      (first (subtask_query u sid db)).
Proof.
  unfold subtask_query. cbn [with_subtasks tasks subtasks].
  rewrite filter_map_commute, first_map; [reflexivity|].
  intros r. unfold exchange.
  destruct (Subtask.id r =? Subtask.id x); [reflexivity|].
  now destruct (Subtask.id r =? Subtask.id p).
Qed.

Lemma move_task_round_trip u tid db task prev :
  primary_keys db ->
  first (task_query u tid db) = Some task ->
  In prev (tasks db) ->
  candidate Task.order_index (same_user u) Task.is_completed sql_lt task prev
  = true ->
  key_unique Task.order_index (same_user u) Task.is_completed Task.id task
    (tasks db) ->
  exists db1,
    move_task_up u tid db = (db1, Redirect None)
    /\ move_task_down u tid db1 = (db, Redirect None)
    /\ db1 <> db.
Proof.
  intros [Hnd _] E Hprev Hc Huniq.
  pose proof E as Hin. apply first_filter_some in Hin.
  destruct Hin as [Hin _].
  destruct (move_round_trip_rows Task.id Task.order_index
              Task.with_order_index (same_user u) Task.is_completed
              (fun _ _ => eq_refl) (fun _ _ => eq_refl) (fun _ _ => eq_refl)
              (fun _ _ => eq_refl) task_set_col (fun _ _ _ => eq_refl)
              task prev (tasks db) Hnd Hin Hprev Hc Huniq)
    as (p & Hp & Hmap & Ex & Hdown & Hback & Hmoved).
  eexists. split; [|split].
  - rewrite move_task_up_eq, E, Hp.
    destruct (neighbour_keyed _ _ _ _ _ _ _ (or_introl Hp)) as [k ->].
    reflexivity.
  - rewrite move_task_down_eq. rewrite Hmap at 1.
    rewrite task_query_exchange, E. cbn [option_map].
    cbn [with_tasks tasks subtasks categories].
    rewrite Ex, Hdown. cbv beta iota. rewrite Hback.
    destruct (neighbour_keyed _ _ _ _ _ _ _ (or_intror Hdown)) as [k ->].
    now destruct db.
  - intros Edb. apply (f_equal tasks) in Edb. now apply Hmoved.
Qed.

Lemma move_subtask_round_trip u sid db subtask prev :
  primary_keys db ->
  first (subtask_query u sid db) = Some subtask ->
  In prev (subtasks db) ->
  candidate Subtask.order_index (same_parent subtask) Subtask.is_completed
    sql_lt subtask prev = true ->
  key_unique Subtask.order_index (same_parent subtask) Subtask.is_completed
    Subtask.id subtask (subtasks db) ->
  exists db1,
    move_subtask_up u sid db = (db1, Redirect None)
    /\ move_subtask_down u sid db1 = (db, Redirect None)
    /\ db1 <> db.
Proof.
  intros [_ Hnd] E Hprev Hc Huniq.
  pose proof E as Hin. apply first_filter_some in Hin.
  destruct Hin as [Hin _].
  destruct (move_round_trip_rows Subtask.id Subtask.order_index
              Subtask.with_order_index (same_parent subtask)
              Subtask.is_completed
              (fun _ _ => eq_refl) (fun _ _ => eq_refl) (fun _ _ => eq_refl)
              (fun _ _ => eq_refl) subtask_set_col (fun _ _ _ => eq_refl)
              subtask prev (subtasks db) Hnd Hin Hprev Hc Huniq)
    as (p & Hp & Hmap & Ex & Hdown & Hback & Hmoved).
  eexists. split; [|split].
  - rewrite move_subtask_up_eq, E, Hp.
    destruct (neighbour_keyed _ _ _ _ _ _ _ (or_introl Hp)) as [k ->].
    reflexivity.
  - rewrite move_subtask_down_eq. rewrite Hmap at 1.
    rewrite subtask_query_exchange, E. cbn [option_map].
    cbn [with_subtasks tasks subtasks categories].
    rewrite Ex.
    change (same_parent
              (Subtask.with_order_index (Subtask.order_index p) subtask))
      with (same_parent subtask).
    rewrite Hdown. cbv beta iota. rewrite Hback.
    destruct (neighbour_keyed _ _ _ _ _ _ _ (or_intror Hdown)) as [k ->].
    now destruct db.
  - intros Edb. apply (f_equal subtasks) in Edb. now apply Hmoved.
Qed.

(** C6 (amended): for a task or subtask of the acting user that has a row
    with a strictly lower order key in its scope and completion cohort, and
    that shares its own order key with no other row of that scope and
    cohort, the up move followed by the down move both succeed, the first
    changes the database and the second restores it entirely. *)
Theorem move_up_then_down_restores (u id : Z) (db : Db) :
  primary_keys db ->
  (forall task prev,
     first (task_query u id db) = Some task ->
     In prev (tasks db) ->
     candidate Task.order_index (same_user u) Task.is_completed sql_lt task
       prev = true ->
     key_unique Task.order_index (same_user u) Task.is_completed Task.id
       task (tasks db) ->
     exists db1,
       move_task_up u id db = (db1, Redirect None)
       /\ move_task_down u id db1 = (db, Redirect None)
       /\ db1 <> db)
  /\ (forall subtask prev,
        first (subtask_query u id db) = Some subtask ->
        In prev (subtasks db) ->
        candidate Subtask.order_index (same_parent subtask)
          Subtask.is_completed sql_lt subtask prev = true ->
        key_unique Subtask.order_index (same_parent subtask)
          Subtask.is_completed Subtask.id subtask (subtasks db) ->
        exists db1,
          move_subtask_up u id db = (db1, Redirect None)
          /\ move_subtask_down u id db1 = (db, Redirect None)
          /\ db1 <> db).
Proof.
  intros Hpk. split.
  - intros task prev. now apply move_task_round_trip.
  - intros subtask prev. now apply move_subtask_round_trip.
Qed.

Lemma trip_db_primary_keys : primary_keys trip_db.
Proof.
  split; simpl; repeat constructor; simpl; intuition discriminate.
Qed.

Lemma move_up_then_down_restores_witness :
  primary_keys trip_db
  /\ (exists db1,
        move_task_up 1 2 trip_db = (db1, Redirect None)
        /\ move_task_down 1 2 db1 = (trip_db, Redirect None)
        /\ db1 <> trip_db)
  /\ (exists db1,
        move_subtask_up 1 2 trip_db = (db1, Redirect None)
        /\ move_subtask_down 1 2 db1 = (trip_db, Redirect None)
        /\ db1 <> trip_db).
Proof.
  split; [exact trip_db_primary_keys|].
  destruct (move_up_then_down_restores 1 2 trip_db trip_db_primary_keys)
    as [Ht Hs].
  split.
  - apply (Ht (task_of 2 "Pack" false "medium" "evening" (Some 2) 1)
              (task_of 1 "Book flights" false "high" "morning" (Some 1) 1)).
    + reflexivity.
    + simpl. auto.
    + reflexivity.
    + intros r Hr _ _ Hk. simpl in Hr.
      destruct Hr as [<-|[<-|[]]]; [discriminate|reflexivity].
  - apply (Hs (subtask_of 2 "Tickets" false 2 2)
              (subtask_of 1 "Passport" false 1 2)).
    + reflexivity.
    + simpl. auto.
    + reflexivity.
    + intros r Hr _ _ Hk. simpl in Hr.
      destruct Hr as [<-|[<-|[<-|[]]]];
        [discriminate|reflexivity|discriminate].
Defined.

(** C6, counterexample: three incomplete tasks of one user with order keys
    2, 1, 2; moving the third up exchanges keys with the second, moving it
    down again exchanges keys with the first. *)
Lemma move_round_trip_fails_on_shared_key :
  ~ (forall (u id : Z) (db : Db) (task prev : Task.t),
       primary_keys db ->
       first (task_query u id db) = Some task ->
       In prev (tasks db) ->
       candidate Task.order_index (same_user u) Task.is_completed sql_lt
         task prev = true ->
       fst (move_task_down u id (fst (move_task_up u id db))) = db).
Proof.
  intros C.
  assert (primary_keys tie_db) as Hpk.
  { split; simpl; repeat constructor; simpl; intuition discriminate. }
  specialize (C 1 3 tie_db
                (task_of 3 "Taxes" false "medium" "any" (Some 2) 1)
                (task_of 2 "Post office" false "medium" "any" (Some 1) 1)
                Hpk eq_refl).
  cbv in C. specialize (C (or_intror (or_introl eq_refl)) eq_refl).
  discriminate.
Qed.

Example move_round_trip_shared_key :
  map Task.order_index
    (tasks (fst (move_task_down 1 3 (fst (move_task_up 1 3 tie_db)))))
  = [Some 1; Some 2; Some 2]
  /\ map Task.order_index (tasks tie_db) = [Some 2; Some 1; Some 2].
Proof. split; reflexivity. Qed.

Lemma moves_preserve_order_keys_witness :
  primary_keys sample_db
  /\ task_move_outcome sql_lt 1 4 sample_db
       (fst (move_task_up 1 4 sample_db))
  /\ map Task.order_index (tasks (fst (move_task_up 1 4 sample_db)))
     = [Some 1; Some 4; Some 3; Some 2].
Proof.
  split; [exact sample_db_primary_keys|].
  destruct (moves_preserve_order_keys 1 4 sample_db sample_db_primary_keys)
    as (Hup & _).
  split; [exact Hup|reflexivity].
Defined.

Example move_up_first_of_cohort :
  move_task_up 1 1 sample_db = (sample_db, Redirect None)
  /\ move_task_up 1 3 sample_db = (sample_db, Redirect None)
  /\ move_subtask_up 1 2 sample_db = (sample_db, Redirect None).
Proof. repeat split; reflexivity. Qed.

Lemma toggle_task_cascade_witness :
  first (task_query 1 2 sample_db)
  = Some (Task.mk 2 "Team meeting" 60 false (Some "high") (Some "morning")
            (Some 2) 1 (Some 2) 0)
  /\ exists db',
       toggle_task 1 2 sample_db = (db', Redirect None)
       /\ map Subtask.is_completed (subtasks db') = [true; true; true].
Proof.
  split; [reflexivity|].
  destruct (toggle_task_cascade 1 2 sample_db _ eq_refl)
    as (db' & Hr & _ & _ & _ & Hon & _).
  exists db'. split; [exact Hr|].
  destruct (Hon eq_refl) as [_ Hmap].
  rewrite (Hmap (proj2 sample_db_primary_keys)). reflexivity.
Defined.

Lemma delete_subtask_parent_flag_witness :
  first (subtask_query 1 1 sample_db)
  = Some (subtask_of 1 "Prepare meeting agenda" false 1 2)
  /\ exists parent db',
       parent_task (subtask_of 1 "Prepare meeting agenda" false 1 2)
         sample_db = Some parent
       /\ delete_subtask 1 1 sample_db = (db', Redirect None)
       /\ parent_task (subtask_of 1 "Prepare meeting agenda" false 1 2) db'
          = Some (Task.with_is_completed true parent).
Proof.
  split; [reflexivity|].
  destruct (delete_subtask_parent_flag 1 1 sample_db _ eq_refl)
    as (parent & db' & Hp & Hr & Hs & Hset & _).
  exists parent, db'. split; [exact Hp|]. split; [exact Hr|].
  apply proj2 with (A := tasks db'
                         = update_row Task.id (Task.id parent)
                             (Task.with_is_completed true)
                             (tasks sample_db)).
  assert (task_subtasks parent db'
          = [subtask_of 2 "Send meeting invites" true 2 2]) as E.
  { unfold task_subtasks. rewrite Hs.
    assert (Task.id parent = 2) as ->; [|reflexivity].
    cbv in Hp. now injection Hp as <-. }
  apply Hset; rewrite E; [discriminate|reflexivity].
Defined.

(** ** The examples of the specification *)

Example complete_subtasks_one_by_one :
  let db1 := fst (toggle_subtask 1 1 sample_db) in
  let db2 := fst (toggle_subtask 1 2 db1) in
  option_map Task.is_completed (first (task_query 1 2 sample_db))
  = Some false
  /\ option_map Task.is_completed (first (task_query 1 2 db1)) = Some true
  /\ option_map Task.is_completed (first (task_query 1 2 db2)) = Some false.
Proof. repeat split; reflexivity. Qed.

Example complete_task_without_subtasks :
  let db1 := fst (toggle_task 1 1 sample_db) in
  subtasks db1 = subtasks sample_db
  /\ map Task.is_completed (tasks db1) = [true; false; true; false].
Proof. split; reflexivity. Qed.

Example uncomplete_task_keeps_subtasks :
  let db1 := fst (toggle_task 1 3 sample_db) in
  subtasks db1 = subtasks sample_db
  /\ map Task.is_completed (tasks db1) = [false; false; false; false].
Proof. split; reflexivity. Qed.

Example add_subtask_to_completed_task :
  let db1 :=
    fst (@add_subtask AsciiRuntime.runtime 1 3 (Some "Write tests")
           sample_db) in
  map Task.is_completed (tasks db1) = [false; false; false; false]
  /\ map Subtask.order_index (subtask_scope 3 db1) = [Some 1; Some 2].
Proof. split; reflexivity. Qed.

Example int_examples :
  map AsciiRuntime.int [" 45 "; "-3"; "0"; "1_000"; "abc"; "4.5"; ""; "1__0"]
  = [Some 45; Some (-3); Some 0; Some 1000; None; None; None; None].
Proof. reflexivity. Qed.

(** The separators U+001C to U+001F are no blanks for [int] on an ASCII
    string. *)
Example int_separator_example :
  map AsciiRuntime.int
    [String (ascii_of_nat 28) "1"; String (ascii_of_nat 11) "1"]
  = [None; Some 1].
Proof. reflexivity. Qed.

Example integer_examples :
  map AsciiRuntime.integer
    ["2"; " 1"; "+1"; "2.0"; "1e2"; "15e-1"; "2.5"; "abc"; ""; "1e";
     "9223372036854775807"; "9223372036854775808"; "9007199254740993.0"]
  = [Some 2; Some 1; Some 1; Some 2; Some 100; None; None; None; None; None;
     Some 9223372036854775807; None; Some 9007199254740992].
Proof. vm_compute. reflexivity. Qed.

Example lower_example : AsciiRuntime.lower "Team Meeting 2" = "team meeting 2".
Proof. reflexivity. Qed.

(** * Further properties *)

(** ** Sorting again *)

Section StableSortMore.
Context {A K : Type}.
Variable leb : K -> K -> bool.
Variable key : A -> K.

Lemma sorted_fixed l :
  StronglySorted (key_le leb key) l -> sorted leb key l = l.
Proof.
  induction 1 as [|x l Hl IH Hx]; simpl; [reflexivity|].
  rewrite IH. destruct l as [|y l]; [reflexivity|]. simpl.
  inversion Hx as [|? ? Hxy _]; subst. unfold key_le in Hxy.
  now rewrite Hxy.
Qed.

Lemma insert_by_app_l x l1 l2 :
  (forall y, In y l2 -> leb (key x) (key y) = true) ->
  insert_by leb key x (l1 ++ l2) = insert_by leb key x l1 ++ l2.
Proof.
  intros H2. induction l1 as [|a l1 IH]; simpl.
  - destruct l2 as [|b l2]; [reflexivity|]. simpl.
    now rewrite (H2 b (or_introl eq_refl)).
  - destruct (leb (key x) (key a)); [reflexivity|]. now rewrite IH.
Qed.

Lemma insert_by_app_r x l1 l2 :
  (forall y, In y l1 -> leb (key x) (key y) = false) ->
  insert_by leb key x (l1 ++ l2) = l1 ++ insert_by leb key x l2.
Proof.
  intros H1. induction l1 as [|a l1 IH]; simpl; [reflexivity|].
  rewrite (H1 a (or_introl eq_refl)). rewrite IH; [reflexivity|].
  intros y Hy. apply H1. now right.
Qed.

(** A class of elements that sorts strictly after the others is sorted on
    its own. *)
Lemma sorted_partition (late : A -> bool) l :
  (forall a b, late a = false -> late b = true ->
     leb (key a) (key b) = true /\ leb (key b) (key a) = false) ->
  sorted leb key l
  = sorted leb key (filter (fun a => negb (late a)) l)
    ++ sorted leb key (filter late l).
Proof.
  intros Hlate. induction l as [|x l IH]; simpl; [reflexivity|].
  rewrite IH. destruct (late x) eqn:Lx; simpl.
  - apply insert_by_app_r. intros y Hy.
    apply (Permutation_in _ (sorted_perm leb key _)) in Hy.
    apply filter_In in Hy. destruct Hy as [_ Ly].
    apply negb_true_iff in Ly. now apply (Hlate y x).
  - apply insert_by_app_l. intros y Hy.
    apply (Permutation_in _ (sorted_perm leb key _)) in Hy.
    apply filter_In in Hy. destruct Hy as [_ Ly]. now apply (Hlate x y).
Qed.

Lemma sorted_snoc l x :
  (forall y, In y l -> leb (key y) (key x) = true) ->
  sorted leb key (l ++ [x]) = sorted leb key l ++ [x].
Proof.
  intros Hx. induction l as [|y l IH]; simpl; [reflexivity|].
  rewrite IH by (intros z Hz; apply Hx; now right).
  apply insert_by_app_l. intros z [<-|[]]. apply Hx. now left.
Qed.
End StableSortMore.

Lemma completion_decides `{Runtime} a b :
  Task.is_completed a = false -> Task.is_completed b = true ->
  key_leb (task_sort_key a) (task_sort_key b) = true
  /\ key_leb (task_sort_key b) (task_sort_key a) = false.
Proof.
  intros Ha Hb. unfold key_leb, key_compare, task_sort_key.
  now rewrite Ha, Hb.
Qed.

(** X1: sorting a list that [sort_tasks] returned changes nothing. *)
Theorem sort_tasks_idempotent `{Runtime} (l : list Task.t) :
  sort_tasks (sort_tasks l) = sort_tasks l.
Proof.
  apply sorted_fixed.
  apply (sorted_sorted key_leb task_sort_key key_leb_total key_leb_trans).
Qed.

Lemma sort_tasks_cohorts `{Runtime} (l : list Task.t) :
  sort_tasks l
  = sort_tasks (filter incomplete l) ++ sort_tasks (filter Task.is_completed l).
Proof.
  unfold sort_tasks. apply (sorted_partition key_leb task_sort_key).
  intros a b. apply completion_decides.
Qed.

(** X2: [sort_tasks] lists the incomplete tasks, sorted among themselves,
    and then the complete tasks, sorted among themselves. *)
Theorem sort_tasks_splits_by_completion `{Runtime} (l : list Task.t) :
  sort_tasks l
  = sort_tasks (filter incomplete l) ++ sort_tasks (filter Task.is_completed l).
Proof.
  unfold sort_tasks. apply (sorted_partition key_leb task_sort_key).
  intros a b. apply completion_decides.
Qed.

(** ** The dashboard *)

Lemma length_sorted {A K : Type} (leb : K -> K -> bool) (key : A -> K) l :
  List.length (sorted leb key l) = List.length l.
Proof. apply Permutation_length, sorted_perm. Qed.

Lemma length_filter_split {A : Type} (p : A -> bool) l :
  (List.length (filter (fun a => negb (p a)) l)
   + List.length (filter p l) = List.length l)%nat.
Proof.
  induction l as [|x l IH]; simpl; [reflexivity|].
  destruct (p x); simpl; lia.
Qed.

Lemma Forall_sorted {A K : Type} (leb : K -> K -> bool) (key : A -> K)
    (P : A -> Prop) l :
  Forall P l -> Forall P (sorted leb key l).
Proof.
  rewrite !Forall_forall. intros Hl x Hx. apply Hl.
  now apply (Permutation_in _ (sorted_perm leb key l)).
Qed.

Lemma Forall_filter_true {A : Type} (p : A -> bool) l :
  Forall (fun a => p a = true) (filter p l).
Proof. apply Forall_forall. intros x Hx. now apply filter_In in Hx. Qed.

(** X3: the counts of the dashboard add up, and its task list consists of
    the tasks in progress, as many as counted, followed by the completed
    ones, as many as counted. *)
Theorem dashboard_progress `{Runtime} (u : Z) (category : option string)
    (db : Db) :
  let v := dashboard u category db in
  total_tasks v = completed_tasks v + in_progress_tasks v
  /\ 0 <= completed_tasks v <= total_tasks v
  /\ exists in_progress completed,
       view_tasks v = in_progress ++ completed
       /\ Z.of_nat (List.length in_progress) = in_progress_tasks v
       /\ Z.of_nat (List.length completed) = completed_tasks v
       /\ Forall (fun t => Task.is_completed t = false) in_progress
       /\ Forall (fun t => Task.is_completed t = true) completed.
Proof.
  unfold dashboard. cbv zeta.
  match goal with
  | |- context [sort_tasks ?l] => generalize l
  end.
  intros ts. cbn [view_tasks total_tasks completed_tasks in_progress_tasks].
  pose proof (length_filter_split Task.is_completed ts) as Hlen.
  split; [lia|]. split; [lia|].
  exists (sort_tasks (filter incomplete ts)),
    (sort_tasks (filter Task.is_completed ts)).
  split; [apply sort_tasks_cohorts|].
  unfold sort_tasks. rewrite !length_sorted. unfold incomplete.
  split; [lia|]. split; [reflexivity|]. split.
  - apply Forall_sorted.
    eapply Forall_impl; [|apply (Forall_filter_true incomplete)].
    intros t. unfold incomplete. now destruct (Task.is_completed t).
  - apply Forall_sorted. apply Forall_filter_true.
Qed.

(** X4: the dashboard lists tasks and categories of the acting user only;
    without a category filter (or with "all") it lists all the user's
    tasks, with the id of a category those of the user's tasks that
    reference it, and with any other text none. *)
Theorem dashboard_own_rows `{Runtime} (u : Z) (category : option string)
    (db : Db) :
  let v := dashboard u category db in
  (forall t, In t (view_tasks v) -> In t (tasks db) /\ Task.user_id t = u)
  /\ (forall k, In k (view_categories v) <->
                In k (categories db) /\ Category.user_id k = u)
  /\ (category = None \/ category = Some "all" ->
      Permutation (view_tasks v) (task_scope u db))
  /\ (forall s, category = Some s -> s <> "all" ->
      match sql_integer s with
      | Some c =>
        Permutation (view_tasks v) (filter (in_category c) (task_scope u db))
      | None => view_tasks v = []
      end).
Proof.
  cbv zeta. unfold dashboard. cbn [view_tasks view_categories].
  split; [|split; [|split]].
  - intros t Ht.
    apply (Permutation_in _ (sorted_perm key_leb task_sort_key _)) in Ht.
    destruct (String.eqb _ "all").
    + apply filter_In in Ht. now rewrite Z.eqb_eq in Ht.
    + destruct (sql_integer _); [|contradiction].
      apply filter_In in Ht. rewrite andb_true_iff, Z.eqb_eq in Ht. tauto.
  - intros k. rewrite filter_In, Z.eqb_eq. tauto.
  - intros [->| ->]; simpl; apply sorted_perm.
  - intros s -> Hs. apply String.eqb_neq in Hs. rewrite Hs.
    destruct (sql_integer s) as [c|]; [|reflexivity].
    unfold sort_tasks. rewrite sorted_perm. unfold task_scope.
    assert (forall l,
              filter
                (fun t => (Task.user_id t =? u) && in_category c t) l
              = filter (in_category c)
                  (filter (fun t => Task.user_id t =? u) l)) as ->;
      [|reflexivity].
    induction l as [|x l IH]; simpl; [reflexivity|].
    destruct (Task.user_id x =? u); simpl; rewrite IH; reflexivity.
Qed.

Lemma perm_filter_split {A : Type} (p : A -> bool) l :
  Permutation (filter (fun a => negb (p a)) l ++ filter p l) l.
Proof.
  induction l as [|x l IH]; simpl; [constructor|].
  destruct (p x); simpl.
  - rewrite <- Permutation_middle. now constructor.
  - now constructor.
Qed.

(** X5: under each task the dashboard shows exactly the subtasks of that
    task: first the open ones, then the completed ones, each group in
    ascending order of the order key. *)
Theorem sorted_subtasks_layout (task : Task.t) (db : Db) :
  Permutation (sorted_subtasks task db) (task_subtasks task db)
  /\ exists opened completed,
       sorted_subtasks task db = opened ++ completed
       /\ Forall (fun s => Subtask.is_completed s = false) opened
       /\ Forall (fun s => Subtask.is_completed s = true) completed
       /\ StronglySorted ascending opened
       /\ StronglySorted ascending completed.
Proof.
  unfold sorted_subtasks, order_by. cbv zeta. split.
  - rewrite !sorted_perm. unfold task_subtasks.
    etransitivity; [|apply (perm_filter_split Subtask.is_completed)].
    apply Permutation_app; apply Permutation_refl'.
    + induction (subtasks db) as [|x l IH]; simpl; [reflexivity|].
      destruct (Subtask.task_id x =? Task.id task),
        (Subtask.is_completed x); simpl; now rewrite IH.
    + induction (subtasks db) as [|x l IH]; simpl; [reflexivity|].
      destruct (Subtask.task_id x =? Task.id task),
        (Subtask.is_completed x); simpl; now rewrite IH.
  - eexists. eexists. split; [reflexivity|].
    split; [|split; [|split]].
    + apply Forall_sorted. apply Forall_forall. intros s Hs.
      apply filter_In in Hs. destruct Hs as [_ Hs].
      apply andb_true_iff in Hs. destruct Hs as [_ Hs].
      now apply eqb_prop in Hs.
    + apply Forall_sorted. apply Forall_forall. intros s Hs.
      apply filter_In in Hs. destruct Hs as [_ Hs].
      apply andb_true_iff in Hs. destruct Hs as [_ Hs].
      now apply eqb_prop in Hs.
    + apply (sorted_sorted asc_leb Subtask.order_index asc_leb_total
               asc_leb_trans).
    + apply (sorted_sorted asc_leb Subtask.order_index asc_leb_total
               asc_leb_trans).
Qed.

(** ** New entities on the dashboard *)

Lemma task_key_in_scope u db t k :
  In t (task_scope u db) -> Task.order_index t = Some k ->
  In k (task_keys u db).
Proof.
  intros Ht Hk. unfold task_keys. apply in_present_keys.
  rewrite <- Hk. now apply in_map.
Qed.

Lemma subtask_key_in_scope tid db s k :
  In s (subtask_scope tid db) -> Subtask.order_index s = Some k ->
  In k (subtask_keys tid db).
Proof.
  intros Hs Hk. unfold subtask_keys. apply in_present_keys.
  rewrite <- Hk. now apply in_map.
Qed.

Lemma dashboard_unfiltered `{Runtime} u db :
  view_tasks (dashboard u None db) = sort_tasks (task_scope u db).
Proof. reflexivity. Qed.

(** X6: when every open task of the user carries an order key, the task
    that [add_task] creates from a description and an estimated time that
    reads as a positive integer of the INTEGER column shows up on the
    unfiltered dashboard right after the open tasks that were there, in
    front of the completed ones, and nothing else moves. *)
Theorem new_task_shown_last `{Runtime} (u : Z) (form : TaskForm.t)
    (db : Db) :
  valid_task_form form ->
  (forall t, In t (task_scope u db) -> Task.is_completed t = false ->
     Task.order_index t <> None) ->
  exists new db' in_progress completed,
    add_task u form db = (db', Redirect None)
    /\ tasks db' = tasks db ++ [new]
    /\ view_tasks (dashboard u None db) = in_progress ++ completed
    /\ view_tasks (dashboard u None db') = in_progress ++ [new] ++ completed
    /\ Forall (fun t => Task.is_completed t = false) in_progress
    /\ Forall (fun t => Task.is_completed t = true) completed.
Proof.
  intros Hv Hkeys.
  destruct (add_task_result u form db Hv)
    as (new & k & Hr & Hu & Hflag & Hk & Ha).
  exists new. eexists.
  exists (sort_tasks (filter incomplete (task_scope u db))),
    (sort_tasks (filter Task.is_completed (task_scope u db))).
  split; [exact Hr|]. split; [reflexivity|]. split; [|split; [|split]].
  - apply sort_tasks_cohorts.
  - rewrite dashboard_unfiltered. unfold task_scope.
    cbn [with_tasks tasks].
    rewrite filter_app. cbn [filter]. rewrite Hu, Z.eqb_refl.
    rewrite sort_tasks_cohorts, !filter_app. cbn [filter].
    unfold incomplete at 2. rewrite Hflag. cbn [negb].
    rewrite app_nil_r, app_assoc. f_equal.
    apply (sorted_snoc key_leb task_sort_key). intros y Hy.
    apply filter_In in Hy. destruct Hy as [Hy Hopen].
    unfold incomplete in Hopen. apply negb_true_iff in Hopen.
    apply key_leb_le. left.
    destruct (Task.order_index y) as [ky|] eqn:Ky;
      [|now elim (Hkeys y Hy Hopen)].
    pose proof (append_new_above _ _ _ Ha (task_key_in_scope u db y ky Hy Ky))
      as Hlt.
    unfold lex_lt, task_sort_key. rewrite Hopen, Hflag, Ky, Hk. lia.
  - apply Forall_sorted.
    eapply Forall_impl; [|apply (Forall_filter_true incomplete)].
    intros t. unfold incomplete. now destruct (Task.is_completed t).
  - apply Forall_sorted. apply Forall_filter_true.
Qed.

Lemma new_task_shown_last_witness :
  @valid_task_form AsciiRuntime.runtime sample_form
  /\ (forall t, In t (task_scope 1 sample_db) ->
        Task.is_completed t = false -> Task.order_index t <> None)
  /\ map Task.description
       (view_tasks
          (@dashboard AsciiRuntime.runtime 1 None
             (fst (@add_task AsciiRuntime.runtime 1 sample_form sample_db))))
     = ["Morning workout"; "Team meeting"; "Read documentation";
        "Call the bank"; "Work on Project X"].
Proof.
  assert (@valid_task_form AsciiRuntime.runtime sample_form) as Hv.
  { split; [reflexivity|]. split; [reflexivity|].
    exists 15. split; [reflexivity|lia]. }
  assert (forall t, In t (task_scope 1 sample_db) ->
            Task.is_completed t = false -> Task.order_index t <> None)
    as Hk.
  { intros t Ht _. simpl in Ht.
    destruct Ht as [<-|[<-|[<-|[<-|[]]]]]; discriminate. }
  split; [exact Hv|]. split; [exact Hk|].
  destruct (@new_task_shown_last AsciiRuntime.runtime 1 sample_form
              sample_db Hv Hk)
    as (new & db' & o & c & Hr & _ & _ & Hview & _).
  reflexivity.
Defined.

(** X7: a subtask created by [add_subtask] shows up under its task right
    after the open subtasks that were there, in front of the completed
    ones, and nothing else moves. *)
Theorem new_subtask_shown_last `{Runtime} (u tid : Z)
    (desc : option string) (db : Db) (task : Task.t) :
  first (task_query u tid db) = Some task ->
  truthy desc = true ->
  exists new db' opened completed,
    add_subtask u tid desc db = (db', Redirect None)
    /\ subtasks db' = subtasks db ++ [new]
    /\ sorted_subtasks task db = opened ++ completed
    /\ sorted_subtasks task db' = opened ++ [new] ++ completed
    /\ Forall (fun s => Subtask.is_completed s = false) opened
    /\ Forall (fun s => Subtask.is_completed s = true) completed.
Proof.
  intros E Hd.
  destruct (add_subtask_result u tid desc db task E Hd)
    as (new & k & Hr & Htid & Hflag & Hk & Ha).
  apply first_filter_some in E. destruct E as [_ E].
  apply andb_true_iff in E. destruct E as [E _]. apply Z.eqb_eq in E.
  exists new. eexists. eexists. eexists.
  split; [exact Hr|]. split; [reflexivity|].
  split; [reflexivity|]. split; [|split].
  - unfold sorted_subtasks, order_by. cbn [subtasks].
    rewrite !filter_app. cbn [filter].
    rewrite Htid, E, Z.eqb_refl, Hflag. cbn [Bool.eqb andb].
    rewrite app_nil_r, app_assoc. f_equal.
    apply (sorted_snoc asc_leb Subtask.order_index). intros y Hy.
    apply filter_In in Hy. destruct Hy as [Hy Hp].
    apply andb_true_iff in Hp. destruct Hp as [Hp _].
    rewrite Hk. destruct (Subtask.order_index y) as [ky|] eqn:Ky;
      [|reflexivity].
    simpl. apply Z.leb_le.
    assert (In y (subtask_scope tid db)) as Hs.
    { apply filter_In. split; [exact Hy|exact Hp]. }
    pose proof (append_new_above _ _ _ Ha
                  (subtask_key_in_scope tid db y ky Hs Ky)). lia.
  - apply Forall_sorted. apply Forall_forall. intros s Hs.
    apply filter_In in Hs. destruct Hs as [_ Hs].
    apply andb_true_iff in Hs. destruct Hs as [_ Hs].
    now apply eqb_prop in Hs.
  - apply Forall_sorted. apply Forall_forall. intros s Hs.
    apply filter_In in Hs. destruct Hs as [_ Hs].
    apply andb_true_iff in Hs. destruct Hs as [_ Hs].
    now apply eqb_prop in Hs.
Qed.

Lemma new_subtask_shown_last_witness :
  first (task_query 1 2 sample_db)
  = Some (Task.mk 2 "Team meeting" 60 false (Some "high") (Some "morning")
            (Some 2) 1 (Some 2) 0)
  /\ truthy (Some "Book a room") = true
  /\ map Subtask.description
       (sorted_subtasks
          (Task.mk 2 "Team meeting" 60 false (Some "high") (Some "morning")
             (Some 2) 1 (Some 2) 0)
          (fst (@add_subtask AsciiRuntime.runtime 1 2 (Some "Book a room")
                  sample_db)))
     = ["Prepare meeting agenda"; "Book a room"; "Send meeting invites"].
Proof.
  split; [reflexivity|]. split; [reflexivity|].
  destruct (@new_subtask_shown_last AsciiRuntime.runtime 1 2
              (Some "Book a room") sample_db _ eq_refl eq_refl)
    as (new & db' & o & c & Hr & _).
  reflexivity.
Defined.

(** ** The handlers in closed form *)

Lemma map_update_row {R B : Type} (pk : R -> Z) (proj : R -> B) i f rows :
  (forall r, proj (f r) = proj r) ->
  map proj (update_row pk i f rows) = map proj rows.
Proof.
  intros Hf. unfold update_row. rewrite map_map. apply map_ext.
  intros r. now destruct (pk r =? i).
Qed.

Lemma map_swap_rows {R B : Type} (pk : R -> Z) (col : R -> option Z)
    (set : option Z -> R -> R) (proj : R -> B) a b rows :
  (forall k r, proj (set k r) = proj r) ->
  map proj (swap_rows pk col set a b rows) = map proj rows.
Proof.
  intros Hf. unfold swap_rows. now rewrite !map_update_row.
Qed.

Lemma subtasks_fold {X : Type} (F : X -> list Subtask.t -> list Subtask.t)
    xs db :
  fold_left (fun db x => with_subtasks (F x (subtasks db)) db) xs db
  = with_subtasks (fold_left (fun rows x => F x rows) xs (subtasks db)) db.
Proof.
  revert db. induction xs as [|x xs IH]; intros db; simpl.
  - now destruct db.
  - now rewrite IH.
Qed.

Lemma tasks_fold {X : Type} (F : X -> list Task.t -> list Task.t) xs db :
  fold_left (fun db x => with_tasks (F x (tasks db)) db) xs db
  = with_tasks (fold_left (fun rows x => F x rows) xs (tasks db)) db.
Proof.
  revert db. induction xs as [|x xs IH]; intros db; simpl.
  - now destruct db.
  - now rewrite IH.
Qed.

Lemma delete_loop {R : Type} (pk : R -> Z) (xs rows : list R) :
  fold_left (fun rows x => delete_row pk (pk x) rows) xs rows
  = filter (fun r => negb (existsb (fun x => pk x =? pk r) xs)) rows.
Proof.
  revert rows. induction xs as [|x xs IH]; intros rows; simpl.
  - symmetry. apply forallb_filter_id. now apply forallb_forall.
  - rewrite IH. unfold delete_row.
    induction rows as [|r rows IHr]; simpl; [reflexivity|].
    rewrite (Z.eqb_sym (pk x) (pk r)).
    destruct (pk r =? pk x); simpl; [exact IHr|].
    destruct (existsb _ xs); simpl; now rewrite IHr.
Qed.

Lemma toggle_task_eq u tid db :
  NoDup (map Subtask.id (subtasks db)) ->
  toggle_task u tid db
  = match first (task_query u tid db) with
    | None => (db, NotFound)
    | Some task =>
      (mkDb
         (update_row Task.id (Task.id task)
            (Task.with_is_completed (negb (Task.is_completed task)))
            (tasks db))
         (if Task.is_completed task then subtasks db
          else
            map (fun s =>
                   if Subtask.task_id s =? Task.id task
                   then Subtask.with_is_completed true s else s)
              (subtasks db))
         (categories db),
       Redirect None)
    end.
Proof.
  intros Hnd. unfold toggle_task.
  destruct (first (task_query u tid db)) as [task|]; [|reflexivity].
  f_equal. cbn [Task.is_completed Task.with_is_completed].
  destruct (Task.is_completed task); cbn [negb andb]; [reflexivity|].
  destruct (has_subtasks _ _) eqn:Hs.
  - rewrite subtask_loop, update_loop by reflexivity.
    unfold with_subtasks, with_tasks. cbn [tasks subtasks categories].
    f_equal. apply map_ext_in. intros s Hin.
    unfold task_subtasks. cbn [subtasks Task.id Task.with_is_completed].
    now rewrite (existsb_pk_filter Subtask.id _ _ s Hnd Hin).
  - apply has_subtasks_false in Hs. unfold with_tasks.
    f_equal. rewrite <- (map_id (subtasks db)) at 1.
    apply map_ext_in. intros s Hin.
    destruct (Subtask.task_id s =? Task.id task) eqn:E; [|reflexivity].
    assert (In s (task_subtasks
                    (Task.with_is_completed true task)
                    (mkDb
                       (update_row Task.id (Task.id task)
                          (Task.with_is_completed true) (tasks db))
                       (subtasks db) (categories db)))) as G.
    { apply filter_In. split; [exact Hin|exact E]. }
    unfold with_tasks in Hs. rewrite Hs in G. contradiction.
Qed.

Lemma reset_all_tasks_eq u db :
  primary_keys db ->
  reset_all_tasks u db
  = (mkDb
       (map (fun t =>
               if Task.user_id t =? u
               then Task.with_is_completed false t else t) (tasks db))
       (map (fun s =>
               if subtask_of_user u db s
               then Subtask.with_is_completed false s else s) (subtasks db))
       (categories db),
     Redirect None).
Proof.
  intros [Ht Hs]. unfold reset_all_tasks. rewrite (reset_loop _ db Hs).
  f_equal. f_equal.
  - apply map_ext_in. intros r Hr.
    now rewrite (existsb_pk_filter Task.id _ _ r Ht Hr).
  - apply map_ext. intros s. unfold subtask_of_user.
    now rewrite existsb_filter.
Qed.

Lemma delete_task_eq u tid db :
  NoDup (map Subtask.id (subtasks db)) ->
  delete_task u tid db
  = match first (task_query u tid db) with
    | None => (db, NotFound)
    | Some task =>
      (mkDb (delete_row Task.id (Task.id task) (tasks db))
         (filter (fun s => negb (Subtask.task_id s =? Task.id task))
            (subtasks db))
         (categories db),
       Redirect None)
    end.
Proof.
  intros Hnd. unfold delete_task.
  destruct (first (task_query u tid db)) as [task|]; [|reflexivity].
  rewrite (subtasks_fold
             (fun x rows => delete_row Subtask.id (Subtask.id x) rows)).
  rewrite delete_loop. unfold with_tasks, with_subtasks.
  cbn [tasks subtasks categories]. f_equal. f_equal.
  apply filter_ext_in. intros s Hin. unfold task_subtasks.
  now rewrite (existsb_pk_filter Subtask.id _ _ s Hnd Hin).
Qed.

Lemma delete_category_eq u cid db :
  NoDup (map Task.id (tasks db)) ->
  delete_category u cid db
  = match first (category_query u cid db) with
    | None => (db, NotFound)
    | Some category =>
      (mkDb
         (map (fun t =>
                 if in_category cid t then task_with_category_id None t
                 else t) (tasks db))
         (subtasks db)
         (delete_row Category.id (Category.id category) (categories db)),
       Redirect None)
    end.
Proof.
  intros Hnd. unfold delete_category.
  destruct (first (category_query u cid db)) as [k|]; [|reflexivity].
  rewrite (tasks_fold
             (fun x rows =>
                update_row Task.id (Task.id x) (task_with_category_id None)
                  rows)).
  rewrite update_loop by reflexivity.
  unfold with_tasks, with_categories. cbn [tasks subtasks categories].
  f_equal. f_equal. apply map_ext_in. intros t Hin.
  now rewrite (existsb_pk_filter Task.id _ _ t Hnd Hin).
Qed.

(** ** Primary keys *)

Lemma next_id_fresh {R : Type} (pk : R -> Z) rows r :
  In r rows -> pk r < next_id pk rows.
Proof.
  intros Hr. unfold next_id.
  pose proof (sql_max_fold (map (fun r => Some (pk r)) rows) None) as Hm.
  fold (sql_max (map (fun r => Some (pk r)) rows)) in Hm.
  assert (In (Some (pk r)) (map (fun r => Some (pk r)) rows)) as Hin
    by (apply in_map_iff; eauto).
  destruct (sql_max _) as [m|].
  - destruct Hm as [_ Hmax]. specialize (Hmax (pk r) (or_intror Hin)). lia.
  - destruct Hm as [_ Hn]. now elim (Hn (pk r)).
Qed.

Lemma NoDup_append_fresh {R : Type} (pk : R -> Z) rows new :
  NoDup (map pk rows) -> pk new = next_id pk rows ->
  NoDup (map pk (rows ++ [new])).
Proof.
  intros Hnd Hnew. rewrite map_app. simpl.
  apply NoDup_app; [exact Hnd|repeat constructor; auto|].
  intros i Hi [<-|[]]. apply in_map_iff in Hi.
  destruct Hi as (r & E & Hr). pose proof (next_id_fresh pk rows r Hr). lia.
Qed.

Lemma NoDup_map_filter {R B : Type} (proj : R -> B) (p : R -> bool) rows :
  NoDup (map proj rows) -> NoDup (map proj (filter p rows)).
Proof.
  induction rows as [|r rows IH]; simpl; [auto|].
  intros Hnd. inversion Hnd as [|? ? Hr Hnd']; subst.
  destruct (p r); simpl; [|auto]. constructor; [|auto].
  intros Hin. apply Hr. apply in_map_iff in Hin.
  destruct Hin as (x & E & Hx). apply filter_In in Hx.
  apply in_map_iff. exists x. tauto.
Qed.

Lemma map_map_if {R B : Type} (proj : R -> B) (c : R -> bool) (f : R -> R)
    rows :
  (forall r, proj (f r) = proj r) ->
  map proj (map (fun r => if c r then f r else r) rows) = map proj rows.
Proof.
  intros Hf. rewrite map_map. apply map_ext. intros r. now destruct (c r).
Qed.

Lemma keys_ok_same_ids db db' :
  map Task.id (tasks db') = map Task.id (tasks db) ->
  map Subtask.id (subtasks db') = map Subtask.id (subtasks db) ->
  map Category.id (categories db') = map Category.id (categories db) ->
  keys_ok db -> keys_ok db'.
Proof.
  unfold keys_ok, primary_keys. intros -> -> ->. auto.
Qed.

Ltac same_view :=
  cbn [fst tasks subtasks categories with_tasks with_subtasks
         with_categories];
  rewrite ?map_update_row, ?map_swap_rows, ?map_map_if by reflexivity;
  try reflexivity.

Section KeysOk.
Context `{Runtime}.

Lemma add_task_keys_ok u form db :
  keys_ok db -> keys_ok (fst (add_task u form db)).
Proof.
  intros Hk. unfold add_task.
  destruct (invalid_task_fields _ _) as [[|]|]; try exact Hk.
  destruct (py_int _) as [minutes|]; [|exact Hk].
  destruct (sqlite_int minutes); [|exact Hk].
  destruct Hk as [[Ht Hs] Hc]. repeat split; auto.
  now apply NoDup_append_fresh.
Qed.

Lemma add_subtask_keys_ok u tid d db :
  keys_ok db -> keys_ok (fst (add_subtask u tid d db)).
Proof.
  intros Hk. unfold add_subtask.
  destruct (first (task_query u tid db)); [|exact Hk].
  destruct (negb (truthy d)); [exact Hk|].
  destruct Hk as [[Ht Hs] Hc].
  destruct (Task.is_completed t); repeat split; same_view; auto;
    now apply NoDup_append_fresh.
Qed.

Lemma handle_keys_ok u r db :
  keys_ok db -> keys_ok (fst (handle u r db)).
Proof.
  intros Hk. pose proof Hk as [[Ht Hs] Hc].
  destruct r; cbn [handle].
  - now apply add_task_keys_ok.
  - rewrite (toggle_task_eq _ _ _ Hs).
    destruct (first (task_query u task_id db)); [|exact Hk].
    apply (keys_ok_same_ids db); auto; same_view.
    destruct (Task.is_completed t); same_view.
  - now apply add_subtask_keys_ok.
  - unfold toggle_subtask.
    destruct (first (subtask_query u subtask_id db)); [|exact Hk].
    destruct (parent_task _ _); [|exact Hk].
    apply (keys_ok_same_ids db); auto; same_view.
  - unfold edit_subtask.
    destruct (first (subtask_query u subtask_id db)); [|exact Hk].
    destruct (negb (truthy description)); [exact Hk|].
    apply (keys_ok_same_ids db); auto; same_view.
  - rewrite move_subtask_up_eq.
    destruct (first (subtask_query u subtask_id db)); [|exact Hk].
    apply (keys_ok_same_ids db); auto; same_view.
    destruct (neighbour _ _ _ _ _ _ _); same_view.
  - rewrite move_subtask_down_eq.
    destruct (first (subtask_query u subtask_id db)); [|exact Hk].
    apply (keys_ok_same_ids db); auto; same_view.
    destruct (neighbour _ _ _ _ _ _ _); same_view.
  - unfold delete_subtask.
    destruct (first (subtask_query u subtask_id db)); [|exact Hk].
    assert (keys_ok
              (with_subtasks
                 (delete_row Subtask.id (Subtask.id t) (subtasks db)) db))
      as Hk1.
    { repeat split; auto. now apply NoDup_map_filter. }
    destruct (parent_task t db); [|exact Hk1].
    destruct (_ && _); [|exact Hk1].
    revert Hk1. apply keys_ok_same_ids; same_view.
  - unfold edit_task.
    destruct (first (task_query u task_id db)); [|exact Hk].
    destruct (invalid_task_fields _ _) as [[|]|]; try exact Hk.
    destruct (py_int _) as [minutes|]; [|exact Hk].
    destruct (sqlite_int minutes); [|exact Hk].
    apply (keys_ok_same_ids db); auto; same_view.
  - rewrite (delete_task_eq _ _ _ Hs).
    destruct (first (task_query u task_id db)); [|exact Hk].
    repeat split; auto; now apply NoDup_map_filter.
  - rewrite (reset_all_tasks_eq _ _ (conj Ht Hs)).
    apply (keys_ok_same_ids db); auto; same_view.
  - unfold add_category. destruct (negb (truthy name)); [exact Hk|].
    destruct (first (category_named _ _ _)); [exact Hk|].
    repeat split; auto. now apply NoDup_append_fresh.
  - rewrite (delete_category_eq _ _ _ Ht).
    destruct (first (category_query u category_id db)); [|exact Hk].
    repeat split; same_view; auto. now apply NoDup_map_filter.
  - rewrite move_task_up_eq.
    destruct (first (task_query u task_id db)); [|exact Hk].
    apply (keys_ok_same_ids db); auto; same_view.
    destruct (neighbour _ _ _ _ _ _ _); same_view.
  - rewrite move_task_down_eq.
    destruct (first (task_query u task_id db)); [|exact Hk].
    apply (keys_ok_same_ids db); auto; same_view.
    destruct (neighbour _ _ _ _ _ _ _); same_view.
Qed.
End KeysOk.

(** ** Completion stays consistent *)

Lemma consistent_In db :
  consistent db <->
  forall t s, In t (tasks db) -> In s (subtasks db) ->
    Subtask.task_id s = Task.id t -> Task.is_completed t = true ->
    Subtask.is_completed s = true.
Proof.
  unfold consistent, task_subtasks. split.
  - intros Hc t s Ht Hs E Hflag. specialize (Hc t Ht Hflag).
    rewrite forallb_forall in Hc. apply Hc. apply filter_In.
    split; [exact Hs|]. now apply Z.eqb_eq.
  - intros Hc t Ht Hflag. apply forallb_forall. intros s Hs.
    apply filter_In in Hs. destruct Hs as [Hs E]. apply Z.eqb_eq in E.
    now apply (Hc t s).
Qed.

Lemma consistent_same_flags db db' :
  task_flags db' = task_flags db ->
  subtask_flags db' = subtask_flags db ->
  consistent db -> consistent db'.
Proof.
  unfold task_flags, subtask_flags. rewrite !consistent_In.
  intros Et Es Hc t' s' Ht' Hs' E Hflag.
  assert (In (Task.id t', Task.is_completed t')
            (map (fun t => (Task.id t, Task.is_completed t)) (tasks db)))
    as Gt
    by (rewrite <- Et;
        now apply (in_map (fun t => (Task.id t, Task.is_completed t)))).
  assert (In (Subtask.task_id s', Subtask.is_completed s')
            (map (fun s => (Subtask.task_id s, Subtask.is_completed s))
               (subtasks db)))
    as Gs
    by (rewrite <- Es;
        now apply
              (in_map
                 (fun s => (Subtask.task_id s, Subtask.is_completed s)))).
  apply in_map_iff in Gt, Gs.
  destruct Gt as (t & Gt & Ht), Gs as (s & Gs & Hs).
  injection Gt as Gt1 Gt2. injection Gs as Gs1 Gs2.
  rewrite <- Gs2. apply (Hc t s Ht Hs); congruence.
Qed.

Lemma in_update_row {R : Type} (pk : R -> Z) i f rows r' :
  In r' (update_row pk i f rows) ->
  exists r, In r rows /\ r' = if pk r =? i then f r else r.
Proof.
  unfold update_row. rewrite in_map_iff. intros (r & <- & Hr). eauto.
Qed.

Lemma task_query_found u tid db task :
  first (task_query u tid db) = Some task ->
  In task (tasks db) /\ Task.id task = tid /\ Task.user_id task = u.
Proof.
  intros E. apply first_filter_some in E. destruct E as [Hin E].
  apply andb_true_iff in E. now rewrite !Z.eqb_eq in E.
Qed.

Section Consistent.
Context `{Runtime}.

Lemma add_task_consistent u form db :
  consistent db -> consistent (fst (add_task u form db)).
Proof.
  intros Hc. unfold add_task.
  destruct (invalid_task_fields _ _) as [[|]|]; try exact Hc.
  destruct (py_int _) as [minutes|]; [|exact Hc].
  destruct (sqlite_int minutes); [|exact Hc].
  rewrite consistent_In in *. cbn [fst with_tasks tasks subtasks].
  intros t s Ht Hs E Hflag. apply in_app_or in Ht.
  destruct Ht as [Ht|[<-|[]]]; [|discriminate]. now apply (Hc t s).
Qed.

Lemma toggle_task_consistent u tid db :
  keys_ok db -> consistent db -> consistent (fst (toggle_task u tid db)).
Proof.
  intros [[_ Hs] _] Hc. rewrite (toggle_task_eq _ _ _ Hs).
  destruct (first (task_query u tid db)) as [x|]; [|exact Hc].
  rewrite consistent_In in *. cbn [fst tasks subtasks].
  intros t' s' Ht' Hs' E Hflag. apply in_update_row in Ht'.
  destruct Ht' as (r & Hr & ->).
  destruct (Task.is_completed x) eqn:Fx.
  - destruct (Task.id r =? Task.id x); [discriminate|].
    now apply (Hc r s').
  - apply in_map_iff in Hs'. destruct Hs' as (s & <- & Hin).
    destruct (Z.eqb_spec (Subtask.task_id s) (Task.id x)) as [Es|Es];
      [reflexivity|].
    destruct (Z.eqb_spec (Task.id r) (Task.id x)) as [Er|Er].
    + simpl in E. congruence.
    + now apply (Hc r s).
Qed.

Lemma add_subtask_consistent u tid d db :
  keys_ok db -> consistent db -> consistent (fst (add_subtask u tid d db)).
Proof.
  intros [[Hnd _] _] Hc. unfold add_subtask.
  destruct (first (task_query u tid db)) as [x|] eqn:Ex; [|exact Hc].
  destruct (negb (truthy d)); [exact Hc|].
  apply task_query_found in Ex. destruct Ex as (Hx & Hid & _).
  rewrite consistent_In in *. intros t' s' Ht' Hs' E Hflag.
  assert (exists r, In r (tasks db) /\ Task.id r = Task.id t'
                    /\ Task.is_completed r = true
                    /\ (Task.id r = Task.id x -> False))
    as (r & Hr & Eid & Fr & Hne).
  { destruct (Task.is_completed x) eqn:Fx;
      cbn [fst with_tasks with_subtasks tasks subtasks] in Ht'.
    - apply in_update_row in Ht'. destruct Ht' as (r & Hr & ->).
      destruct (Z.eqb_spec (Task.id r) (Task.id x)); [discriminate|].
      exists r. auto.
    - exists t'. repeat split; auto. intros Eq.
      rewrite (pk_unique Task.id _ _ _ Hnd Ht' Hx Eq) in Hflag.
      congruence. }
  assert (In s' (subtasks db ++
                   [Subtask.mk (next_id Subtask.id (subtasks db)) (str d)
                      false
                      (Some
                         (or_zero
                            (sql_max
                               (map Subtask.order_index
                                  (filter
                                     (fun s => Subtask.task_id s =? tid)
                                     (subtasks db)))) + 1)) tid
                      created_at_default])) as Hs''.
  { now destruct (Task.is_completed x). }
  apply in_app_or in Hs''. destruct Hs'' as [Hs''|[<-|[]]].
  - apply (Hc r s'); auto. congruence.
  - simpl in E. elim Hne. congruence.
Qed.

Lemma toggle_subtask_consistent u sid db :
  keys_ok db -> consistent db ->
  consistent (fst (toggle_subtask u sid db)).
Proof.
  intros [[_ Hnd] _] Hc. unfold toggle_subtask.
  destruct (first (subtask_query u sid db)) as [s0|] eqn:E0; [|exact Hc].
  destruct (subtask_query_parent _ _ _ _ E0)
    as (Hs0 & _ & p & Hp & _ & Hpid).
  set (db1 := with_subtasks _ db).
  change (parent_task s0 db1) with (parent_task s0 db). rewrite Hp.
  unfold subtask_count, completed_subtask_count.
  rewrite length_filter_all.
  set (flag := forallb Subtask.is_completed (task_subtasks p db1)).
  assert ((if flag then true else false) = flag) as -> by now destruct flag.
  rewrite consistent_In in *. cbn [fst with_tasks tasks subtasks].
  intros t' s' Ht' Hs' E Hflag. apply in_update_row in Ht'.
  destruct Ht' as (r & Hr & ->).
  destruct (Z.eqb_spec (Task.id r) (Task.id p)) as [Er|Er].
  - simpl in Hflag, E. unfold flag in Hflag.
    rewrite forallb_forall in Hflag. apply Hflag. apply filter_In.
    split; [exact Hs'|]. apply Z.eqb_eq. congruence.
  - unfold db1 in Hs'. cbn [with_subtasks subtasks] in Hs'.
    apply in_update_row in Hs'. destruct Hs' as (s & Hs & ->).
    destruct (Z.eqb_spec (Subtask.id s) (Subtask.id s0)) as [Es|Es].
    + rewrite (pk_unique Subtask.id _ _ _ Hnd Hs Hs0 Es) in E.
      simpl in E. elim Er. congruence.
    + now apply (Hc r s).
Qed.

Lemma delete_subtask_consistent u sid db :
  consistent db -> consistent (fst (delete_subtask u sid db)).
Proof.
  intros Hc. unfold delete_subtask.
  destruct (first (subtask_query u sid db)) as [s0|]; [|exact Hc].
  set (db1 := with_subtasks _ db).
  assert (consistent db1) as Hc1.
  { rewrite consistent_In in *. intros t s Ht Hs.
    unfold db1 in Hs. cbn [with_subtasks subtasks] in Hs.
    apply filter_In in Hs. now apply Hc. }
  destruct (parent_task s0 db) as [p|]; [|exact Hc1].
  unfold subtask_count, completed_subtask_count.
  rewrite length_filter_all.
  destruct (_ && _) eqn:Hall; [|exact Hc1].
  apply andb_true_iff in Hall. destruct Hall as [_ Hall].
  rewrite consistent_In in *. cbn [fst with_tasks tasks subtasks].
  intros t' s' Ht' Hs' E Hflag. apply in_update_row in Ht'.
  destruct Ht' as (r & Hr & ->).
  destruct (Z.eqb_spec (Task.id r) (Task.id p)) as [Er|Er].
  - rewrite forallb_forall in Hall. apply Hall. apply filter_In.
    split; [exact Hs'|]. apply Z.eqb_eq. simpl in E. congruence.
  - now apply (Hc1 r s').
Qed.

Lemma reset_all_tasks_consistent u db :
  keys_ok db -> consistent db -> consistent (fst (reset_all_tasks u db)).
Proof.
  intros [[Ht Hs] _] Hc. rewrite (reset_all_tasks_eq _ _ (conj Ht Hs)).
  rewrite consistent_In in *. cbn [fst tasks subtasks].
  intros t' s' Ht' Hs' E Hflag.
  apply in_map_iff in Ht'. destruct Ht' as (r & <- & Hr).
  apply in_map_iff in Hs'. destruct Hs' as (s & <- & Hin).
  destruct (Z.eqb_spec (Task.user_id r) u) as [Eu|Eu]; [discriminate|].
  destruct (subtask_of_user u db s) eqn:Ho.
  - exfalso. apply existsb_exists in Ho. destruct Ho as (t0 & Ht0 & Ho).
    apply andb_true_iff in Ho. rewrite !Z.eqb_eq in Ho.
    destruct Ho as [Ho1 Ho2]. simpl in E.
    assert (Task.id t0 = Task.id r) as Eid by congruence.
    rewrite (pk_unique Task.id _ _ _ Ht Ht0 Hr Eid) in Ho2. contradiction.
  - now apply (Hc r s).
Qed.

Lemma delete_task_consistent u tid db :
  keys_ok db -> consistent db -> consistent (fst (delete_task u tid db)).
Proof.
  intros [[_ Hs] _] Hc. rewrite (delete_task_eq _ _ _ Hs).
  destruct (first (task_query u tid db)); [|exact Hc].
  rewrite consistent_In in *. cbn [fst tasks subtasks].
  intros t' s' Ht' Hs'. apply filter_In in Ht', Hs'. now apply Hc.
Qed.

Ltac same_flags Hc :=
  revert Hc; apply consistent_same_flags;
  unfold task_flags, subtask_flags; same_view.

Lemma handle_consistent u r db :
  keys_ok db -> consistent db -> consistent (fst (handle u r db)).
Proof.
  intros Hk Hc. pose proof Hk as [[Ht Hs] _].
  destruct r; cbn [handle].
  - now apply add_task_consistent.
  - now apply toggle_task_consistent.
  - now apply add_subtask_consistent.
  - now apply toggle_subtask_consistent.
  - unfold edit_subtask.
    destruct (first (subtask_query u subtask_id db)); [|exact Hc].
    destruct (negb (truthy description)); [exact Hc|]. same_flags Hc.
  - rewrite move_subtask_up_eq.
    destruct (first (subtask_query u subtask_id db)); [|exact Hc].
    same_flags Hc. destruct (neighbour _ _ _ _ _ _ _); same_view.
  - rewrite move_subtask_down_eq.
    destruct (first (subtask_query u subtask_id db)); [|exact Hc].
    same_flags Hc. destruct (neighbour _ _ _ _ _ _ _); same_view.
  - now apply delete_subtask_consistent.
  - unfold edit_task.
    destruct (first (task_query u task_id db)); [|exact Hc].
    destruct (invalid_task_fields _ _) as [[|]|]; try exact Hc.
    destruct (py_int _) as [minutes|]; [|exact Hc].
    destruct (sqlite_int minutes); [|exact Hc]. same_flags Hc.
  - now apply delete_task_consistent.
  - now apply reset_all_tasks_consistent.
  - unfold add_category. destruct (negb (truthy name)); [exact Hc|].
    destruct (first (category_named _ _ _)); [exact Hc|]. same_flags Hc.
  - rewrite (delete_category_eq _ _ _ Ht).
    destruct (first (category_query u category_id db)); [|exact Hc].
    same_flags Hc.
  - rewrite move_task_up_eq.
    destruct (first (task_query u task_id db)); [|exact Hc].
    same_flags Hc. destruct (neighbour _ _ _ _ _ _ _); same_view.
  - rewrite move_task_down_eq.
    destruct (first (task_query u task_id db)); [|exact Hc].
    same_flags Hc. destruct (neighbour _ _ _ _ _ _ _); same_view.
Qed.
End Consistent.

(** ** Order keys stay distinct *)

Lemma filter_comm {A : Type} (p q : A -> bool) l :
  filter p (filter q l) = filter q (filter p l).
Proof.
  induction l as [|x l IH]; simpl; [reflexivity|].
  destruct (p x) eqn:Px, (q x) eqn:Qx; simpl; rewrite ?Px, ?Qx, IH;
    reflexivity.
Qed.

Lemma task_scope_orders u db :
  map Task.order_index (task_scope u db)
  = map snd (filter (fun p => fst p =? u) (task_orders db)).
Proof.
  unfold task_scope, task_orders.
  induction (tasks db) as [|t l IH]; simpl; [reflexivity|].
  destruct (Task.user_id t =? u); simpl; now rewrite IH.
Qed.

Lemma subtask_scope_orders t db :
  map Subtask.order_index (subtask_scope t db)
  = map snd (filter (fun p => fst p =? t) (subtask_orders db)).
Proof.
  unfold subtask_scope, subtask_orders.
  induction (subtasks db) as [|s l IH]; simpl; [reflexivity|].
  destruct (Subtask.task_id s =? t); simpl; now rewrite IH.
Qed.

Lemma distinct_same_orders db db' :
  task_orders db' = task_orders db ->
  subtask_orders db' = subtask_orders db ->
  distinct_order_keys db -> distinct_order_keys db'.
Proof.
  intros Et Es [Ht Hs]. split.
  - intros u. rewrite task_scope_orders, Et, <- task_scope_orders. apply Ht.
  - intros t. rewrite subtask_scope_orders, Es, <- subtask_scope_orders.
    apply Hs.
Qed.

Lemma NoDup_snoc {A : Type} (l : list A) x :
  NoDup l -> ~ In x l -> NoDup (l ++ [x]).
Proof.
  intros Hl Hx. apply NoDup_app; [exact Hl|repeat constructor; auto|].
  intros y Hy [<-|[]]. contradiction.
Qed.

Lemma append_new_fresh col k :
  append_new (present_keys col) k -> ~ In (Some k) col.
Proof.
  intros Ha Hin. apply in_present_keys in Hin.
  pose proof (append_new_above _ _ _ Ha Hin). lia.
Qed.

Section DistinctKeys.
Context `{Runtime}.

Lemma add_task_distinct u form db :
  distinct_order_keys db -> distinct_order_keys (fst (add_task u form db)).
Proof.
  intros Hd. unfold add_task.
  destruct (invalid_task_fields _ _) as [[|]|]; try exact Hd.
  destruct (py_int _) as [minutes|]; [|exact Hd].
  destruct (sqlite_int minutes); [|exact Hd].
  destruct Hd as [Ht Hs]. split; [|exact Hs].
  intros u'. unfold task_scope. cbn [fst with_tasks tasks].
  rewrite filter_app, map_app. cbn [filter Task.user_id].
  destruct (Z.eqb_spec u u') as [<-|Hu]; [|rewrite app_nil_r; apply Ht].
  apply NoDup_snoc; [apply Ht|]. apply append_new_fresh.
  apply next_key_append_new.
Qed.

Lemma add_subtask_distinct u tid d db :
  distinct_order_keys db ->
  distinct_order_keys (fst (add_subtask u tid d db)).
Proof.
  intros Hd.
  destruct (first (task_query u tid db)) as [x|] eqn:Ex;
    [|unfold add_subtask; now rewrite Ex].
  destruct (truthy d) eqn:Ed; [|unfold add_subtask; now rewrite Ex, Ed].
  destruct (add_subtask_result u tid d db x Ex Ed)
    as (new & k & -> & Htid & _ & Hk & Ha).
  destruct Hd as [Ht Hs]. cbn [fst]. split.
  - intros u'. rewrite task_scope_orders. unfold task_orders.
    destruct (Task.is_completed x); same_view;
      fold (task_orders db); rewrite <- task_scope_orders; apply Ht.
  - intros t. unfold subtask_scope. cbn [subtasks].
    rewrite filter_app, map_app. cbn [filter]. rewrite Htid.
    destruct (Z.eqb_spec tid t) as [<-|Hu]; [|rewrite app_nil_r; apply Hs].
    cbn [map]. rewrite Hk. apply NoDup_snoc; [apply Hs|].
    now apply append_new_fresh.
Qed.

Lemma reorder_step_distinct {R : Type} (col : R -> option Z)
    (set : option Z -> R -> R) (scope in_scope done : R -> bool) cmp x
    rows rows' :
  (forall k r, col (set k r) = k) ->
  (forall k r, in_scope (set k r) = in_scope r) ->
  (forall p, scope p = true -> in_scope p = in_scope x) ->
  reorder_step col set scope done cmp x rows rows' ->
  NoDup (map col (filter in_scope rows)) ->
  NoDup (map col (filter in_scope rows')).
Proof.
  intros Hcol Hset Hsame [[_ ->]|(p & _ & Hc & Hsw)] Hnd; [exact Hnd|].
  apply (Permutation_NoDup (l := map col (filter in_scope rows)));
    [|exact Hnd].
  symmetry. apply (keys_swapped_perm col set in_scope Hcol Hset x p);
    [|exact Hsw].
  symmetry. apply Hsame. unfold candidate in Hc.
  apply andb_true_iff in Hc. destruct Hc as [Hc _].
  apply andb_true_iff in Hc. tauto.
Qed.

Lemma move_task_distinct cmp leb u x db :
  (forall a b, leb a b = false -> leb b a = true) ->
  (forall a b c, leb a b = true -> leb b c = true -> leb a c = true) ->
  (forall a b, cmp a b = true -> a <> b) ->
  keys_ok db -> In x (tasks db) -> Task.user_id x = u ->
  distinct_order_keys db ->
  distinct_order_keys
    (with_tasks
       match
         neighbour Task.order_index (same_user u) Task.is_completed cmp leb
           x (tasks db)
       with
       | Some p =>
         swap_rows Task.id Task.order_index Task.with_order_index x p
           (tasks db)
       | None => tasks db
       end db).
Proof.
  intros Htot Htrans Hcmp [[Hnd _] _] Hx Hu [Ht Hs]. split; [|exact Hs].
  intros u'. unfold task_scope. cbn [with_tasks tasks].
  apply (reorder_step_distinct Task.order_index Task.with_order_index
           (same_user u) (fun t => Task.user_id t =? u') Task.is_completed
           cmp x (tasks db)); try reflexivity.
  - intros p Hp. unfold same_user in Hp. apply Z.eqb_eq in Hp.
    now rewrite Hp, Hu.
  - apply (move_step Task.id Task.order_index Task.with_order_index
             (same_user u) Task.is_completed (fun _ _ => eq_refl) cmp leb x
             (tasks db) Htot Htrans Hcmp Hnd Hx).
  - apply Ht.
Qed.

Lemma move_subtask_distinct cmp leb x db :
  (forall a b, leb a b = false -> leb b a = true) ->
  (forall a b c, leb a b = true -> leb b c = true -> leb a c = true) ->
  (forall a b, cmp a b = true -> a <> b) ->
  keys_ok db -> In x (subtasks db) ->
  distinct_order_keys db ->
  distinct_order_keys
    (with_subtasks
       match
         neighbour Subtask.order_index (same_parent x) Subtask.is_completed
           cmp leb x (subtasks db)
       with
       | Some p =>
         swap_rows Subtask.id Subtask.order_index Subtask.with_order_index
           x p (subtasks db)
       | None => subtasks db
       end db).
Proof.
  intros Htot Htrans Hcmp [[_ Hnd] _] Hx [Ht Hs]. split; [exact Ht|].
  intros t. unfold subtask_scope. cbn [with_subtasks subtasks].
  apply (reorder_step_distinct Subtask.order_index Subtask.with_order_index
           (same_parent x) (fun s => Subtask.task_id s =? t)
           Subtask.is_completed cmp x (subtasks db)); try reflexivity.
  - intros p Hp. unfold same_parent in Hp. apply Z.eqb_eq in Hp.
    now rewrite Hp.
  - apply (move_step Subtask.id Subtask.order_index Subtask.with_order_index
             (same_parent x) Subtask.is_completed (fun _ _ => eq_refl) cmp
             leb x (subtasks db) Htot Htrans Hcmp Hnd Hx).
  - apply Hs.
Qed.

Lemma distinct_filtered db pt ps :
  distinct_order_keys db ->
  distinct_order_keys
    (mkDb (filter pt (tasks db)) (filter ps (subtasks db)) (categories db)).
Proof.
  intros [Ht Hs]. split.
  - intros u. unfold task_scope. cbn [tasks]. rewrite filter_comm.
    apply NoDup_map_filter, Ht.
  - intros t. unfold subtask_scope. cbn [subtasks]. rewrite filter_comm.
    apply NoDup_map_filter, Hs.
Qed.

Lemma filter_all {A : Type} (l : list A) : filter (fun _ => true) l = l.
Proof. apply forallb_filter_id. now apply forallb_forall. Qed.

Ltac same_orders Hd :=
  revert Hd; apply distinct_same_orders;
  unfold task_orders, subtask_orders; same_view.

Lemma handle_distinct u r db :
  keys_ok db -> distinct_order_keys db ->
  distinct_order_keys (fst (handle u r db)).
Proof.
  intros Hk Hd. pose proof Hk as [[Ht Hs] _].
  destruct r; cbn [handle].
  - now apply add_task_distinct.
  - rewrite (toggle_task_eq _ _ _ Hs).
    destruct (first (task_query u task_id db)); [|exact Hd].
    same_orders Hd. destruct (Task.is_completed t); same_view.
  - now apply add_subtask_distinct.
  - unfold toggle_subtask.
    destruct (first (subtask_query u subtask_id db)); [|exact Hd].
    destruct (parent_task _ _); [|exact Hd]. same_orders Hd.
  - unfold edit_subtask.
    destruct (first (subtask_query u subtask_id db)); [|exact Hd].
    destruct (negb (truthy description)); [exact Hd|]. same_orders Hd.
  - rewrite move_subtask_up_eq.
    destruct (first (subtask_query u subtask_id db)) as [x|] eqn:E;
      [|exact Hd].
    apply first_filter_some in E. destruct E as [Hx _].
    apply move_subtask_distinct;
      [apply desc_leb_total|apply desc_leb_trans|apply sql_lt_apart|
       exact Hk|exact Hx|exact Hd].
  - rewrite move_subtask_down_eq.
    destruct (first (subtask_query u subtask_id db)) as [x|] eqn:E;
      [|exact Hd].
    apply first_filter_some in E. destruct E as [Hx _].
    apply move_subtask_distinct;
      [apply asc_leb_total|apply asc_leb_trans|apply sql_gt_apart|
       exact Hk|exact Hx|exact Hd].
  - unfold delete_subtask.
    destruct (first (subtask_query u subtask_id db)); [|exact Hd].
    assert (distinct_order_keys
              (with_subtasks
                 (delete_row Subtask.id (Subtask.id t) (subtasks db)) db))
      as Hd1.
    { pose proof (distinct_filtered db (fun _ => true)
                    (fun r => negb (Subtask.id r =? Subtask.id t)) Hd) as G.
      now rewrite filter_all in G. }
    destruct (parent_task t db); [|exact Hd1].
    destruct (_ && _); [|exact Hd1]. same_orders Hd1.
  - unfold edit_task.
    destruct (first (task_query u task_id db)); [|exact Hd].
    destruct (invalid_task_fields _ _) as [[|]|]; try exact Hd.
    destruct (py_int _) as [minutes|]; [|exact Hd].
    destruct (sqlite_int minutes); [|exact Hd]. same_orders Hd.
  - rewrite (delete_task_eq _ _ _ Hs).
    destruct (first (task_query u task_id db)); [|exact Hd].
    now apply distinct_filtered.
  - rewrite (reset_all_tasks_eq _ _ (conj Ht Hs)). same_orders Hd.
  - unfold add_category. destruct (negb (truthy name)); [exact Hd|].
    destruct (first (category_named _ _ _)); [exact Hd|]. same_orders Hd.
  - rewrite (delete_category_eq _ _ _ Ht).
    destruct (first (category_query u category_id db)); [|exact Hd].
    same_orders Hd.
  - rewrite move_task_up_eq.
    destruct (first (task_query u task_id db)) as [x|] eqn:E; [|exact Hd].
    apply task_query_found in E. destruct E as (Hx & _ & Hu).
    apply move_task_distinct;
      [apply desc_leb_total|apply desc_leb_trans|apply sql_lt_apart|
       exact Hk|exact Hx|exact Hu|exact Hd].
  - rewrite move_task_down_eq.
    destruct (first (task_query u task_id db)) as [x|] eqn:E; [|exact Hd].
    apply task_query_found in E. destruct E as (Hx & _ & Hu).
    apply move_task_distinct;
      [apply asc_leb_total|apply asc_leb_trans|apply sql_gt_apart|
       exact Hk|exact Hx|exact Hu|exact Hd].
Qed.
End DistinctKeys.

(** ** Category references and names *)

Lemma refs_owned_same db db' :
  task_categories db' = task_categories db ->
  category_owners db' = category_owners db ->
  category_refs_owned db -> category_refs_owned db'.
Proof.
  unfold task_categories, category_owners, category_refs_owned.
  intros Et Ec Hr t' c Ht' Hcat.
  assert (In (Task.user_id t', Task.category_id t')
            (map (fun t => (Task.user_id t, Task.category_id t)) (tasks db)))
    as Gt
    by (rewrite <- Et;
        now apply (in_map (fun t => (Task.user_id t, Task.category_id t)))).
  apply in_map_iff in Gt. destruct Gt as (t & Gt & Ht).
  injection Gt as Gt1 Gt2.
  destruct (Hr t c Ht) as (k & Hk & Hid & Hu); [congruence|].
  assert (In (Category.id k, Category.user_id k)
            (map (fun k => (Category.id k, Category.user_id k))
               (categories db')))
    as Gk
    by (rewrite Ec;
        now apply (in_map (fun k => (Category.id k, Category.user_id k)))).
  apply in_map_iff in Gk. destruct Gk as (k' & Gk & Hk').
  injection Gk as Gk1 Gk2. exists k'. repeat split; congruence.
Qed.

Section Categories.
Context `{Runtime}.

Lemma checked_category_owned u c db k :
  checked_category u c db = Some k ->
  exists cat,
    In cat (categories db) /\ Category.id cat = k
    /\ Category.user_id cat = u.
Proof.
  unfold checked_category. destruct (_ && _); [|discriminate].
  destruct (sql_integer _) as [n|]; [|discriminate].
  destruct (first _) as [cat|] eqn:E; [|discriminate].
  intros G. injection G as <-. apply first_filter_some in E.
  destruct E as [Hin E]. apply andb_true_iff in E.
  rewrite !Z.eqb_eq in E. exists cat. tauto.
Qed.

Ltac same_refs Hr :=
  revert Hr; apply refs_owned_same;
  unfold task_categories, category_owners; same_view.

Lemma handle_refs_owned u r db :
  keys_ok db -> category_refs_owned db ->
  category_refs_owned (fst (handle u r db)).
Proof.
  intros Hk Hr. pose proof Hk as [[Ht Hs] _].
  destruct r; cbn [handle].
  - unfold add_task.
    destruct (invalid_task_fields _ _) as [[|]|]; try exact Hr.
    destruct (py_int _) as [minutes|]; [|exact Hr].
    destruct (sqlite_int minutes); [|exact Hr].
    intros t c Hin Hc. cbn [fst with_tasks tasks categories] in *.
    apply in_app_or in Hin. destruct Hin as [Hin|[<-|[]]];
      [now apply (Hr t c)|].
    cbn [Task.category_id Task.user_id] in *.
    now apply checked_category_owned in Hc.
  - rewrite (toggle_task_eq _ _ _ Hs).
    destruct (first (task_query u task_id db)); [|exact Hr].
    same_refs Hr.
  - unfold add_subtask.
    destruct (first (task_query u task_id db)); [|exact Hr].
    destruct (negb (truthy subtask_description)); [exact Hr|].
    destruct (Task.is_completed t); same_refs Hr.
  - unfold toggle_subtask.
    destruct (first (subtask_query u subtask_id db)); [|exact Hr].
    destruct (parent_task _ _); [|exact Hr]. same_refs Hr.
  - unfold edit_subtask.
    destruct (first (subtask_query u subtask_id db)); [|exact Hr].
    destruct (negb (truthy description)); [exact Hr|]. same_refs Hr.
  - rewrite move_subtask_up_eq.
    destruct (first (subtask_query u subtask_id db)); [|exact Hr].
    same_refs Hr.
  - rewrite move_subtask_down_eq.
    destruct (first (subtask_query u subtask_id db)); [|exact Hr].
    same_refs Hr.
  - unfold delete_subtask.
    destruct (first (subtask_query u subtask_id db)); [|exact Hr].
    destruct (parent_task t db); [|same_refs Hr].
    destruct (_ && _); same_refs Hr.
  - unfold edit_task.
    destruct (first (task_query u task_id db)) as [x|] eqn:Ex; [|exact Hr].
    destruct (invalid_task_fields _ _) as [[|]|]; try exact Hr.
    destruct (py_int _) as [minutes|]; [|exact Hr].
    destruct (sqlite_int minutes); [|exact Hr].
    apply task_query_found in Ex. destruct Ex as (Hx & _ & Hu).
    intros t c Hin Hc. cbn [fst with_tasks tasks categories] in *.
    apply in_update_row in Hin. destruct Hin as (r0 & Hr0 & ->).
    destruct (Z.eqb_spec (Task.id r0) (Task.id x)) as [E|E];
      [|now apply (Hr r0 c)].
    cbn [Task.category_id Task.user_id] in *.
    rewrite (pk_unique Task.id _ _ _ Ht Hr0 Hx E), Hu.
    now apply checked_category_owned in Hc.
  - rewrite (delete_task_eq _ _ _ Hs).
    destruct (first (task_query u task_id db)); [|exact Hr].
    intros t' c Hin. cbn [fst tasks categories] in *.
    apply filter_In in Hin. now apply Hr.
  - rewrite (reset_all_tasks_eq _ _ (conj Ht Hs)). same_refs Hr.
  - unfold add_category. destruct (negb (truthy name)); [exact Hr|].
    destruct (first (category_named _ _ _)); [exact Hr|].
    intros t c Hin Hc. cbn [fst with_categories tasks categories] in *.
    destruct (Hr t c Hin Hc) as (k & Hk' & G). exists k.
    split; [apply in_or_app; now left|exact G].
  - rewrite (delete_category_eq _ _ _ Ht).
    destruct (first (category_query u category_id db)) as [k0|] eqn:Ek;
      [|exact Hr].
    apply first_filter_some in Ek. destruct Ek as [_ Ek].
    apply andb_true_iff in Ek. destruct Ek as [Ek _].
    apply Z.eqb_eq in Ek.
    intros t' c Hin Hc. cbn [fst tasks categories] in *.
    apply in_map_iff in Hin. destruct Hin as (r0 & <- & Hr0).
    destruct (in_category category_id r0) eqn:Ec; [discriminate|].
    destruct (Hr r0 c Hr0 Hc) as (k & Hk' & Hid & Hu). exists k.
    repeat split; auto. apply filter_In. split; [exact Hk'|].
    apply negb_true_iff, Z.eqb_neq. unfold in_category in Ec.
    rewrite Hc in Ec. apply Z.eqb_neq in Ec. congruence.
  - rewrite move_task_up_eq.
    destruct (first (task_query u task_id db)); [|exact Hr].
    same_refs Hr. destruct (neighbour _ _ _ _ _ _ _); same_view.
  - rewrite move_task_down_eq.
    destruct (first (task_query u task_id db)); [|exact Hr].
    same_refs Hr. destruct (neighbour _ _ _ _ _ _ _); same_view.
Qed.

Lemma handle_categories u r db :
  (forall name color, r <> AddCategory name color) ->
  (forall cid, r <> DeleteCategory cid) ->
  categories (fst (handle u r db)) = categories db.
Proof.
  intros Hadd Hdel. destruct r; cbn [handle];
    try (now elim (Hadd name color));
    try (now elim (Hdel category_id)).
  - unfold add_task.
    destruct (invalid_task_fields _ _) as [[|]|]; try reflexivity.
    destruct (py_int _) as [minutes|]; [|reflexivity].
    now destruct (sqlite_int minutes).
  - unfold toggle_task. destruct (first _); [|reflexivity].
    cbn [fst]. destruct (_ && _); [|reflexivity].
    now rewrite subtask_loop.
  - unfold add_subtask. destruct (first _); [|reflexivity].
    destruct (negb _); [reflexivity|]. now destruct (Task.is_completed t).
  - unfold toggle_subtask. destruct (first _); [|reflexivity].
    now destruct (parent_task _ _).
  - unfold edit_subtask. destruct (first _); [|reflexivity].
    now destruct (negb _).
  - rewrite move_subtask_up_eq. now destruct (first _).
  - rewrite move_subtask_down_eq. now destruct (first _).
  - unfold delete_subtask. destruct (first _); [|reflexivity].
    destruct (parent_task _ _); [|reflexivity]. now destruct (_ && _).
  - unfold edit_task. destruct (first _); [|reflexivity].
    destruct (invalid_task_fields _ _) as [[|]|]; try reflexivity.
    destruct (py_int _) as [minutes|]; [|reflexivity].
    now destruct (sqlite_int minutes).
  - unfold delete_task. destruct (first _); [|reflexivity].
    cbn [fst with_tasks categories].
    now rewrite (subtasks_fold
                   (fun x rows =>
                      delete_row Subtask.id (Subtask.id x) rows)).
  - unfold reset_all_tasks. cbn [fst].
    match goal with |- categories (fold_left ?F ?xs db) = _ =>
      generalize xs
    end.
    intros l. revert db. induction l as [|x l IH]; intros db; [reflexivity|].
    cbn [fold_left]. rewrite IH. now rewrite subtask_loop.
  - rewrite move_task_up_eq. now destruct (first _).
  - rewrite move_task_down_eq. now destruct (first _).
Qed.

Lemma handle_names_unique u r db :
  category_names_unique db -> category_names_unique (fst (handle u r db)).
Proof.
  intros Hn.
  destruct r;
    try (unfold category_names_unique;
         rewrite handle_categories by discriminate; exact Hn).
  - cbn [handle]. unfold add_category.
    destruct (negb (truthy name)); [exact Hn|].
    destruct (first (category_named u (str name) db)) eqn:E; [exact Hn|].
    intros a b Ha Hb Eu En. cbn [fst with_categories categories] in *.
    apply in_app_or in Ha, Hb.
    assert (forall k, In k (categories db) -> Category.user_id k = u ->
              Category.name k = str name -> False) as Hfresh.
    { intros k Hk Hu Hname.
      pose proof (first_filter_exists
                    (fun k =>
                       String.eqb (Category.name k) (str name)
                       && (Category.user_id k =? u)) (categories db) k Hk)
        as G.
      destruct G as (y & G).
      - apply andb_true_iff. split; [now apply String.eqb_eq|].
        now apply Z.eqb_eq.
      - unfold category_named in E. congruence. }
    destruct Ha as [Ha|[<-|[]]], Hb as [Hb|[<-|[]]]; auto.
    + exfalso. apply (Hfresh a Ha); auto.
    + exfalso. apply (Hfresh b Hb); auto.
  - cbn [handle]. unfold delete_category.
    destruct (first (category_query u category_id db)); [|exact Hn].
    rewrite (tasks_fold
               (fun x rows =>
                  update_row Task.id (Task.id x)
                    (task_with_category_id None) rows)).
    intros a b Ha Hb.
    cbn [fst with_categories with_tasks categories] in *.
    apply filter_In in Ha, Hb. apply Hn; tauto.
Qed.
End Categories.

(** ** The rows of the other users *)

Lemma filter_map_fix {A : Type} (q : A -> bool) (g : A -> A) rows :
  (forall r, In r rows -> q r = true -> g r = r) ->
  (forall r, In r rows -> q (g r) = q r) ->
  filter q (map g rows) = filter q rows.
Proof.
  induction rows as [|r rows IH]; simpl; [reflexivity|].
  intros Hfix Hq. rewrite (Hq r (or_introl eq_refl)).
  rewrite IH; [|intros; apply Hfix; auto|intros; apply Hq; auto].
  destruct (q r) eqn:Qr; [|reflexivity].
  now rewrite (Hfix r (or_introl eq_refl) Qr).
Qed.

Lemma filter_update_row_fix {R : Type} (pk : R -> Z) (q : R -> bool) i f
    rows :
  (forall r, In r rows -> pk r = i -> q r = false) ->
  (forall r, q (f r) = q r) ->
  filter q (update_row pk i f rows) = filter q rows.
Proof.
  intros Hi Hf. unfold update_row. apply filter_map_fix.
  - intros r Hr Qr. destruct (Z.eqb_spec (pk r) i) as [E|E]; [|reflexivity].
    rewrite (Hi r Hr E) in Qr. discriminate.
  - intros r _. now destruct (pk r =? i).
Qed.

Lemma filter_filter_fix {A : Type} (q keep : A -> bool) rows :
  (forall r, In r rows -> q r = true -> keep r = true) ->
  filter q (filter keep rows) = filter q rows.
Proof.
  induction rows as [|r rows IH]; simpl; [reflexivity|].
  intros Hk. rewrite <- IH by (intros; apply Hk; auto).
  destruct (keep r) eqn:Kr; simpl; [reflexivity|].
  destruct (q r) eqn:Qr; [|reflexivity].
  rewrite (Hk r (or_introl eq_refl) Qr) in Kr. discriminate.
Qed.

Lemma filter_swap_rows_fix {R : Type} (pk : R -> Z) (col : R -> option Z)
    (set : option Z -> R -> R) (q : R -> bool) a b rows :
  NoDup (map pk rows) -> In a rows -> In b rows ->
  q a = false -> q b = false ->
  (forall k r, pk (set k r) = pk r) ->
  (forall k r, q (set k r) = q r) ->
  filter q (swap_rows pk col set a b rows) = filter q rows.
Proof.
  intros Hnd Ha Hb Qa Qb Hpk Hq. unfold swap_rows.
  rewrite filter_update_row_fix; [| |now auto].
  - apply filter_update_row_fix; [|now auto].
    intros r Hr E. now rewrite (pk_unique pk rows r a Hnd Hr Ha E).
  - intros r' Hr' E. apply in_update_row in Hr'.
    destruct Hr' as (r & Hr & ->).
    assert (pk r = pk b) as E'
      by (destruct (pk r =? pk a); now rewrite ?Hpk in E).
    rewrite (pk_unique pk rows r b Hnd Hr Hb E').
    destruct (pk b =? pk a); now rewrite ?Hq.
Qed.

Lemma own_task_not_foreign u db x r :
  NoDup (map Task.id (tasks db)) -> In x (tasks db) -> Task.user_id x = u ->
  In r (tasks db) -> Task.id r = Task.id x -> foreign_task u r = false.
Proof.
  intros Hnd Hx Hu Hr E. rewrite (pk_unique Task.id _ r x Hnd Hr Hx E).
  unfold foreign_task. now rewrite Hu, Z.eqb_refl.
Qed.

Lemma own_subtask_not_foreign u db x s :
  NoDup (map Task.id (tasks db)) -> In x (tasks db) -> Task.user_id x = u ->
  Subtask.task_id s = Task.id x -> foreign_subtask u db s = false.
Proof.
  intros Hnd Hx Hu E. unfold foreign_subtask.
  destruct (existsb _ _) eqn:Ex; [|reflexivity].
  apply existsb_exists in Ex. destruct Ex as (t & Ht & Ex).
  apply andb_true_iff in Ex. destruct Ex as [Eid Ef].
  apply Z.eqb_eq in Eid.
  rewrite (own_task_not_foreign u db x t Hnd Hx Hu Ht) in Ef; congruence.
Qed.

Lemma queried_subtask_not_foreign u sid db s :
  NoDup (map Task.id (tasks db)) ->
  first (subtask_query u sid db) = Some s ->
  In s (subtasks db) /\ foreign_subtask u db s = false.
Proof.
  intros Hnd E. apply first_filter_some in E. destruct E as [Hs E].
  split; [exact Hs|]. apply andb_true_iff in E. destruct E as [_ E].
  apply existsb_exists in E. destruct E as (t & Ht & E).
  apply andb_true_iff in E. rewrite !Z.eqb_eq in E. destruct E as [E1 E2].
  now apply (own_subtask_not_foreign u db t).
Qed.

Lemma foreign_subtask_by_tasks u db db' :
  filter (foreign_task u) (tasks db') = filter (foreign_task u) (tasks db) ->
  forall s, foreign_subtask u db' s = foreign_subtask u db s.
Proof.
  intros E s. unfold foreign_subtask.
  rewrite <- !(existsb_filter (fun t => Task.id t =? Subtask.task_id s)).
  now rewrite E.
Qed.

Lemma neighbour_some {R : Type} (col : R -> option Z)
    (in_scope done : R -> bool) cmp leb x rows p :
  (forall a b, leb a b = false -> leb b a = true) ->
  (forall a b c, leb a b = true -> leb b c = true -> leb a c = true) ->
  neighbour col in_scope done cmp leb x rows = Some p ->
  In p rows /\ in_scope p = true.
Proof.
  intros Htot Htrans E. unfold neighbour, order_by in E.
  apply (first_sorted_some leb col Htot Htrans) in E.
  destruct E as [E _]. apply filter_In in E. destruct E as [Hp E].
  unfold candidate in E. apply andb_true_iff in E. destruct E as [E _].
  apply andb_true_iff in E. tauto.
Qed.

Lemma filter_snoc_false {A : Type} (q : A -> bool) l x :
  q x = false -> filter q (l ++ [x]) = filter q l.
Proof.
  intros Qx. rewrite filter_app. simpl. rewrite Qx. apply app_nil_r.
Qed.

Lemma parent_not_foreign u db s r :
  foreign_subtask u db s = false -> In r (tasks db) ->
  Task.id r = Subtask.task_id s -> foreign_task u r = false.
Proof.
  unfold foreign_subtask. intros Ef Hr E.
  destruct (foreign_task u r) eqn:Fr; [|reflexivity].
  rewrite <- Ef. symmetry. apply existsb_exists. exists r.
  split; [exact Hr|]. rewrite Fr, andb_true_r. now apply Z.eqb_eq.
Qed.

Lemma foreign_subtask_same_parent u db a b :
  Subtask.task_id a = Subtask.task_id b ->
  foreign_subtask u db a = foreign_subtask u db b.
Proof. unfold foreign_subtask. now intros ->. Qed.

Lemma foreign_not_of_user u db s :
  NoDup (map Task.id (tasks db)) ->
  foreign_subtask u db s = true -> subtask_of_user u db s = false.
Proof.
  intros Hnd Ef. destruct (subtask_of_user u db s) eqn:Eu; [|reflexivity].
  apply existsb_exists in Eu. destruct Eu as (t & Ht & Eu).
  apply andb_true_iff in Eu. rewrite !Z.eqb_eq in Eu. destruct Eu as [E1 E2].
  rewrite (own_subtask_not_foreign u db t s Hnd Ht E2) in Ef; congruence.
Qed.

Lemma others_same u db db' :
  filter (foreign_task u) (tasks db') = filter (foreign_task u) (tasks db) ->
  filter (foreign_subtask u db) (subtasks db')
  = filter (foreign_subtask u db) (subtasks db) ->
  filter (foreign_category u) (categories db')
  = filter (foreign_category u) (categories db) ->
  others u db' = others u db.
Proof.
  intros Et Es Ec. unfold others. rewrite Et, Ec. f_equal. f_equal.
  rewrite <- Es. apply filter_ext. now apply foreign_subtask_by_tasks.
Qed.

Section Isolation.
Context `{Runtime}.

Lemma handle_foreign_tasks u r db :
  keys_ok db -> category_refs_owned db ->
  filter (foreign_task u) (tasks (fst (handle u r db)))
  = filter (foreign_task u) (tasks db).
Proof.
  intros [[Ht Hs] Hc] Hrefs.
  assert (forall t r', In t (tasks db) -> Task.user_id t = u ->
            In r' (tasks db) -> Task.id r' = Task.id t ->
            foreign_task u r' = false) as Hown
    by (intros t r' Hin Hu; now apply (own_task_not_foreign u db t)).
  destruct r; cbn [handle].
  - unfold add_task.
    destruct (invalid_task_fields _ _) as [[|]|]; try reflexivity.
    destruct (py_int _) as [minutes|]; [|reflexivity].
    destruct (sqlite_int minutes); [|reflexivity].
    cbn [fst tasks with_tasks]. apply filter_snoc_false.
    unfold foreign_task. cbn. now rewrite Z.eqb_refl.
  - rewrite (toggle_task_eq _ _ _ Hs).
    destruct (first (task_query u task_id db)) as [t|] eqn:E; [|reflexivity].
    apply task_query_found in E. destruct E as (Hin & _ & Hu).
    cbn [fst tasks]. apply filter_update_row_fix; [|reflexivity].
    intros r0 Hr0 Er0; now apply (Hown t).
  - unfold add_subtask.
    destruct (first (task_query u task_id db)) as [t|] eqn:E; [|reflexivity].
    apply task_query_found in E. destruct E as (Hin & _ & Hu).
    destruct (negb (truthy _)); [reflexivity|].
    destruct (Task.is_completed t); [|reflexivity].
    cbn [fst tasks with_tasks with_subtasks].
    apply filter_update_row_fix; [|reflexivity].
    intros r0 Hr0 Er0; now apply (Hown t).
  - unfold toggle_subtask.
    destruct (first (subtask_query u subtask_id db)) as [s|] eqn:E;
      [|reflexivity].
    apply (queried_subtask_not_foreign _ _ _ _ Ht) in E.
    destruct E as [_ Ef].
    destruct (parent_task _ _) as [p|] eqn:P; [|reflexivity].
    apply first_filter_some in P. destruct P as [_ P]. apply Z.eqb_eq in P.
    cbn [fst tasks with_tasks with_subtasks].
    apply filter_update_row_fix; [|reflexivity].
    intros r Hr Er. apply (parent_not_foreign u db s); congruence.
  - unfold edit_subtask.
    destruct (first (subtask_query u subtask_id db)); [|reflexivity].
    now destruct (negb (truthy _)).
  - rewrite move_subtask_up_eq.
    now destruct (first (subtask_query u subtask_id db)).
  - rewrite move_subtask_down_eq.
    now destruct (first (subtask_query u subtask_id db)).
  - unfold delete_subtask.
    destruct (first (subtask_query u subtask_id db)) as [s|] eqn:E;
      [|reflexivity].
    apply (queried_subtask_not_foreign _ _ _ _ Ht) in E.
    destruct E as [_ Ef].
    destruct (parent_task _ _) as [p|] eqn:P; [|reflexivity].
    apply first_filter_some in P. destruct P as [_ P]. apply Z.eqb_eq in P.
    destruct (_ && _); [|reflexivity].
    cbn [fst tasks with_tasks with_subtasks].
    apply filter_update_row_fix; [|reflexivity].
    intros r Hr Er. apply (parent_not_foreign u db s); congruence.
  - unfold edit_task.
    destruct (first (task_query u task_id db)) as [t|] eqn:E; [|reflexivity].
    apply task_query_found in E. destruct E as (Hin & _ & Hu).
    destruct (invalid_task_fields _ _) as [[|]|]; try reflexivity.
    destruct (py_int _) as [minutes|]; [|reflexivity].
    destruct (sqlite_int minutes); [|reflexivity].
    cbn [fst tasks with_tasks].
    apply filter_update_row_fix; [|reflexivity].
    intros r0 Hr0 Er0; now apply (Hown t).
  - rewrite (delete_task_eq _ _ _ Hs).
    destruct (first (task_query u task_id db)) as [t|] eqn:E; [|reflexivity].
    apply task_query_found in E. destruct E as (Hin & _ & Hu).
    cbn [fst tasks]. apply filter_filter_fix. intros r Hr Fr.
    destruct (Z.eqb_spec (Task.id r) (Task.id t)) as [Er|]; [|reflexivity].
    rewrite (Hown t r Hin Hu Hr Er) in Fr. discriminate.
  - rewrite (reset_all_tasks_eq _ _ (conj Ht Hs)). cbn [fst tasks].
    apply filter_map_fix.
    + intros r _ Fr. unfold foreign_task in Fr.
      now destruct (Task.user_id r =? u).
    + intros r _. now destruct (Task.user_id r =? u).
  - unfold add_category. destruct (negb (truthy name)); [reflexivity|].
    now destruct (first (category_named _ _ _)).
  - rewrite (delete_category_eq _ _ _ Ht).
    destruct (first (category_query u category_id db)) as [k|] eqn:E;
      [|reflexivity].
    apply first_filter_some in E. destruct E as [Hk E].
    apply andb_true_iff in E. rewrite !Z.eqb_eq in E. destruct E as [E1 E2].
    cbn [fst tasks]. apply filter_map_fix.
    + intros r Hr Fr. unfold in_category.
      destruct (Task.category_id r) as [c|] eqn:Ec; [|reflexivity].
      destruct (Z.eqb_spec c category_id) as [->|]; [|reflexivity].
      destruct (Hrefs r category_id Hr Ec) as (k' & Hk' & E1' & E2').
      assert (k' = k) as ->
        by (apply (pk_unique Category.id (categories db)); congruence).
      unfold foreign_task in Fr. rewrite <- E2', E2, Z.eqb_refl in Fr.
      discriminate.
    + intros r _. now destruct (in_category category_id r).
  - rewrite move_task_up_eq.
    destruct (first (task_query u task_id db)) as [t|] eqn:E; [|reflexivity].
    apply task_query_found in E. destruct E as (Hin & _ & Hu).
    cbn [fst tasks with_tasks].
    destruct (neighbour _ _ _ _ _ _ _) as [p|] eqn:N; [|reflexivity].
    apply (neighbour_some _ _ _ _ _ _ _ _ desc_leb_total desc_leb_trans)
      in N.
    destruct N as [Hp Up]. apply Z.eqb_eq in Up.
    apply filter_swap_rows_fix; auto.
    * now apply (Hown t).
    * now apply (Hown p).
  - rewrite move_task_down_eq.
    destruct (first (task_query u task_id db)) as [t|] eqn:E; [|reflexivity].
    apply task_query_found in E. destruct E as (Hin & _ & Hu).
    cbn [fst tasks with_tasks].
    destruct (neighbour _ _ _ _ _ _ _) as [p|] eqn:N; [|reflexivity].
    apply (neighbour_some _ _ _ _ _ _ _ _ asc_leb_total asc_leb_trans) in N.
    destruct N as [Hp Up]. apply Z.eqb_eq in Up.
    apply filter_swap_rows_fix; auto.
    * now apply (Hown t).
    * now apply (Hown p).
Qed.
Lemma handle_foreign_subtasks u r db :
  keys_ok db ->
  filter (foreign_subtask u db) (subtasks (fst (handle u r db)))
  = filter (foreign_subtask u db) (subtasks db).
Proof.
  intros [[Ht Hs] Hc].
  destruct r; cbn [handle].
  - unfold add_task.
    destruct (invalid_task_fields _ _) as [[|]|]; try reflexivity.
    destruct (py_int _) as [minutes|]; [|reflexivity].
    now destruct (sqlite_int minutes).
  - rewrite (toggle_task_eq _ _ _ Hs).
    destruct (first (task_query u task_id db)) as [t|] eqn:E; [|reflexivity].
    apply task_query_found in E. destruct E as (Hin & _ & Hu).
    cbn [fst subtasks]. destruct (Task.is_completed t); [reflexivity|].
    apply filter_map_fix.
    + intros s _ Fs.
      destruct (Z.eqb_spec (Subtask.task_id s) (Task.id t)) as [E|];
        [|reflexivity].
      rewrite (own_subtask_not_foreign u db t s Ht Hin Hu E) in Fs.
      discriminate.
    + intros s _. now destruct (Subtask.task_id s =? Task.id t).
  - unfold add_subtask.
    destruct (first (task_query u task_id db)) as [t|] eqn:E; [|reflexivity].
    apply task_query_found in E. destruct E as (Hin & Hid & Hu).
    destruct (negb (truthy _)); [reflexivity|].
    assert (forall new, Subtask.task_id new = task_id ->
              filter (foreign_subtask u db) (subtasks db ++ [new])
              = filter (foreign_subtask u db) (subtasks db)) as Hnew.
    { intros new E. apply filter_snoc_false.
      apply (own_subtask_not_foreign u db t); congruence. }
    destruct (Task.is_completed t); now apply Hnew.
  - unfold toggle_subtask.
    destruct (first (subtask_query u subtask_id db)) as [s|] eqn:E;
      [|reflexivity].
    apply (queried_subtask_not_foreign _ _ _ _ Ht) in E.
    destruct E as [Hin Ef].
    destruct (parent_task _ _); [|reflexivity].
    cbn [fst subtasks with_tasks with_subtasks].
    apply filter_update_row_fix; [|reflexivity].
    intros r Hr Er.
    now rewrite (pk_unique Subtask.id (subtasks db) r s Hs Hr Hin Er).
  - unfold edit_subtask.
    destruct (first (subtask_query u subtask_id db)) as [s|] eqn:E;
      [|reflexivity].
    apply (queried_subtask_not_foreign _ _ _ _ Ht) in E.
    destruct E as [Hin Ef].
    destruct (negb (truthy _)); [reflexivity|].
    cbn [fst subtasks with_subtasks].
    apply filter_update_row_fix; [|reflexivity].
    intros r Hr Er.
    now rewrite (pk_unique Subtask.id (subtasks db) r s Hs Hr Hin Er).
  - rewrite move_subtask_up_eq.
    destruct (first (subtask_query u subtask_id db)) as [s|] eqn:E;
      [|reflexivity].
    apply (queried_subtask_not_foreign _ _ _ _ Ht) in E.
    destruct E as [Hin Ef].
    cbn [fst subtasks with_subtasks].
    destruct (neighbour _ _ _ _ _ _ _) as [p|] eqn:N; [|reflexivity].
    apply (neighbour_some _ _ _ _ _ _ _ _ desc_leb_total desc_leb_trans)
      in N.
    destruct N as [Hp Up]. apply Z.eqb_eq in Up.
    apply filter_swap_rows_fix; auto.
    now rewrite (foreign_subtask_same_parent u db p s Up).
  - rewrite move_subtask_down_eq.
    destruct (first (subtask_query u subtask_id db)) as [s|] eqn:E;
      [|reflexivity].
    apply (queried_subtask_not_foreign _ _ _ _ Ht) in E.
    destruct E as [Hin Ef].
    cbn [fst subtasks with_subtasks].
    destruct (neighbour _ _ _ _ _ _ _) as [p|] eqn:N; [|reflexivity].
    apply (neighbour_some _ _ _ _ _ _ _ _ asc_leb_total asc_leb_trans) in N.
    destruct N as [Hp Up]. apply Z.eqb_eq in Up.
    apply filter_swap_rows_fix; auto.
    now rewrite (foreign_subtask_same_parent u db p s Up).
  - unfold delete_subtask.
    destruct (first (subtask_query u subtask_id db)) as [s|] eqn:E;
      [|reflexivity].
    apply (queried_subtask_not_foreign _ _ _ _ Ht) in E.
    destruct E as [Hin Ef].
    assert (filter (foreign_subtask u db)
              (delete_row Subtask.id (Subtask.id s) (subtasks db))
            = filter (foreign_subtask u db) (subtasks db)) as Hdel.
    { apply filter_filter_fix. intros r Hr Fr.
      destruct (Z.eqb_spec (Subtask.id r) (Subtask.id s)) as [Er|];
        [|reflexivity].
      rewrite (pk_unique Subtask.id (subtasks db) r s Hs Hr Hin Er) in Fr.
      congruence. }
    destruct (parent_task _ _); [|exact Hdel].
    destruct (_ && _); exact Hdel.
  - unfold edit_task.
    destruct (first (task_query u task_id db)); [|reflexivity].
    destruct (invalid_task_fields _ _) as [[|]|]; try reflexivity.
    destruct (py_int _) as [minutes|]; [|reflexivity].
    now destruct (sqlite_int minutes).
  - rewrite (delete_task_eq _ _ _ Hs).
    destruct (first (task_query u task_id db)) as [t|] eqn:E; [|reflexivity].
    apply task_query_found in E. destruct E as (Hin & _ & Hu).
    cbn [fst subtasks]. apply filter_filter_fix. intros s _ Fs.
    destruct (Z.eqb_spec (Subtask.task_id s) (Task.id t)) as [E|];
      [|reflexivity].
    rewrite (own_subtask_not_foreign u db t s Ht Hin Hu E) in Fs.
    discriminate.
  - rewrite (reset_all_tasks_eq _ _ (conj Ht Hs)). cbn [fst subtasks].
    apply filter_map_fix.
    + intros s _ Fs. now rewrite (foreign_not_of_user u db s Ht Fs).
    + intros s _. now destruct (subtask_of_user u db s).
  - unfold add_category. destruct (negb (truthy name)); [reflexivity|].
    now destruct (first (category_named _ _ _)).
  - rewrite (delete_category_eq _ _ _ Ht).
    now destruct (first (category_query u category_id db)).
  - rewrite move_task_up_eq.
    now destruct (first (task_query u task_id db)).
  - rewrite move_task_down_eq.
    now destruct (first (task_query u task_id db)).
Qed.

Lemma handle_foreign_categories u r db :
  keys_ok db ->
  filter (foreign_category u) (categories (fst (handle u r db)))
  = filter (foreign_category u) (categories db).
Proof.
  intros [[Ht Hs] Hc].
  destruct r;
    try (rewrite handle_categories; [reflexivity|discriminate|discriminate]);
    cbn [handle].
  - unfold add_category. destruct (negb (truthy name)); [reflexivity|].
    destruct (first (category_named _ _ _)); [reflexivity|].
    cbn [fst categories with_categories]. apply filter_snoc_false.
    unfold foreign_category. cbn. now rewrite Z.eqb_refl.
  - rewrite (delete_category_eq _ _ _ Ht).
    destruct (first (category_query u category_id db)) as [k|] eqn:E;
      [|reflexivity].
    apply first_filter_some in E. destruct E as [Hk E].
    apply andb_true_iff in E. rewrite !Z.eqb_eq in E. destruct E as [E1 E2].
    cbn [fst categories]. apply filter_filter_fix. intros r Hr Fr.
    destruct (Z.eqb_spec (Category.id r) (Category.id k)) as [Er|];
      [|reflexivity].
    rewrite (pk_unique Category.id (categories db) r k Hc Hr Hk Er) in Fr.
    unfold foreign_category in Fr. rewrite E2, Z.eqb_refl in Fr.
    discriminate.
Qed.

(** X8: a request leaves the rows of every other user as they were: their
    tasks, the subtasks of their tasks and their categories, in the same
    order and with every field unchanged. *)
Theorem handle_leaves_others u r db :
  keys_ok db -> category_refs_owned db ->
  others u (fst (handle u r db)) = others u db.
Proof.
  intros Hk Hrefs. apply others_same.
  - now apply handle_foreign_tasks.
  - now apply handle_foreign_subtasks.
  - now apply handle_foreign_categories.
Qed.
End Isolation.

(** ** Sample databases *)

Ltac pick_from l :=
  match l with
  | ?x :: ?rest =>
    first [exists x; split; [simpl; tauto|split; reflexivity]
          |pick_from rest]
  end.

Ltac pick_row :=
  match goal with
  | |- exists k, In k ?l /\ _ => let l' := eval hnf in l in pick_from l'
  end.

Lemma sample_db_keys_ok : keys_ok sample_db.
Proof.
  split; [exact sample_db_primary_keys|].
  simpl; repeat constructor; simpl; intuition discriminate.
Qed.

Lemma sample_db_consistent : consistent sample_db.
Proof.
  intros t Ht Hf. simpl in Ht.
  destruct Ht as [<-|[<-|[<-|[<-|[]]]]]; try discriminate. reflexivity.
Qed.

Lemma sample_db_distinct : distinct_order_keys sample_db.
Proof.
  split.
  - intros u. unfold task_scope.
    cbn [tasks sample_db filter Task.user_id].
    destruct (1 =? u); simpl; repeat constructor; simpl;
      intuition discriminate.
  - intros t. unfold subtask_scope.
    cbn [subtasks sample_db filter Subtask.task_id subtask_of].
    destruct (Z.eqb_spec 2 t), (Z.eqb_spec 3 t); try lia; simpl;
      repeat constructor; simpl; intuition discriminate.
Qed.

Lemma sample_db_refs_owned : category_refs_owned sample_db.
Proof.
  intros t c Ht Ec. simpl in Ht.
  destruct Ht as [<-|[<-|[<-|[<-|[]]]]]; injection Ec as <-; pick_row.
Qed.

Lemma sample_db_names_unique : category_names_unique sample_db.
Proof.
  intros a b Ha Hb. simpl in Ha, Hb.
  destruct Ha as [<-|[<-|[<-|[<-|[]]]]], Hb as [<-|[<-|[<-|[<-|[]]]]];
    simpl; intros; congruence.
Qed.

Lemma sample_db_no_orphans : no_orphans sample_db.
Proof.
  intros s Hs. simpl in Hs.
  destruct Hs as [<-|[<-|[<-|[]]]];
    match goal with
    | |- exists t, In t ?l /\ _ =>
      let l' := eval hnf in l in
      first [exists (nth 0 l' task_A); split; [simpl; tauto|reflexivity]
            |exists (nth 1 l' task_A); split; [simpl; tauto|reflexivity]
            |exists (nth 2 l' task_A); split; [simpl; tauto|reflexivity]
            |exists (nth 3 l' task_A); split; [simpl; tauto|reflexivity]]
    end.
Qed.

Lemma shared_db_keys_ok : keys_ok shared_db.
Proof.
  repeat split; simpl; repeat constructor; simpl; intuition discriminate.
Qed.

Lemma shared_db_refs_owned : category_refs_owned shared_db.
Proof.
  intros t c Ht Ec. simpl in Ht.
  destruct Ht as [<-|[<-|[]]]; injection Ec as <-; pick_row.
Qed.

(** ** Subtasks keep their task *)

Lemma no_orphans_incl db :
  no_orphans db
  <-> incl (map Subtask.task_id (subtasks db)) (map Task.id (tasks db)).
Proof.
  unfold no_orphans, incl. split.
  - intros Hn i Hi. apply in_map_iff in Hi. destruct Hi as (s & <- & Hs).
    destruct (Hn s Hs) as (t & Ht & <-). now apply in_map.
  - intros Hi s Hs.
    assert (In (Subtask.task_id s) (map Task.id (tasks db))) as Hin
      by (apply Hi; now apply in_map).
    apply in_map_iff in Hin. destruct Hin as (t & E & Ht). eauto.
Qed.

Lemma no_orphans_same db db' :
  map Task.id (tasks db') = map Task.id (tasks db) ->
  map Subtask.task_id (subtasks db') = map Subtask.task_id (subtasks db) ->
  no_orphans db -> no_orphans db'.
Proof. rewrite !no_orphans_incl. now intros -> ->. Qed.

Lemma incl_map_filter {A B : Type} (f : A -> B) (p : A -> bool) l :
  incl (map f (filter p l)) (map f l).
Proof.
  intros i Hi. apply in_map_iff in Hi. destruct Hi as (x & <- & Hx).
  apply filter_In in Hx. apply in_map. tauto.
Qed.

Ltac same_parents Hn :=
  revert Hn; apply no_orphans_same; same_view.

Section NoOrphans.
Context `{Runtime}.

Lemma handle_no_orphans u r db :
  keys_ok db -> no_orphans db -> no_orphans (fst (handle u r db)).
Proof.
  intros Hk Hn. pose proof Hk as [[Ht Hs] _].
  destruct r; cbn [handle].
  - unfold add_task.
    destruct (invalid_task_fields _ _) as [[|]|]; try exact Hn.
    destruct (py_int _) as [minutes|]; [|exact Hn].
    destruct (sqlite_int minutes); [|exact Hn].
    rewrite no_orphans_incl in *. cbn [fst with_tasks tasks subtasks].
    rewrite map_app. now apply incl_appl.
  - rewrite (toggle_task_eq _ _ _ Hs).
    destruct (first (task_query u task_id db)); [|exact Hn].
    same_parents Hn. destruct (Task.is_completed t); same_view.
  - unfold add_subtask.
    destruct (first (task_query u task_id db)) as [x|] eqn:Ex; [|exact Hn].
    destruct (negb (truthy _)); [exact Hn|].
    apply task_query_found in Ex. destruct Ex as (Hx & Hid & _).
    rewrite no_orphans_incl in *.
    assert (incl
              (map Subtask.task_id
                 (subtasks db
                  ++ [Subtask.mk (next_id Subtask.id (subtasks db))
                        (str subtask_description) false
                        (Some
                           (or_zero
                              (sql_max
                                 (map Subtask.order_index
                                    (filter
                                       (fun s => Subtask.task_id s =? task_id)
                                       (subtasks db)))) + 1)) task_id
                        created_at_default]))
              (map Task.id (tasks db))) as Hi.
    { rewrite map_app. apply incl_app; [exact Hn|].
      intros i [<-|[]]. cbn. rewrite <- Hid. now apply in_map. }
    destruct (Task.is_completed x); same_view; exact Hi.
  - unfold toggle_subtask.
    destruct (first (subtask_query u subtask_id db)); [|exact Hn].
    destruct (parent_task _ _); [|exact Hn]. same_parents Hn.
  - unfold edit_subtask.
    destruct (first (subtask_query u subtask_id db)); [|exact Hn].
    destruct (negb (truthy description)); [exact Hn|]. same_parents Hn.
  - rewrite move_subtask_up_eq.
    destruct (first (subtask_query u subtask_id db)); [|exact Hn].
    same_parents Hn. destruct (neighbour _ _ _ _ _ _ _); same_view.
  - rewrite move_subtask_down_eq.
    destruct (first (subtask_query u subtask_id db)); [|exact Hn].
    same_parents Hn. destruct (neighbour _ _ _ _ _ _ _); same_view.
  - unfold delete_subtask.
    destruct (first (subtask_query u subtask_id db)) as [s0|]; [|exact Hn].
    assert (no_orphans
              (with_subtasks
                 (delete_row Subtask.id (Subtask.id s0) (subtasks db)) db))
      as Hn1.
    { rewrite no_orphans_incl in *. cbn [with_subtasks tasks subtasks].
      eapply incl_tran; [apply incl_map_filter|exact Hn]. }
    destruct (parent_task s0 db); [|exact Hn1].
    destruct (_ && _); [|exact Hn1]. same_parents Hn1.
  - unfold edit_task.
    destruct (first (task_query u task_id db)); [|exact Hn].
    destruct (invalid_task_fields _ _) as [[|]|]; try exact Hn.
    destruct (py_int _) as [minutes|]; [|exact Hn].
    destruct (sqlite_int minutes); [|exact Hn]. same_parents Hn.
  - rewrite (delete_task_eq _ _ _ Hs).
    destruct (first (task_query u task_id db)) as [x|]; [|exact Hn].
    intros s Hin. cbn [fst tasks subtasks] in *.
    apply filter_In in Hin. destruct Hin as [Hin Es].
    destruct (Hn s Hin) as (t & Hin' & E). exists t.
    split; [|exact E]. apply filter_In. split; [exact Hin'|].
    now rewrite E.
  - rewrite (reset_all_tasks_eq _ _ (conj Ht Hs)). same_parents Hn.
  - unfold add_category. destruct (negb (truthy name)); [exact Hn|].
    destruct (first (category_named _ _ _)); [exact Hn|]. same_parents Hn.
  - rewrite (delete_category_eq _ _ _ Ht).
    destruct (first (category_query u category_id db)); [|exact Hn].
    same_parents Hn.
  - rewrite move_task_up_eq.
    destruct (first (task_query u task_id db)); [|exact Hn].
    same_parents Hn. destruct (neighbour _ _ _ _ _ _ _); same_view.
  - rewrite move_task_down_eq.
    destruct (first (task_query u task_id db)); [|exact Hn].
    same_parents Hn. destruct (neighbour _ _ _ _ _ _ _); same_view.
Qed.
End NoOrphans.

(** ** Responses *)

Section Responses.
Context `{Runtime}.

Lemma queried_subtask_parent u sid db s ss :
  first (subtask_query u sid db) = Some s ->
  exists p, parent_task s (with_subtasks ss db) = Some p
            /\ parent_task s db = Some p.
Proof.
  intros E. destruct (subtask_query_parent _ _ _ _ E) as (_ & _ & p & Hp & _).
  exists p. split; exact Hp.
Qed.

(** X15: no request ends in the [AttributeError] of a subtask without
    parent task: the subtask was found through its task. *)
Theorem handle_never_attribute_error u r db :
  snd (handle u r db) <> Unhandled AttributeError.
Proof.
  destruct r; cbn [handle].
  - unfold add_task.
    destruct (invalid_task_fields _ _) as [[|]|]; try discriminate.
    destruct (py_int _) as [minutes|]; [|discriminate].
    destruct (sqlite_int minutes); discriminate.
  - unfold toggle_task.
    destruct (first (task_query u task_id db)); discriminate.
  - unfold add_subtask.
    destruct (first (task_query u task_id db)); [|discriminate].
    destruct (negb (truthy _)); discriminate.
  - unfold toggle_subtask.
    destruct (first (subtask_query u subtask_id db)) as [s|] eqn:E;
      [|discriminate].
    destruct (queried_subtask_parent u subtask_id db s
                (update_row Subtask.id (Subtask.id s)
                   (Subtask.with_is_completed
                      (negb (Subtask.is_completed s))) (subtasks db)) E)
      as (p & -> & _).
    discriminate.
  - unfold edit_subtask.
    destruct (first (subtask_query u subtask_id db)); [|discriminate].
    destruct (negb (truthy _)); discriminate.
  - unfold move_subtask_up.
    destruct (first (subtask_query u subtask_id db)) as [x|]; [|discriminate].
    destruct (Subtask.order_index x); [|discriminate].
    destruct (first _); discriminate.
  - unfold move_subtask_down.
    destruct (first (subtask_query u subtask_id db)) as [x|]; [|discriminate].
    destruct (Subtask.order_index x); [|discriminate].
    destruct (first _); discriminate.
  - unfold delete_subtask.
    destruct (first (subtask_query u subtask_id db)) as [s|] eqn:E;
      [|discriminate].
    destruct (queried_subtask_parent u subtask_id db s (subtasks db) E)
      as (p & _ & ->).
    destruct (_ && _); discriminate.
  - unfold edit_task.
    destruct (first (task_query u task_id db)); [|discriminate].
    destruct (invalid_task_fields _ _) as [[|]|]; try discriminate.
    destruct (py_int _) as [minutes|]; [|discriminate].
    destruct (sqlite_int minutes); discriminate.
  - unfold delete_task.
    destruct (first (task_query u task_id db)); discriminate.
  - discriminate.
  - unfold add_category. destruct (negb (truthy name)); [discriminate|].
    destruct (first (category_named _ _ _)); discriminate.
  - unfold delete_category.
    destruct (first (category_query u category_id db)); discriminate.
  - unfold move_task_up.
    destruct (first (task_query u task_id db)) as [x|]; [|discriminate].
    destruct (Task.order_index x); [|discriminate].
    destruct (first _); discriminate.
  - unfold move_task_down.
    destruct (first (task_query u task_id db)) as [x|]; [|discriminate].
    destruct (Task.order_index x); [|discriminate].
    destruct (first _); discriminate.
Qed.

(** X16: a request that is not answered by the plain redirect of a
    completed request (a 404, a flashed message, an exception: the
    [ValueError] of [int], the [OverflowError] of the commit, the
    [ArgumentError] of a comparison with [None]) leaves the database as it
    was. *)
Theorem handle_failure_keeps_db u r db :
  snd (handle u r db) <> Redirect None -> fst (handle u r db) = db.
Proof.
  destruct r; cbn [handle].
  - unfold add_task.
    destruct (invalid_task_fields _ _) as [[|]|]; try reflexivity.
    destruct (py_int _) as [minutes|]; [|reflexivity].
    destruct (sqlite_int minutes); [|reflexivity]. now intros [].
  - unfold toggle_task.
    destruct (first (task_query u task_id db)); [|reflexivity].
    now intros [].
  - unfold add_subtask.
    destruct (first (task_query u task_id db)); [|reflexivity].
    destruct (negb (truthy _)); [reflexivity|]. now intros [].
  - unfold toggle_subtask.
    destruct (first (subtask_query u subtask_id db)); [|reflexivity].
    destruct (parent_task _ _); [|reflexivity]. now intros [].
  - unfold edit_subtask.
    destruct (first (subtask_query u subtask_id db)); [|reflexivity].
    destruct (negb (truthy _)); [reflexivity|]. now intros [].
  - unfold move_subtask_up.
    destruct (first (subtask_query u subtask_id db)) as [x|]; [|reflexivity].
    destruct (Subtask.order_index x); [|reflexivity].
    destruct (first _); now intros [].
  - unfold move_subtask_down.
    destruct (first (subtask_query u subtask_id db)) as [x|]; [|reflexivity].
    destruct (Subtask.order_index x); [|reflexivity].
    destruct (first _); now intros [].
  - unfold delete_subtask.
    destruct (first (subtask_query u subtask_id db)) as [s|] eqn:E;
      [|reflexivity].
    destruct (queried_subtask_parent u subtask_id db s (subtasks db) E)
      as (p & _ & ->).
    destruct (_ && _); now intros [].
  - unfold edit_task.
    destruct (first (task_query u task_id db)); [|reflexivity].
    destruct (invalid_task_fields _ _) as [[|]|]; try reflexivity.
    destruct (py_int _) as [minutes|]; [|reflexivity].
    destruct (sqlite_int minutes); [|reflexivity]. now intros [].
  - unfold delete_task.
    destruct (first (task_query u task_id db)); [|reflexivity].
    now intros [].
  - now intros [].
  - unfold add_category. destruct (negb (truthy name)); [reflexivity|].
    destruct (first (category_named _ _ _)); [reflexivity|]. now intros [].
  - unfold delete_category.
    destruct (first (category_query u category_id db)); [|reflexivity].
    now intros [].
  - unfold move_task_up.
    destruct (first (task_query u task_id db)) as [x|]; [|reflexivity].
    destruct (Task.order_index x); [|reflexivity].
    destruct (first _); now intros [].
  - unfold move_task_down.
    destruct (first (task_query u task_id db)) as [x|]; [|reflexivity].
    destruct (Task.order_index x); [|reflexivity].
    destruct (first _); now intros [].
Qed.

End Responses.

Lemma handle_failure_keeps_db_witness :
  snd (@handle AsciiRuntime.runtime 1 (EditTask 2 non_numeric_form) sample_db)
  <> Redirect None
  /\ fst (@handle AsciiRuntime.runtime 1 (EditTask 2 non_numeric_form)
            sample_db)
     = sample_db.
Proof.
  assert (snd (@handle AsciiRuntime.runtime 1 (EditTask 2 non_numeric_form)
                 sample_db) <> Redirect None) as Hf
    by (vm_compute; discriminate).
  split; [exact Hf|].
  exact (@handle_failure_keeps_db AsciiRuntime.runtime 1
           (EditTask 2 non_numeric_form) sample_db Hf).
Defined.

(** ** Reachable databases *)

Section Reachable.
Context `{Runtime}.

Lemma run_invariant (P : Db -> Prop) :
  (forall u r db, P db -> P (fst (handle u r db))) ->
  forall rs db, P db -> P (run rs db).
Proof.
  intros Hstep rs. unfold run.
  induction rs as [|[u r] rs IH]; intros db Hdb; [exact Hdb|].
  simpl. apply IH. now apply Hstep.
Qed.

Lemma run_with_keys (P : Db -> Prop) :
  (forall u r db, keys_ok db -> P db -> P (fst (handle u r db))) ->
  forall rs db, keys_ok db -> P db -> P (run rs db).
Proof.
  intros Hstep rs db Hk Hp.
  apply (run_invariant (fun db => keys_ok db /\ P db)); [|now split].
  intros u r db' [Hk' Hp']. split; [now apply handle_keys_ok|].
  now apply Hstep.
Qed.

(** The statements below are about [run]: a series of the fifteen requests
    of [request].  [register], which creates the rows of [sample_db] for a
    new user, and [edit_category] are not among them. *)

(** Primary keys stay unique, given that a new row gets a key above those
    of its table. *)
Lemma run_keys_ok rs db : keys_ok db -> keys_ok (run rs db).
Proof. apply run_invariant. intros u r. apply handle_keys_ok. Qed.

(** X10: on a database with unique primary keys, under any series of the
    modelled requests a task stays marked complete only while all its
    subtasks are complete. *)
Theorem run_consistent rs db :
  keys_ok db -> consistent db -> consistent (run rs db).
Proof. apply run_with_keys. intros u r. apply handle_consistent. Qed.

(** X11: on a database with unique primary keys, under any series of the
    modelled requests no two tasks of a user and no two subtasks of a task
    come to share an order key. *)
Theorem run_distinct_order_keys rs db :
  keys_ok db -> distinct_order_keys db -> distinct_order_keys (run rs db).
Proof. apply run_with_keys. intros u r. apply handle_distinct. Qed.

(** X12: on a database with unique primary keys, under any series of the
    modelled requests the category of a task stays a category of the owner
    of the task; in particular no task keeps a reference to a deleted
    category. *)
Theorem run_category_refs_owned rs db :
  keys_ok db -> category_refs_owned db -> category_refs_owned (run rs db).
Proof. apply run_with_keys. intros u r. apply handle_refs_owned. Qed.

(** X13: under any series of the modelled requests no user comes to have
    two categories of the same name. *)
Theorem run_category_names_unique rs db :
  category_names_unique db -> category_names_unique (run rs db).
Proof. apply run_invariant. intros u r. apply handle_names_unique. Qed.

(** X14: on a database with unique primary keys, under any series of the
    modelled requests every subtask keeps a task: deleting a task deletes
    its subtasks, and a subtask is only added to a task that exists. *)
Theorem run_no_orphans rs db :
  keys_ok db -> no_orphans db -> no_orphans (run rs db).
Proof. apply run_with_keys. intros u r. apply handle_no_orphans. Qed.
End Reachable.

Lemma handle_leaves_others_witness :
  keys_ok shared_db /\ category_refs_owned shared_db
  /\ others 1 (fst (@handle AsciiRuntime.runtime 1 ResetAllTasks shared_db))
     = others 1 shared_db.
Proof.
  split; [exact shared_db_keys_ok|]. split; [exact shared_db_refs_owned|].
  exact (@handle_leaves_others AsciiRuntime.runtime 1 ResetAllTasks shared_db
           shared_db_keys_ok shared_db_refs_owned).
Defined.

Lemma run_consistent_witness :
  keys_ok sample_db /\ consistent sample_db
  /\ consistent (@run AsciiRuntime.runtime sample_session sample_db).
Proof.
  split; [exact sample_db_keys_ok|]. split; [exact sample_db_consistent|].
  exact (@run_consistent AsciiRuntime.runtime sample_session sample_db
           sample_db_keys_ok sample_db_consistent).
Defined.

Lemma run_distinct_order_keys_witness :
  keys_ok sample_db /\ distinct_order_keys sample_db
  /\ distinct_order_keys
       (@run AsciiRuntime.runtime sample_session sample_db).
Proof.
  split; [exact sample_db_keys_ok|]. split; [exact sample_db_distinct|].
  exact (@run_distinct_order_keys AsciiRuntime.runtime sample_session
           sample_db sample_db_keys_ok sample_db_distinct).
Defined.

Lemma run_category_refs_owned_witness :
  keys_ok sample_db /\ category_refs_owned sample_db
  /\ category_refs_owned
       (@run AsciiRuntime.runtime sample_session sample_db).
Proof.
  split; [exact sample_db_keys_ok|]. split; [exact sample_db_refs_owned|].
  exact (@run_category_refs_owned AsciiRuntime.runtime sample_session
           sample_db sample_db_keys_ok sample_db_refs_owned).
Defined.

Lemma run_category_names_unique_witness :
  category_names_unique sample_db
  /\ category_names_unique
       (@run AsciiRuntime.runtime sample_session sample_db).
Proof.
  split; [exact sample_db_names_unique|].
  exact (@run_category_names_unique AsciiRuntime.runtime sample_session
           sample_db sample_db_names_unique).
Defined.

Lemma run_no_orphans_witness :
  keys_ok sample_db /\ no_orphans sample_db
  /\ no_orphans (@run AsciiRuntime.runtime sample_session sample_db).
Proof.
  split; [exact sample_db_keys_ok|]. split; [exact sample_db_no_orphans|].
  exact (@run_no_orphans AsciiRuntime.runtime sample_session sample_db
           sample_db_keys_ok sample_db_no_orphans).
Defined.

(** ** Moves on databases with distinct order keys *)

Lemma NoDup_map_inj {A B : Type} (f : A -> B) l a b :
  NoDup (map f l) -> In a l -> In b l -> f a = f b -> a = b.
Proof.
  induction l as [|x l IH]; simpl; [contradiction|].
  intros Hnd Ha Hb E. inversion Hnd as [|? ? Hx Hnd']; subst.
  destruct Ha as [->|Ha], Hb as [->|Hb]; auto.
  - elim Hx. rewrite E. now apply in_map.
  - elim Hx. rewrite <- E. now apply in_map.
Qed.

Lemma distinct_task_key_unique u db x :
  distinct_order_keys db -> In x (tasks db) -> Task.user_id x = u ->
  key_unique Task.order_index (same_user u) Task.is_completed Task.id x
    (tasks db).
Proof.
  intros [Hd _] Hx Hu r Hr Sr _ Ec. f_equal.
  apply (NoDup_map_inj Task.order_index (task_scope u db));
    [apply Hd| | |exact Ec]; apply filter_In; split; auto.
  now apply Z.eqb_eq.
Qed.

Lemma distinct_subtask_key_unique db x :
  distinct_order_keys db -> In x (subtasks db) ->
  key_unique Subtask.order_index (same_parent x) Subtask.is_completed
    Subtask.id x (subtasks db).
Proof.
  intros [_ Hd] Hx r Hr Sr _ Ec. f_equal.
  apply (NoDup_map_inj Subtask.order_index
           (subtask_scope (Subtask.task_id x) db));
    [apply Hd| | |exact Ec]; apply filter_In; split; auto.
  apply Z.eqb_refl.
Qed.

(** X17: on a database with distinct order keys, moving a task up and
    then down again restores the database, whenever there is a task to
    move past; the same for a subtask. *)
Theorem moves_undo_on_distinct_keys (u : Z) (db : Db) :
  keys_ok db -> distinct_order_keys db ->
  (forall tid task prev,
     first (task_query u tid db) = Some task ->
     In prev (tasks db) ->
     candidate Task.order_index (same_user u) Task.is_completed sql_lt task
       prev = true ->
     exists db1,
       move_task_up u tid db = (db1, Redirect None)
       /\ move_task_down u tid db1 = (db, Redirect None)
       /\ db1 <> db)
  /\ (forall sid subtask prev,
        first (subtask_query u sid db) = Some subtask ->
        In prev (subtasks db) ->
        candidate Subtask.order_index (same_parent subtask)
          Subtask.is_completed sql_lt subtask prev = true ->
        exists db1,
          move_subtask_up u sid db = (db1, Redirect None)
          /\ move_subtask_down u sid db1 = (db, Redirect None)
          /\ db1 <> db).
Proof.
  intros [Hpk _] Hd. split.
  - intros tid task prev E Hprev Hc.
    apply (move_task_round_trip u tid db task prev); auto.
    apply task_query_found in E. destruct E as (Hin & _ & Hu).
    now apply distinct_task_key_unique.
  - intros sid subtask prev E Hprev Hc.
    apply (move_subtask_round_trip u sid db subtask prev); auto.
    apply first_filter_some in E. destruct E as [Hin _].
    now apply distinct_subtask_key_unique.
Qed.

Lemma trip_db_keys_ok : keys_ok trip_db.
Proof. split; [exact trip_db_primary_keys|constructor]. Qed.

Lemma trip_db_distinct : distinct_order_keys trip_db.
Proof.
  split.
  - intros u. unfold task_scope.
    cbn [tasks trip_db filter Task.user_id task_of].
    destruct (1 =? u); simpl; repeat constructor; simpl;
      intuition discriminate.
  - intros t. unfold subtask_scope.
    cbn [subtasks trip_db filter Subtask.task_id subtask_of].
    destruct (2 =? t); simpl; repeat constructor; simpl;
      intuition discriminate.
Qed.

Lemma moves_undo_on_distinct_keys_witness :
  keys_ok trip_db /\ distinct_order_keys trip_db
  /\ (exists db1,
        move_task_up 1 2 trip_db = (db1, Redirect None)
        /\ move_task_down 1 2 db1 = (trip_db, Redirect None)
        /\ db1 <> trip_db)
  /\ (exists db1,
        move_subtask_up 1 2 trip_db = (db1, Redirect None)
        /\ move_subtask_down 1 2 db1 = (trip_db, Redirect None)
        /\ db1 <> trip_db).
Proof.
  split; [exact trip_db_keys_ok|]. split; [exact trip_db_distinct|].
  destruct (moves_undo_on_distinct_keys 1 trip_db trip_db_keys_ok
              trip_db_distinct) as [Ht Hs].
  split.
  - apply (Ht 2 (task_of 2 "Pack" false "medium" "evening" (Some 2) 1)
              (task_of 1 "Book flights" false "high" "morning" (Some 1) 1)).
    + reflexivity.
    + simpl. auto.
    + reflexivity.
  - apply (Hs 2 (subtask_of 2 "Tickets" false 2 2)
              (subtask_of 1 "Passport" false 1 2)).
    + reflexivity.
    + simpl. auto.
    + reflexivity.
Defined.

(** ** Resetting, toggling twice, deleting *)

Lemma reset_scope (p : Task.t -> bool) u l :
  (forall t, p t = true -> (Task.user_id t =? u) = true) ->
  (forall t, p (Task.with_is_completed false t) = p t) ->
  let g := fun t =>
             if Task.user_id t =? u then Task.with_is_completed false t
             else t in
  filter Task.is_completed (filter p (map g l)) = []
  /\ List.length (filter p (map g l)) = List.length (filter p l).
Proof.
  intros Hu Hp g.
  assert (forall t, p (g t) = p t) as Hg
    by (intros t; unfold g; now destruct (Task.user_id t =? u)).
  induction l as [|t l [IH1 IH2]]; simpl; [now split|].
  rewrite Hg. destruct (p t) eqn:Pt; simpl; [|now split].
  rewrite IH2. split; [|reflexivity].
  unfold g at 1. rewrite (Hu t Pt). simpl. exact IH1.
Qed.

Section Reset.
Context `{Runtime}.

(** X18: right after [reset_all_tasks] the dashboard of the user counts no
    completed task, under any category filter, and as many tasks as
    before. *)
Theorem dashboard_after_reset u category db :
  primary_keys db ->
  let v := dashboard u category (fst (reset_all_tasks u db)) in
  completed_tasks v = 0
  /\ in_progress_tasks v = total_tasks v
  /\ total_tasks v = total_tasks (dashboard u category db).
Proof.
  intros Hpk. rewrite (reset_all_tasks_eq _ _ Hpk). cbn [fst].
  unfold dashboard.
  cbn [completed_tasks in_progress_tasks total_tasks tasks].
  set (g := fun t =>
              if Task.user_id t =? u then Task.with_is_completed false t
              else t).
  assert (forall p,
            (forall t, p t = true -> (Task.user_id t =? u) = true) ->
            (forall t, p (Task.with_is_completed false t) = p t) ->
            let l' := filter p (map g (tasks db)) in
            Z.of_nat (List.length (filter Task.is_completed l')) = 0
            /\ Z.of_nat (List.length l')
               - Z.of_nat (List.length (filter Task.is_completed l'))
               = Z.of_nat (List.length l')
            /\ Z.of_nat (List.length l')
               = Z.of_nat (List.length (filter p (tasks db)))) as Hscope.
  { intros p Hu Hp l'.
    destruct (reset_scope p u (tasks db) Hu Hp) as [E1 E2].
    fold g in E1, E2. fold l' in E1, E2. rewrite E1, E2. simpl.
    repeat split; lia. }
  destruct (String.eqb _ "all").
  - apply Hscope; auto.
  - destruct (sql_integer _) as [c|]; [|now simpl].
    apply Hscope; [|reflexivity].
    intros t E. apply andb_true_iff in E. tauto.
Qed.
End Reset.

Lemma dashboard_after_reset_witness :
  primary_keys sample_db
  /\ completed_tasks
       (@dashboard AsciiRuntime.runtime 1 (Some "2")
          (fst (reset_all_tasks 1 sample_db))) = 0
  /\ total_tasks
       (@dashboard AsciiRuntime.runtime 1 (Some "2")
          (fst (reset_all_tasks 1 sample_db))) = 2.
Proof.
  split; [exact sample_db_primary_keys|].
  destruct (@dashboard_after_reset AsciiRuntime.runtime 1 (Some "2")
              sample_db sample_db_primary_keys) as (E1 & _ & E2).
  split; [exact E1|]. rewrite E2. reflexivity.
Defined.

Lemma existsb_map {A B : Type} (p : B -> bool) (g : A -> B) l :
  existsb p (map g l) = existsb (fun x => p (g x)) l.
Proof.
  induction l as [|x l IH]; simpl; [reflexivity|]. now rewrite IH.
Qed.

Lemma existsb_same {A : Type} (p q : A -> bool) l :
  (forall x, p x = q x) -> existsb p l = existsb q l.
Proof.
  intros E. induction l as [|x l IH]; simpl; [reflexivity|].
  now rewrite E, IH.
Qed.

(** X19: resetting twice does what resetting once does. *)
Theorem reset_all_tasks_idempotent u db :
  primary_keys db ->
  reset_all_tasks u (fst (reset_all_tasks u db)) = reset_all_tasks u db.
Proof.
  intros Hpk. rewrite (reset_all_tasks_eq u db Hpk). cbn [fst].
  rewrite reset_all_tasks_eq.
  - cbn [tasks subtasks categories]. rewrite !map_map. f_equal. f_equal.
    + apply map_ext. intros t.
      destruct (Task.user_id t =? u) eqn:E; simpl; now rewrite E.
    + apply map_ext. intros s. unfold subtask_of_user at 1.
      cbn [tasks]. rewrite existsb_map.
      assert (forall s',
                Subtask.task_id s' = Subtask.task_id s ->
                existsb
                  (fun x =>
                     (Task.id
                        (if Task.user_id x =? u
                         then Task.with_is_completed false x else x)
                      =? Subtask.task_id s')
                     && (Task.user_id
                           (if Task.user_id x =? u
                            then Task.with_is_completed false x else x)
                         =? u)) (tasks db)
                = subtask_of_user u db s) as Eo.
      { intros s' ->. unfold subtask_of_user. apply existsb_same.
        intros x.
        destruct (Task.user_id x =? u) eqn:E; simpl; now rewrite ?E. }
      destruct (subtask_of_user u db s) eqn:Es.
      * rewrite Eo by reflexivity. reflexivity.
      * now rewrite Eo.
  - destruct Hpk as [Ht Hs]. split; cbn [tasks subtasks];
      now rewrite map_map_if.
Qed.

Lemma reset_all_tasks_idempotent_witness :
  primary_keys sample_db
  /\ reset_all_tasks 1 (fst (reset_all_tasks 1 sample_db))
     = reset_all_tasks 1 sample_db.
Proof.
  split; [exact sample_db_primary_keys|].
  exact (reset_all_tasks_idempotent 1 sample_db sample_db_primary_keys).
Defined.

Lemma task_query_updated u tid db task f ss cs :
  first (task_query u tid db) = Some task ->
  (forall r, Task.id (f r) = Task.id r) ->
  (forall r, Task.user_id (f r) = Task.user_id r) ->
  first
    (task_query u tid
       (mkDb (update_row Task.id (Task.id task) f (tasks db)) ss cs))
  = Some (f task).
Proof.
  intros E Hid Hu. unfold task_query. cbn [tasks].
  unfold update_row. rewrite filter_map_commute, first_map.
  - fold (task_query u tid db). rewrite E. simpl. now rewrite Z.eqb_refl.
  - intros r. destruct (Task.id r =? Task.id task); [|reflexivity].
    now rewrite Hid, Hu.
Qed.

(** X20: toggling a task twice restores the task table; of the subtasks,
    those of the task end up completed whatever they were, since either
    the first or the second toggle completes the task. *)
Theorem toggle_task_twice u tid db task :
  keys_ok db -> first (task_query u tid db) = Some task ->
  fst (toggle_task u tid (fst (toggle_task u tid db)))
  = mkDb (tasks db)
      (map (fun s =>
              if Subtask.task_id s =? tid
              then Subtask.with_is_completed true s else s) (subtasks db))
      (categories db).
Proof.
  intros [[Ht Hs] _] E. pose proof (task_query_found _ _ _ _ E)
    as (Hin & Hid & _).
  rewrite (toggle_task_eq u tid db Hs), E. cbn [fst].
  rewrite toggle_task_eq.
  - rewrite (task_query_updated u tid db task _ _ _ E)
      by reflexivity.
    cbn [fst tasks subtasks categories Task.is_completed
           Task.with_is_completed Task.id].
    f_equal.
    + unfold update_row. rewrite map_map. rewrite <- (map_id (tasks db)) at 2.
      apply map_ext_in. intros r Hr.
      destruct (Z.eqb_spec (Task.id r) (Task.id task)) as [Er|Er].
      * cbn [Task.id Task.with_is_completed]. rewrite Er, Z.eqb_refl.
        rewrite (pk_unique Task.id (tasks db) r task Ht Hr Hin Er).
        rewrite negb_involutive. now destruct task.
      * apply Z.eqb_neq in Er. now rewrite Er.
    + rewrite Hid. destruct (Task.is_completed task); reflexivity.
  - cbn [subtasks]. destruct (Task.is_completed task); [exact Hs|].
    now rewrite map_map_if.
Qed.

Lemma toggle_task_twice_witness :
  keys_ok sample_db
  /\ map Task.is_completed
       (tasks (fst (toggle_task 1 2 (fst (toggle_task 1 2 sample_db)))))
     = [false; false; true; false]
  /\ map Subtask.is_completed
       (subtasks (fst (toggle_task 1 2 (fst (toggle_task 1 2 sample_db)))))
     = [true; true; true].
Proof.
  split; [exact sample_db_keys_ok|].
  rewrite (toggle_task_twice 1 2 sample_db
             (Task.mk 2 "Team meeting" 60 false (Some "high")
                (Some "morning") (Some 2) 1 (Some 2) 0)
             sample_db_keys_ok eq_refl).
  split; reflexivity.
Defined.

(** X21: deleting a task deletes the task and all its subtasks, and
    nothing else. *)
Theorem delete_task_cascades u tid db task :
  keys_ok db -> first (task_query u tid db) = Some task ->
  delete_task u tid db
  = (mkDb (filter (fun t => negb (Task.id t =? tid)) (tasks db))
       (filter (fun s => negb (Subtask.task_id s =? tid)) (subtasks db))
       (categories db),
     Redirect None).
Proof.
  intros [[_ Hs] _] E. rewrite (delete_task_eq u tid db Hs), E.
  apply task_query_found in E. destruct E as (_ & -> & _). reflexivity.
Qed.

Lemma delete_task_cascades_witness :
  keys_ok sample_db
  /\ map Task.id (tasks (fst (delete_task 1 2 sample_db))) = [1; 3; 4]
  /\ map Subtask.id (subtasks (fst (delete_task 1 2 sample_db))) = [3].
Proof.
  split; [exact sample_db_keys_ok|].
  rewrite (delete_task_cascades 1 2 sample_db
             (Task.mk 2 "Team meeting" 60 false (Some "high")
                (Some "morning") (Some 2) 1 (Some 2) 0)
             sample_db_keys_ok eq_refl).
  split; reflexivity.
Defined.

(** ** What a user sees *)

Section Seen.
Context `{Runtime}.

Lemma dashboard_by_others u v category db db' :
  u <> v -> others u db' = others u db ->
  dashboard v category db' = dashboard v category db.
Proof.
  intros Huv Eo. unfold others in Eo. injection Eo as Et Es Ec.
  assert (forall t, Task.user_id t = v -> foreign_task u t = true) as Hf.
  { intros t <-. unfold foreign_task. apply negb_true_iff.
    now apply Z.eqb_neq. }
  assert (forall p,
            (forall t, p t = true -> Task.user_id t = v) ->
            filter p (tasks db') = filter p (tasks db)) as Hp.
  { intros p Hp.
    rewrite <- (filter_filter_fix p (foreign_task u) (tasks db')),
      <- (filter_filter_fix p (foreign_task u) (tasks db));
      [now rewrite Et| |]; intros r _ Pr; apply Hf; now apply Hp. }
  assert (forall task p,
            In task (tasks db) -> In task (tasks db') ->
            Task.user_id task = v ->
            (forall s, p s = true -> Subtask.task_id s = Task.id task) ->
            filter p (subtasks db') = filter p (subtasks db)) as Hs.
  { intros task p Hin Hin' Hu Hparent.
    rewrite <- (filter_filter_fix p (foreign_subtask u db') (subtasks db')),
      <- (filter_filter_fix p (foreign_subtask u db) (subtasks db));
      [now rewrite Es| |]; intros s _ Ps; apply existsb_exists;
      exists task; (split; [assumption|]);
      rewrite (Hparent s Ps), Z.eqb_refl; now rewrite Hf. }
  set (scope := fun d : Db =>
         if String.eqb
              match category with
              | Some c => c
              | None => "all"
              end "all"
         then filter (fun t => Task.user_id t =? v) (tasks d)
         else
           match
             sql_integer
               match category with
               | Some c => c
               | None => "all"
               end
           with
           | Some c =>
             filter (fun t => (Task.user_id t =? v) && in_category c t)
               (tasks d)
           | None => []
           end).
  assert (scope db' = scope db) as Escope.
  { unfold scope. destruct (String.eqb _ "all").
    - apply Hp. intros t E. now apply Z.eqb_eq.
    - destruct (sql_integer _); [|reflexivity].
      apply Hp. intros t E. apply andb_true_iff in E. destruct E as [E _].
      now apply Z.eqb_eq. }
  assert (forall d t, In t (scope d) ->
            In t (tasks d) /\ Task.user_id t = v) as Hown.
  { intros d t. unfold scope. destruct (String.eqb _ "all").
    - intros Hin. apply filter_In in Hin. now rewrite Z.eqb_eq in Hin.
    - destruct (sql_integer _); [|contradiction].
      intros Hin. apply filter_In in Hin.
      rewrite andb_true_iff, Z.eqb_eq in Hin. tauto. }
  unfold dashboard. cbv zeta. fold (scope db') (scope db).
  rewrite Escope. f_equal.
  - apply map_ext_in. intros task Hin.
    apply (Permutation_in _ (sorted_perm key_leb task_sort_key _)) in Hin.
    destruct (Hown db task Hin) as [Hdb Hu].
    rewrite <- Escope in Hin. destruct (Hown db' task Hin) as [Hdb' _].
    f_equal. unfold sorted_subtasks, order_by.
    rewrite !(Hs task _ Hdb Hdb' Hu); [reflexivity| |];
      intros s E; apply andb_true_iff in E; destruct E as [E _];
      now apply Z.eqb_eq.
  - rewrite <- (filter_filter_fix _ (foreign_category u) (categories db')),
      <- (filter_filter_fix _ (foreign_category u) (categories db));
      [now rewrite Ec| |]; intros k _ E; apply Z.eqb_eq in E;
      unfold foreign_category; apply negb_true_iff, Z.eqb_neq; congruence.
Qed.

(** X22: on a database with unique primary keys and owned category
    references, what a user sees on the dashboard, under any category
    filter, is not changed by any series of the modelled requests made by
    other users. *)
Theorem dashboard_unaffected_by_others v category rs db :
  keys_ok db -> category_refs_owned db ->
  Forall (fun ur => fst ur <> v) rs ->
  dashboard v category (run rs db) = dashboard v category db.
Proof.
  intros Hk Hrefs Hrs. revert db Hk Hrefs. unfold run.
  induction Hrs as [|[u r] rs Hu _ IH]; intros db Hk Hrefs; [reflexivity|].
  simpl. rewrite IH.
  - apply (dashboard_by_others u); [exact Hu|].
    apply others_same.
    + now apply handle_foreign_tasks.
    + now apply handle_foreign_subtasks.
    + now apply handle_foreign_categories.
  - now apply handle_keys_ok.
  - now apply handle_refs_owned.
Qed.
End Seen.

Lemma dashboard_unaffected_by_others_witness :
  keys_ok shared_db /\ category_refs_owned shared_db
  /\ Forall (fun ur : Z * request => fst ur <> 2)
       [(1, ResetAllTasks); (1, DeleteTask 2); (1, AddTask sample_form);
        (1, DeleteCategory 2)]
  /\ @dashboard AsciiRuntime.runtime 2 None
       (@run AsciiRuntime.runtime
          [(1, ResetAllTasks); (1, DeleteTask 2); (1, AddTask sample_form);
           (1, DeleteCategory 2)] shared_db)
     = @dashboard AsciiRuntime.runtime 2 None shared_db.
Proof.
  assert (Forall (fun ur : Z * request => fst ur <> 2)
            [(1, ResetAllTasks); (1, DeleteTask 2); (1, AddTask sample_form);
             (1, DeleteCategory 2)]) as Hrs
    by (repeat constructor; simpl; lia).
  split; [exact shared_db_keys_ok|]. split; [exact shared_db_refs_owned|].
  split; [exact Hrs|].
  exact (@dashboard_unaffected_by_others AsciiRuntime.runtime 2 None _
           shared_db shared_db_keys_ok shared_db_refs_owned Hrs).
Defined.

(** ** Editing *)

(** X23: editing a task or a subtask changes neither the completion flag,
    nor the order key, nor the owner or parent of any row, adds and removes
    no row, and leaves the other two tables as they were. *)
Theorem edits_keep_flags_and_order `{Runtime} (u id : Z) (form : TaskForm.t)
    (description : option string) (db : Db) :
  (let db' := fst (edit_task u id form db) in
   task_flags db' = task_flags db
   /\ task_orders db' = task_orders db
   /\ task_owners db' = task_owners db
   /\ subtasks db' = subtasks db
   /\ categories db' = categories db)
  /\ (let db' := fst (edit_subtask u id description db) in
      subtask_flags db' = subtask_flags db
      /\ subtask_orders db' = subtask_orders db
      /\ map Subtask.id (subtasks db') = map Subtask.id (subtasks db)
      /\ tasks db' = tasks db
      /\ categories db' = categories db).
Proof.
  split; cbv zeta.
  - unfold edit_task.
    destruct (first (task_query u id db)); [|now repeat split].
    destruct (invalid_task_fields _ _) as [[|]|]; try now repeat split.
    destruct (py_int _) as [minutes|]; [|now repeat split].
    destruct (sqlite_int minutes); [|now repeat split].
    unfold task_flags, task_orders, task_owners.
    repeat split; same_view.
  - unfold edit_subtask.
    destruct (first (subtask_query u id db)); [|now repeat split].
    destruct (negb (truthy _)); [now repeat split|].
    unfold subtask_flags, subtask_orders.
    repeat split; same_view.
Qed.
